(** * bigquery-ddl-deploy: a shallow embedding of [src/bigquery_ddl_deploy.py]

    The script deploys the [.sql] files of one directory with the [bq]
    command line tool and keeps, in a MongoDB collection, one document per
    (project, repository, Google project) with the MD5 fingerprint of every
    file it deployed.  A file whose fingerprint is unchanged is skipped.

    Layout of the development:
    - [Py]: Python values the script manipulates (text, [str] methods,
      [os.path.join], [list.sort]);
    - [Codec]: [str.encode("utf-8")] and [hashlib.md5(...).hexdigest()];
    - [Sys]: the world the script runs in (environment, file system, clock,
      [bq], the Mongo collection, the log) and the state-and-exception monad
      the embedding is written in;
    - [Mongo]: [find_one], [replace_one] and [insert_one];
    - [ProjectRepoHashes]: the class of that name;
    - [Deploy]: the functions [deploy], [get_sql], [execute_sql],
      [find_ddl_files] and [main];
    - the notions the properties need, a small world to run the script in,
      and the properties, one section per subject. *)

From Stdlib Require Import NArith ZArith Ascii String List Sorting.Sorted Lia.
From stdpp Require Import base option list sorting gmap.

Local Open Scope N_scope.

(* ===================================================================== *)
(** ** Python values *)
(* ===================================================================== *)

Module Py.

(** A Python [str] is a sequence of Unicode code points.  Code points are
    numbers below [0x110000]; the surrogates [0xD800..0xDFFF] are legal
    members of a [str] but have no UTF-8 encoding. *)
Abbreviation str := (list N).

(** A [bytes] object: every member is below 256. *)
Abbreviation bytes := (list N).

(** An ASCII literal of the source, as a [str]. *)
Definition u (s : string) : str :=
  map N_of_ascii (list_ascii_of_string s).

(** [s.startswith(p)] *)
Fixpoint startswith (s p : str) : bool :=
  match p, s with
  | [], _ => true
  | _ :: _, [] => false
  | a :: p', b :: s' => (a =? b) && startswith s' p'
  end.

(** [s.endswith(p)] *)
Definition endswith (s p : str) : bool :=
  startswith (rev s) (rev p).

(** [sep.join(l)] *)
Fixpoint join (sep : str) (l : list str) : str :=
  match l with
  | [] => []
  | [x] => x
  | x :: l' => x ++ sep ++ join sep l'
  end.

(** [s.split(sep, 1)] for a one-character separator: the text before the
    first [sep] and the text after it, or [s] alone when [sep] is absent. *)
Fixpoint split1 (sep : N) (s : str) : list str :=
  match s with
  | [] => [[]]
  | c :: s' =>
      if c =? sep then [[]; s']
      else match split1 sep s' with
           | x :: r => (c :: x) :: r
           | [] => [[c]]
           end
  end.

(** [posixpath.join(a, b)]: an absolute [b] replaces [a]; otherwise [b] is
    appended, after a ["/"] unless [a] is empty or already ends with one. *)
Definition path_join (a b : str) : str :=
  if startswith b (u "/") then b
  else if bool_decide (a = []) || endswith a (u "/") then a ++ b
  else a ++ u "/" ++ b.

(** [a <= b] on [str]: lexicographic on code points. *)
Fixpoint str_leb (a b : str) : bool :=
  match a, b with
  | [], _ => true
  | _ :: _, [] => false
  | x :: a', y :: b' => (x <? y) || ((x =? y) && str_leb a' b')
  end.

(** [l.sort()] on a list of [str].  The order is total and equal texts are
    indistinguishable, so the result does not depend on the algorithm;
    insertion from the right keeps the definition structural. *)
Fixpoint insert_sorted (x : str) (l : list str) : list str :=
  match l with
  | [] => [x]
  | y :: l' => if str_leb x y then x :: l else y :: insert_sorted x l'
  end.

Definition sort (l : list str) : list str :=
  foldr insert_sorted [] l.

End Py.

Import Py.

(* ===================================================================== *)
(** ** [str.encode("utf-8")] and [hashlib.md5] *)
(* ===================================================================== *)

Module Codec.

(** UTF-8 of one code point; [None] is [UnicodeEncodeError] (a surrogate)
    and covers the numbers that are no code points at all. *)
Definition encode_char (c : N) : option bytes :=
  if c <? 0x80 then Some [c]
  else if c <? 0x800 then
    Some [N.lor 0xC0 (N.shiftr c 6); N.lor 0x80 (N.land c 0x3F)]
  else if (0xD800 <=? c) && (c <=? 0xDFFF) then None
  else if c <? 0x10000 then
    Some [N.lor 0xE0 (N.shiftr c 12);
          N.lor 0x80 (N.land (N.shiftr c 6) 0x3F);
          N.lor 0x80 (N.land c 0x3F)]
  else if c <? 0x110000 then
    Some [N.lor 0xF0 (N.shiftr c 18);
          N.lor 0x80 (N.land (N.shiftr c 12) 0x3F);
          N.lor 0x80 (N.land (N.shiftr c 6) 0x3F);
          N.lor 0x80 (N.land c 0x3F)]
  else None.

(** [text.encode("utf-8")] *)
Fixpoint utf8 (s : str) : option bytes :=
  match s with
  | [] => Some []
  | c :: s' =>
      match encode_char c, utf8 s' with
      | Some b, Some r => Some (b ++ r)
      | _, _ => None
      end
  end.

(** *** MD5 (RFC 1321), on 32-bit words kept in [N] *)

Definition w32 (x : N) : N := x mod 2 ^ 32.
Definition add32 (x y : N) : N := w32 (x + y).
Definition not32 (x : N) : N := N.lxor (w32 x) 0xFFFFFFFF.
Definition rotl32 (x s : N) : N :=
  w32 (N.lor (N.shiftl x s) (N.shiftr (w32 x) (32 - s))).

Definition md5_K : list N :=
  [ 0xd76aa478; 0xe8c7b756; 0x242070db; 0xc1bdceee;
    0xf57c0faf; 0x4787c62a; 0xa8304613; 0xfd469501;
    0x698098d8; 0x8b44f7af; 0xffff5bb1; 0x895cd7be;
    0x6b901122; 0xfd987193; 0xa679438e; 0x49b40821;
    0xf61e2562; 0xc040b340; 0x265e5a51; 0xe9b6c7aa;
    0xd62f105d; 0x02441453; 0xd8a1e681; 0xe7d3fbc8;
    0x21e1cde6; 0xc33707d6; 0xf4d50d87; 0x455a14ed;
    0xa9e3e905; 0xfcefa3f8; 0x676f02d9; 0x8d2a4c8a;
    0xfffa3942; 0x8771f681; 0x6d9d6122; 0xfde5380c;
    0xa4beea44; 0x4bdecfa9; 0xf6bb4b60; 0xbebfbc70;
    0x289b7ec6; 0xeaa127fa; 0xd4ef3085; 0x04881d05;
    0xd9d4d039; 0xe6db99e5; 0x1fa27cf8; 0xc4ac5665;
    0xf4292244; 0x432aff97; 0xab9423a7; 0xfc93a039;
    0x655b59c3; 0x8f0ccc92; 0xffeff47d; 0x85845dd1;
    0x6fa87e4f; 0xfe2ce6e0; 0xa3014314; 0x4e0811a1;
    0xf7537e82; 0xbd3af235; 0x2ad7d2bb; 0xeb86d391 ].

Definition md5_S : list N :=
  [ 7; 12; 17; 22; 7; 12; 17; 22; 7; 12; 17; 22; 7; 12; 17; 22;
    5;  9; 14; 20; 5;  9; 14; 20; 5;  9; 14; 20; 5;  9; 14; 20;
    4; 11; 16; 23; 4; 11; 16; 23; 4; 11; 16; 23; 4; 11; 16; 23;
    6; 10; 15; 21; 6; 10; 15; 21; 6; 10; 15; 21; 6; 10; 15; 21 ].

Definition nthN (l : list N) (i : N) : N := nth (N.to_nat i) l 0.

(** A word as four bytes, least significant first, and back. *)
Definition word_bytes (w : N) : bytes :=
  [ w mod 256; (w / 2 ^ 8) mod 256; (w / 2 ^ 16) mod 256; (w / 2 ^ 24) mod 256 ].

Definition bytes_word (b : bytes) : N :=
  foldr (fun x acc => x + 256 * acc) 0 b.

(** The sixteen words of a 64-byte block. *)
Fixpoint words (n : nat) (b : bytes) : list N :=
  match n with
  | O => []
  | S n' => bytes_word (firstn 4 b) :: words n' (skipn 4 b)
  end.

Definition md5_state : Type := N * N * N * N.

Definition md5_init : md5_state :=
  (0x67452301, 0xefcdab89, 0x98badcfe, 0x10325476).

(** One of the 64 operations of a block. *)
Definition md5_op (M : list N) (st : md5_state) (i : N) : md5_state :=
  let '(A, B, C, D) := st in
  let '(F, g) :=
    if i <? 16 then (N.lor (N.land B C) (N.land (not32 B) D), i)
    else if i <? 32 then
      (N.lor (N.land D B) (N.land (not32 D) C), (5 * i + 1) mod 16)
    else if i <? 48 then (N.lxor (N.lxor B C) D, (3 * i + 5) mod 16)
    else (N.lxor C (N.lor B (not32 D)), (7 * i) mod 16) in
  let F' := add32 (add32 (add32 F A) (nthN md5_K i)) (nthN M g) in
  (D, add32 B (rotl32 F' (nthN md5_S i)), B, C).

Definition md5_block (st : md5_state) (block : bytes) : md5_state :=
  let '(a0, b0, c0, d0) := st in
  let '(A, B, C, D) :=
    fold_left (md5_op (words 16 block)) (map N.of_nat (seq 0 64)) st in
  (add32 a0 A, add32 b0 B, add32 c0 C, add32 d0 D).

(** The message followed by [0x80], zeros up to 56 modulo 64, and the bit
    length as eight bytes, least significant first. *)
Definition md5_pad (msg : bytes) : bytes :=
  let len := N.of_nat (length msg) in
  let zeros := N.to_nat ((64 + 55 - len mod 64) mod 64) in
  let bits := (8 * len) mod 2 ^ 64 in
  msg ++ [0x80] ++ repeat 0 zeros
      ++ word_bytes (bits mod 2 ^ 32) ++ word_bytes (bits / 2 ^ 32).

Fixpoint md5_blocks (n : nat) (st : md5_state) (b : bytes) : md5_state :=
  match n with
  | O => st
  | S n' => md5_blocks n' (md5_block st (firstn 64 b)) (skipn 64 b)
  end.

(** [hashlib.md5(msg).digest()] *)
Definition md5_digest (msg : bytes) : bytes :=
  let p := md5_pad msg in
  let '(a, b, c, d) := md5_blocks (length p / 64)%nat md5_init p in
  word_bytes a ++ word_bytes b ++ word_bytes c ++ word_bytes d.

Definition hex_digit (n : N) : N :=
  if n <? 10 then 48 + n else 87 + n.

Definition hex_byte (b : N) : str :=
  [hex_digit ((b / 16) mod 16); hex_digit (b mod 16)].

(** [hashlib.md5(msg).hexdigest()] *)
Definition md5_hexdigest (msg : bytes) : str :=
  concat (map hex_byte (md5_digest msg)).

End Codec.

Import Codec.

(* ===================================================================== *)
(** ** The world of the script *)
(* ===================================================================== *)

Module Sys.

(** A [datetime.datetime] value: an instant, as a count of microseconds. *)
Abbreviation datetime := N.

(** A MongoDB [ObjectId]. *)
Abbreviation oid := nat.

(** One entry of [hashes["files"]]: the dict built as [new_hash] in
    [update_saved_hash]. *)
Module File.
Record file_attrs : Type := Build {
  file_name : str;
  file_hash : str;
  deploy_date : datetime;
  create_date : datetime;
}.
Definition set_file_hash (h : str) (f : file_attrs) : file_attrs :=
  Build (file_name f) h (deploy_date f) (create_date f).
Definition set_deploy_date (d : datetime) (f : file_attrs) : file_attrs :=
  Build (file_name f) (file_hash f) d (create_date f).
End File.
Export File (file_attrs).

(** A document of the collection [hadoopDeploy.bigQueryDeployHash], which is
    also the dict [self.hashes].  A key that can be missing is an [option]:
    ["_id"] before the first insertion, ["update_date"] in the literal of
    [__init__]. *)
Module Hashes.
Record document : Type := Build {
  _id : option oid;
  project_name : str;
  repo_name : str;
  google_project_id : str;
  create_date : datetime;
  update_date : option datetime;
  files : list file_attrs;
}.
Definition set__id (i : oid) (d : document) : document :=
  Build (Some i) (project_name d) (repo_name d) (google_project_id d)
        (create_date d) (update_date d) (files d).
Definition set_update_date (t : datetime) (d : document) : document :=
  Build (_id d) (project_name d) (repo_name d) (google_project_id d)
        (create_date d) (Some t) (files d).
Definition set_files (l : list file_attrs) (d : document) : document :=
  Build (_id d) (project_name d) (repo_name d) (google_project_id d)
        (create_date d) (update_date d) l.
End Hashes.
Export Hashes (document).

(** A [subprocess.CompletedProcess]. *)
Record CompletedProcess : Type := {
  returncode : Z;
  stdout : str;
  stderr : str;
}.

(** The exceptions the script can meet. *)
Inductive exn : Type :=
| KeyError (key : str)
| IndexError
| OSError (strerror : str)
| UnicodeEncodeError
| CalledProcessError (returncode : Z) (stdout stderr : str)
| SystemExit (code : Z).

Inductive level : Type := DEBUG | INFO | WARNING | ERROR.

Inductive arg : Type := Str (s : str) | Int (z : Z).

(** One call of [logging.debug/info/warning/error(msg, *args)]. *)
Record log_record : Type := {
  levelname : level;
  msg : string;
  args : list arg;
}.

(** What the script reads and cannot change: the environment variables,
    the file system, the successive readings of the clock, and what the
    [k]-th command started by the script does on its input ([inl] when it
    cannot be started). *)
Record env : Type := {
  environ : gmap str str;
  listdir : str -> str + list str;
  isfile : str -> bool;
  read : str -> str + str;
  clock : nat -> datetime;
  spawn : nat -> list str -> str -> str + CompletedProcess;
}.

(** What the script changes. *)
Record state : Type := {
  log : list log_record;
  clock_reads : nat;
  runs : list (list str * str);
  collection : list document;
}.

Definition add_log (r : log_record) (s : state) : state :=
  {| log := log s ++ [r]; clock_reads := clock_reads s;
     runs := runs s; collection := collection s |}.
Definition tick (s : state) : state :=
  {| log := log s; clock_reads := S (clock_reads s);
     runs := runs s; collection := collection s |}.
Definition add_run (c : list str * str) (s : state) : state :=
  {| log := log s; clock_reads := clock_reads s;
     runs := runs s ++ [c]; collection := collection s |}.
Definition set_collection (c : list document) (s : state) : state :=
  {| log := log s; clock_reads := clock_reads s;
     runs := runs s; collection := c |}.

(** [s] after some more calls of [logging], and nothing else. *)
Definition add_logs (rs : list log_record) (s : state) : state :=
  {| log := log s ++ rs; clock_reads := clock_reads s;
     runs := runs s; collection := collection s |}.

(** *** Computations: a result or an exception, and the new state *)

Inductive result (A : Type) : Type :=
| Return (a : A)
| Raise (e : exn).
Arguments Return {A} a.
Arguments Raise {A} e.

Definition M (A : Type) : Type := env -> state -> result A * state.

Definition ret {A} (a : A) : M A := fun _ s => (Return a, s).

Definition raise {A} (e : exn) : M A := fun _ s => (Raise e, s).

Definition bind {A B} (m : M A) (k : A -> M B) : M B :=
  fun E s =>
    match m E s with
    | (Return a, s') => k a E s'
    | (Raise e, s') => (Raise e, s')
    end.

(** The body of a [try]: its exception, if any, becomes a value for the
    [except] clauses to inspect. *)
Definition try {A} (m : M A) : M (result A) :=
  fun E s => let '(r, s') := m E s in (Return r, s').

Declare Scope py_scope.
Delimit Scope py_scope with py.
Notation "'let*' x ':=' m 'in' k" := (bind m (fun x => k))
  (at level 10, x pattern, m at level 100, k at level 200) : py_scope.
Notation "m ';;' k" := (bind m (fun _ => k))
  (at level 100, k at level 200, right associativity) : py_scope.

Local Open Scope py_scope.

(** [logging.<level>(msg, *args)] *)
Definition logging (l : level) (m : string) (a : list arg) : M unit :=
  fun _ s => (Return tt, add_log {| levelname := l; msg := m; args := a |} s).

(** [datetime.datetime.utcnow()] *)
Definition utcnow : M datetime :=
  fun E s => (Return (clock E (clock_reads s)), tick s).

(** [os.environ[key]] *)
Definition os_environ (key : str) : M str :=
  fun E s =>
    match environ E !! key with
    | Some v => (Return v, s)
    | None => (Raise (KeyError key), s)
    end.

(** [l[i]] *)
Definition getitem (l : list str) (i : nat) : M str :=
  match l !! i with
  | Some x => ret x
  | None => raise IndexError
  end.

(** [os.listdir(path)] *)
Definition os_listdir (path : str) : M (list str) :=
  fun E s =>
    match listdir E path with
    | inr entries => (Return entries, s)
    | inl e => (Raise (OSError e), s)
    end.

(** The file system and the other things the script only reads. *)
Definition ask : M env := fun E s => (Return E, s).

(** [text.encode("utf-8")] *)
Definition encode_utf8 (text : str) : M bytes :=
  match utf8 text with
  | Some b => ret b
  | None => raise UnicodeEncodeError
  end.

(** [subprocess.run(cmd, input=..., stdout=PIPE, stderr=PIPE, check=True,
    text=True)] *)
Definition subprocess_run (cmd : list str) (input : str) : M CompletedProcess :=
  fun E s =>
    let s' := add_run (cmd, input) s in
    match spawn E (length (runs s)) cmd input with
    | inl e => (Raise (OSError e), s')
    | inr p =>
        if (returncode p =? 0)%Z then (Return p, s')
        else (Raise (CalledProcessError (returncode p) (stdout p) (stderr p)), s')
    end.

(** [sys.exit(code)] *)
Definition sys_exit {A} (code : Z) : M A := raise (SystemExit code).

(** The exit status of the interpreter for the outcome of [main()]. *)
Definition exit_status {A} (r : result A) : Z :=
  match r with
  | Return _ => 0
  | Raise (SystemExit code) => code
  | Raise _ => 1
  end.

End Sys.

Import Sys.
Local Open Scope py_scope.

(* ===================================================================== *)
(** ** The script *)
(* ===================================================================== *)

(** *** MongoDB: the three operations the script uses *)

Module Mongo.

(** The filter of [_get_hashes]. *)
Definition is_for (project_name repo_name google_project_id : str)
    (d : document) : bool :=
  bool_decide (Hashes.project_name d = project_name)
  && bool_decide (Hashes.repo_name d = repo_name)
  && bool_decide (Hashes.google_project_id d = google_project_id).

Definition has_id (i : oid) (d : document) : bool :=
  bool_decide (Hashes._id d = Some i).

(** [collection.find_one({project_name, repo_name, google_project_id})]:
    the first matching document, or [None]. *)
Definition find_one (project_name repo_name google_project_id : str)
    : M (option document) :=
  fun _ s =>
    (Return (find (is_for project_name repo_name google_project_id)
                  (collection s)), s).

(** The first document that [p] accepts becomes [d]. *)
Fixpoint replace_first (p : document -> bool) (d : document)
    (c : list document) : list document :=
  match c with
  | [] => []
  | x :: c' => if p x then d :: c' else x :: replace_first p d c'
  end.

(** [collection.replace_one({"_id": i}, d)] *)
Definition replace_one (i : oid) (d : document) : M unit :=
  fun _ s =>
    (Return tt, set_collection (replace_first (has_id i) d (collection s)) s).

(** The identifiers in use in a collection. *)
Definition ids (c : list document) : list oid :=
  omap Hashes._id c.

(** [collection.insert_one(d)] for a [d] without ["_id"]: the driver gives
    [d] an identifier that no document has, stores it, and leaves the
    identifier in the caller's dict. *)
Definition insert_one (d : document) : M document :=
  fun _ s =>
    let d' := Hashes.set__id (fresh (ids (collection s))) d in
    (Return d', set_collection (collection s ++ [d']) s).

End Mongo.

(** *** class ProjectRepoHashes *)

Module ProjectRepoHashes.

(** An instance.  The dicts of [hashes["files"]] are shared with
    [filesdict]: a value of [filesdict] is a reference to one of them,
    given here as its position in [hashes["files"]] (the list only grows at
    its end, so a position names the same dict for the life of the
    instance).  [self.collection], which [_setup_mongo_collection] obtains
    from the server, is the collection of the state; a server that cannot
    be reached is outside this model. *)
Record t : Type := Build {
  hash_store_user : str;
  hash_store_password : str;
  project_name : str;
  repo_name : str;
  google_project_id : str;
  hashes : document;
  filesdict : gmap str nat;
}.

Definition set_hashes (h : document) (self : t) : t :=
  Build (hash_store_user self) (hash_store_password self) (project_name self)
        (repo_name self) (google_project_id self) h (filesdict self).
Definition set_filesdict (d : gmap str nat) (self : t) : t :=
  Build (hash_store_user self) (hash_store_password self) (project_name self)
        (repo_name self) (google_project_id self) (hashes self) d.

(** The dict a reference points to. *)
Definition deref (self : t) (r : nat) : option file_attrs :=
  Hashes.files (hashes self) !! r.

(** An assignment [file_attrs[key] = value] through a reference. *)
Definition assign (f : file_attrs -> file_attrs) (r : nat) (self : t) : t :=
  set_hashes (Hashes.set_files (alter f r (Hashes.files (hashes self)))
                               (hashes self)) self.

Definition _get_hashes (project_name repo_name google_project_id : str)
    : M (option document) :=
  Mongo.find_one project_name repo_name google_project_id.

(** [dict((f["file_name"], f) for f in files)]: the entries are visited in
    order, [i] being the position of the one visited, and a later entry
    takes the key of an earlier one of the same name. *)
Fixpoint dict_of_files (i : nat) (files : list file_attrs)
    (acc : gmap str nat) : gmap str nat :=
  match files with
  | [] => acc
  | f :: files' =>
      dict_of_files (S i) files' (<[File.file_name f := i]> acc)
  end.

Definition __init__
    (project_name repo_name google_project_id
     hash_store_user hash_store_password : str) : M t :=
  let* found := _get_hashes project_name repo_name google_project_id in
  let* hashes :=
    match found with
    | Some d => ret d
    | None =>
        logging WARNING
          "No hash store exists for project %s repo %s google project %s."
          [Str project_name; Str repo_name; Str google_project_id];;
        logging WARNING "Creating a new hash store." [];;
        let* now := utcnow in
        ret (Hashes.Build None project_name repo_name google_project_id
                          now None [])
    end in
  let* now := utcnow in
  let hashes := Hashes.set_update_date now hashes in
  ret (Build hash_store_user hash_store_password project_name repo_name
             google_project_id hashes
             (dict_of_files 0 (Hashes.files hashes) ∅)).

(** [self.filesdict[file_name]["file_hash"]], or [""].  The inner [None]
    is a reference to no dict, which Python's memory never holds. *)
Definition get_file_hash (self : t) (file_name : str) : str :=
  match filesdict self !! file_name with
  | Some r =>
      match deref self r with
      | Some f => File.file_hash f
      | None => []
      end
  | None => []
  end.

Definition matches_saved_hash (self : t) (file_name text : str) : M bool :=
  logging INFO "Checking for hash match on file %s" [Str file_name];;
  let* encoded := encode_utf8 text in
  let new_hash := md5_hexdigest encoded in
  let old_hash := get_file_hash self file_name in
  (if bool_decide (old_hash = [])
   then logging INFO "File %s not found in hash store" [Str file_name]
   else logging DEBUG "Old hash: %s" [Str old_hash]);;
  logging DEBUG "New hash: %s" [Str new_hash];;
  if bool_decide (new_hash = old_hash)
  then logging INFO "Hashes match" [];; ret true
  else logging INFO "Hashes do not match" [];; ret false.

Definition update_saved_hash (self : t) (file_name text : str) : M t :=
  let* encoded := encode_utf8 text in
  let file_hash := md5_hexdigest encoded in
  match filesdict self !! file_name with
  | Some file_attrs =>
      logging INFO "update_saved_hash: updating hash for %s" [Str file_name];;
      let self := assign (File.set_file_hash file_hash) file_attrs self in
      let* now := utcnow in
      ret (assign (File.set_deploy_date now) file_attrs self)
  | None =>
      logging INFO "update_saved_hash: adding new hash for %s" [Str file_name];;
      let* deploy_date := utcnow in
      let* create_date := utcnow in
      let new_hash := File.Build file_name file_hash deploy_date create_date in
      let files := Hashes.files (hashes self) in
      let self := set_hashes (Hashes.set_files (files ++ [new_hash])
                                               (hashes self)) self in
      ret (set_filesdict (<[file_name := length files]> (filesdict self)) self)
  end.

Definition save (self : t) : M t :=
  logging INFO "Saving hashes to database" [];;
  match Hashes._id (hashes self) with
  | Some i => Mongo.replace_one i (hashes self);; ret self
  | None =>
      let* stored := Mongo.insert_one (hashes self) in
      ret (set_hashes stored self)
  end.

End ProjectRepoHashes.

(** *** The functions of the module *)

Module Deploy.

Import ProjectRepoHashes.

(** [open(sql_file).read()] *)
Definition get_sql (sql_file : str) : M str :=
  fun E s =>
    match read E sql_file with
    | inr sql => (Return sql, s)
    | inl e => (Raise (OSError e), s)
    end.

(** The command line of [execute_sql]. *)
Definition bq_cmd (google_project_id : str) : list str :=
  [u "bq"; u "query"; u "--use_legacy_sql=false";
   u "--project_id=" ++ google_project_id].

Definition execute_sql (sql google_project_id : str) : M unit :=
  let bq_cmd := bq_cmd google_project_id in
  logging INFO "Executing: %s" [Str (join (u " ") bq_cmd)];;
  logging INFO "Executing sql: %s" [Str sql];;
  let* result := subprocess_run bq_cmd sql in
  logging INFO "Execution complete" [];;
  logging INFO "stdout: %s" [Str (stdout result)];;
  logging INFO "stderr: %s" [Str (stderr result)].

(** The test of the comprehension of [find_ddl_files]:
    [entry.endswith(".sql") and os.path.isfile(os.path.join(path, entry))]. *)
Definition is_ddl_file (E : env) (path entry : str) : bool :=
  endswith entry (u ".sql") && isfile E (path_join path entry).

Definition find_ddl_files (path : str) : M (list str) :=
  logging DEBUG "Finding DDL files in %s" [Str path];;
  let* listed := try (os_listdir path) in
  match listed with
  | Raise (OSError strerror) =>
      logging ERROR "Error listing DDL directory %s: %s"
                    [Str path; Str strerror];;
      ret []
  | Raise e => raise e
  | Return files =>
      let* E := ask in
      let ddl_files :=
        map (path_join path) (filter (is_ddl_file E path) files) in
      let ddl_files := sort ddl_files in
      logging DEBUG "Found DDL files: %s" [Str (join (u ", ") ddl_files)];;
      ret ddl_files
  end.

(** The [for] loop of [deploy].  Nothing in the script uses what [deploy]
    returns; here the loop returns the instance it ends with, so that the
    properties can speak of it. *)
Fixpoint deploy_files (hash_store : t) (google_project_id : str)
    (ddl_files : list str) : M t :=
  match ddl_files with
  | [] => ret hash_store
  | ddl_file :: rest =>
      let* sql := get_sql ddl_file in
      let* same := matches_saved_hash hash_store ddl_file sql in
      if same then
        logging INFO "Skipping file %s. Matches saved file hash."
                     [Str ddl_file];;
        deploy_files hash_store google_project_id rest
      else
        let* executed :=
          try (logging INFO "Executing file %s." [Str ddl_file];;
               execute_sql sql google_project_id) in
        match executed with
        | Raise (CalledProcessError returncode stdout stderr) =>
            logging ERROR "Error executing ddl file %s: return code %d"
                          [Str ddl_file; Int returncode];;
            logging ERROR "stdout: %s" [Str stdout];;
            logging ERROR "stderr: %s" [Str stderr];;
            logging ERROR "Exiting due to SQL deployment error" [];;
            sys_exit 3
        | Raise e => raise e
        | Return _ =>
            logging INFO "Saving file hash for %s." [Str ddl_file];;
            let* hash_store := update_saved_hash hash_store ddl_file sql in
            let* hash_store := save hash_store in
            deploy_files hash_store google_project_id rest
        end
  end.

Definition deploy
    (google_project_id ddl_folder_path hash_store_user hash_store_password
     : str) : M t :=
  let* name := os_environ (u "REPO_AND_OWNER_NAME") in
  let repo_owner_name := split1 47 name in
  let* project_name := getitem repo_owner_name 0 in
  let* repo_name := getitem repo_owner_name 1 in
  let* hash_store :=
    __init__ project_name repo_name google_project_id
             hash_store_user hash_store_password in
  let* ddl_files := find_ddl_files ddl_folder_path in
  deploy_files hash_store google_project_id ddl_files.

Definition main : M t :=
  let* google_project_id := os_environ (u "INPUT_GOOGLE_PROJECT_ID") in
  let* ddl_folder_path := os_environ (u "INPUT_DDL_FOLDER_PATH") in
  let* mongo_user := os_environ (u "INPUT_HADOOP_MONGO_USER") in
  let* mongo_password := os_environ (u "INPUT_HADOOP_MONGO_PASSWORD") in
  deploy google_project_id ddl_folder_path mongo_user mongo_password.

End Deploy.

Import ProjectRepoHashes Deploy.

(* ===================================================================== *)
(** ** Notions the properties are stated with *)
(* ===================================================================== *)

Section Notions.

Implicit Types (self : t) (E : env) (s : state) (n : str) (f : file_attrs).
Implicit Types (l : list file_attrs).

(** The records [matches_saved_hash] logs, for the digest [h] of the text. *)
Definition matches_log self (file_name h : str) : list log_record :=
  let old_hash := get_file_hash self file_name in
  [ Build_log_record INFO "Checking for hash match on file %s" [Str file_name];
    (if bool_decide (old_hash = [])
     then Build_log_record INFO "File %s not found in hash store" [Str file_name]
     else Build_log_record DEBUG "Old hash: %s" [Str old_hash]);
    Build_log_record DEBUG "New hash: %s" [Str h];
    (if bool_decide (h = old_hash)
     then Build_log_record INFO "Hashes match" []
     else Build_log_record INFO "Hashes do not match" []) ].

(** The records [__init__] logs when it finds no document. *)
Definition init_log (project_name repo_name google_project_id : str)
    : list log_record :=
  [ Build_log_record WARNING
      "No hash store exists for project %s repo %s google project %s."
      [Str project_name; Str repo_name; Str google_project_id];
    Build_log_record WARNING "Creating a new hash store." [] ].

(** How many entries of a list of entries have the name [n]. *)
Definition occurrences n l : nat :=
  length (filter (λ f, File.file_name f = n) l).

(** - a name that [filesdict] has leads to an entry of [hashes["files"]]
      with that name;
    - such a name is the name of one entry of [hashes["files"]] only;
    - [hashes["files"]] has no entry under a name that [filesdict] lacks. *)
Record invariant self : Prop := {
  inv_entry : ∀ n r, filesdict self !! n = Some r →
    ∃ f, deref self r = Some f ∧ File.file_name f = n;
  inv_once : ∀ n, is_Some (filesdict self !! n) →
    occurrences n (Hashes.files (hashes self)) = 1%nat;
  inv_keyed : ∀ f, f ∈ Hashes.files (hashes self) →
    is_Some (filesdict self !! File.file_name f);
}.

(** The references that [filesdict] holds are live: each leads to a dict. *)
Definition live self : Prop :=
  ∀ n r, filesdict self !! n = Some r → is_Some (deref self r).

(** The same, by positions: [filesdict] sends a name to the position of the
    entry of that name, and every entry is reached from its name. *)
Definition linked self : Prop :=
  (∀ n r, filesdict self !! n = Some r →
     ∃ f, deref self r = Some f ∧ File.file_name f = n)
  ∧ (∀ i f, deref self i = Some f →
     filesdict self !! File.file_name f = Some i).

(** What the data model asks of a stored document: one entry per name. *)
Definition distinct_names (d : document) : Prop :=
  NoDup (File.file_name <$> Hashes.files d).

(** The instance agrees with the collection: the document it was loaded
    from, or last saved as, has its entries; an instance that was never
    stored has none. *)
Definition in_sync self s : Prop :=
  match Hashes._id (hashes self) with
  | Some i =>
      Hashes.files <$> find (Mongo.has_id i) (collection s)
      = Some (Hashes.files (hashes self))
  | None => Hashes.files (hashes self) = []
  end.

(** [a <= b] on [str], as a relation. *)
Definition str_le (a b : str) : Prop := str_leb a b = true.

(** The records [find_ddl_files] logs besides the first. *)
Definition found_log (ddl_files : list str) : log_record :=
  Build_log_record DEBUG "Found DDL files: %s" [Str (join (u ", ") ddl_files)].

Definition unlisted_log (path strerror : str) : log_record :=
  Build_log_record ERROR "Error listing DDL directory %s: %s"
                   [Str path; Str strerror].

(** The records [execute_sql] logs before it starts [bq], and after. *)
Definition executing_log (sql google_project_id : str) : list log_record :=
  [ Build_log_record INFO "Executing: %s"
      [Str (join (u " ") (bq_cmd google_project_id))];
    Build_log_record INFO "Executing sql: %s" [Str sql] ].

Definition executed_log (p : CompletedProcess) : list log_record :=
  [ Build_log_record INFO "Execution complete" [];
    Build_log_record INFO "stdout: %s" [Str (stdout p)];
    Build_log_record INFO "stderr: %s" [Str (stderr p)] ].

(** The record [save] logs. *)
Definition saving_log : log_record :=
  Build_log_record INFO "Saving hashes to database" [].

(** The records [deploy] logs for a file it skips, and for one that [bq]
    rejects. *)
Definition skipped_log (ddl_file : str) : log_record :=
  Build_log_record INFO "Skipping file %s. Matches saved file hash."
                   [Str ddl_file].

Definition failed_log (ddl_file : str) (p : CompletedProcess)
    : list log_record :=
  [ Build_log_record ERROR "Error executing ddl file %s: return code %d"
      [Str ddl_file; Int (returncode p)];
    Build_log_record ERROR "stdout: %s" [Str (stdout p)];
    Build_log_record ERROR "stderr: %s" [Str (stderr p)];
    Build_log_record ERROR "Exiting due to SQL deployment error" [] ].

(** The state in which [deploy] leaves the script when [bq], started on
    [sql], of encoding [b], for [ddl_file] by an instance [self] in the
    state [s], ends with the status of [p], which is not 0. *)
Definition failed_state self (ddl_file sql : str) (b : bytes)
    (google_project_id : str) (p : CompletedProcess) s : state :=
  add_logs (failed_log ddl_file p)
    (add_run (bq_cmd google_project_id, sql)
       (add_logs (Build_log_record INFO "Executing file %s." [Str ddl_file]
                  :: executing_log sql google_project_id)
          (add_logs (matches_log self ddl_file (md5_hexdigest b)) s))).

(** The fingerprint that [self] has for [ddl_file] is the one of the
    content of the file. *)
Definition up_to_date E self (ddl_file : str) : Prop :=
  ∃ sql b, read E ddl_file = inr sql ∧ utf8 sql = Some b
           ∧ get_file_hash self ddl_file = md5_hexdigest b.

(** The collection has a fingerprint [h] for [ddl_file], in the document
    of the instance. *)
Definition stored self s (ddl_file h : str) : Prop :=
  ∃ i d f, Hashes._id (hashes self) = Some i
           ∧ find (Mongo.has_id i) (collection s) = Some d
           ∧ f ∈ Hashes.files d
           ∧ File.file_name f = ddl_file ∧ File.file_hash f = h.

(** A collection as the script keeps it: every document has an ["_id"],
    no two have the same, and each has one entry per file name. *)
Definition well_kept (c : list document) : Prop :=
  NoDup (Mongo.ids c)
  ∧ ∀ d, d ∈ c → is_Some (Hashes._id d) ∧ distinct_names d.

(** A test for [linked], to run on a given instance. *)
Fixpoint keyed_from (i : nat) l (dict : gmap str nat) : bool :=
  match l with
  | [] => true
  | f :: l' =>
      bool_decide (dict !! File.file_name f = Some i)
      && keyed_from (S i) l' dict
  end.

Definition check_linked self : bool :=
  bool_decide
    (map_Forall (λ n r, File.file_name <$> deref self r = Some n)
                (filesdict self))
  && keyed_from 0 (Hashes.files (hashes self)) (filesdict self).

End Notions.

(* ===================================================================== *)
(** ** A small world to run the script in *)
(* ===================================================================== *)

(** A repository [acme/warehouse] with a folder [ddl] that holds [b.sql],
    [a.sql] and [c.txt]; [bq] accepts [a.sql] and rejects [b.sql]; the
    collection is empty.  [folder] is the value of [INPUT_DDL_FOLDER_PATH]. *)
Module Demo.

Definition a_sql : str := u "SELECT 1;".
Definition b_sql : str := u "SELEKT 2;".

Definition E (folder : str) : env := {|
  environ :=
    list_to_map
      [ (u "REPO_AND_OWNER_NAME", u "acme/warehouse");
        (u "INPUT_GOOGLE_PROJECT_ID", u "gcp-prod");
        (u "INPUT_DDL_FOLDER_PATH", folder);
        (u "INPUT_HADOOP_MONGO_USER", u "deployer");
        (u "INPUT_HADOOP_MONGO_PASSWORD", u "secret") ];
  listdir := fun path =>
    if bool_decide (path = u "ddl")
    then inr [u "b.sql"; u "a.sql"; u "c.txt"]
    else inl (u "No such file or directory");
  isfile := fun path =>
    bool_decide (path ∈ [u "ddl/a.sql"; u "ddl/b.sql"; u "ddl/c.txt"]);
  read := fun path =>
    if bool_decide (path = u "ddl/a.sql") then inr a_sql
    else if bool_decide (path = u "ddl/b.sql") then inr b_sql
    else inl (u "No such file or directory");
  clock := fun k => 1000 + N.of_nat k;
  spawn := fun _ _ input =>
    inr (if bool_decide (input = a_sql)
         then Build_CompletedProcess 0 (u "ok") []
         else Build_CompletedProcess 1 [] (u "Syntax error"));
|}.

Definition s0 : state :=
  {| log := []; clock_reads := 0; runs := []; collection := [] |}.

(** A fresh instance for [acme/warehouse] on [gcp-prod], and the state
    after its construction. *)
Definition fresh_store : result t * state :=
  __init__ (u "acme") (u "warehouse") (u "gcp-prod")
           (u "deployer") (u "secret") (E (u "ddl")) s0.

(** The instance and the state once [ddl/a.sql] was deployed. *)
Definition after_a : result t * state :=
  match fresh_store with
  | (Return self, s) =>
      deploy_files self (u "gcp-prod") [u "ddl/a.sql"] (E (u "ddl")) s
  | r => r
  end.

(** The instance of [fresh_store] and the one of [after_a], written out. *)
Definition empty_store : t :=
  Build (u "deployer") (u "secret") (u "acme") (u "warehouse") (u "gcp-prod")
    (Hashes.Build None (u "acme") (u "warehouse") (u "gcp-prod")
       1000 (Some 1001) [])
    ∅.

Definition store_a : t :=
  Build (u "deployer") (u "secret") (u "acme") (u "warehouse") (u "gcp-prod")
    (Hashes.Build (Some 0%nat) (u "acme") (u "warehouse") (u "gcp-prod")
       1000 (Some 1001)
       [ File.Build (u "ddl/a.sql") (u "71568061b2970a4b7c5160fe75356e10")
                    1002 1003 ])
    {[ u "ddl/a.sql" := 0%nat ]}.

(** A stored document with two entries of the same name. *)
Definition twice : document :=
  Hashes.Build (Some 7%nat) (u "acme") (u "warehouse") (u "gcp-prod") 1 (Some 2)
    [ File.Build (u "ddl/a.sql") (u "00") 3 3;
      File.Build (u "ddl/a.sql") (u "11") 4 4 ].

End Demo.

(* ===================================================================== *)
(** ** Notions for the run as a whole *)
(* ===================================================================== *)

Section RunNotions.

Implicit Types (self : t) (E : env) (s : state) (n : str) (f : file_attrs).
Implicit Types (l : list file_attrs).

(** The environment variables, in the order in which [main] and then
    [deploy] read them. *)
Definition main_keys : list str :=
  [ u "INPUT_GOOGLE_PROJECT_ID"; u "INPUT_DDL_FOLDER_PATH";
    u "INPUT_HADOOP_MONGO_USER"; u "INPUT_HADOOP_MONGO_PASSWORD";
    u "REPO_AND_OWNER_NAME" ].

(** The command [execute_sql] starts for a file, if the file can be read. *)
Definition command_for E (gp ddl_file : str) : option (list str * str) :=
  match read E ddl_file with
  | inr sql => Some (bq_cmd gp, sql)
  | inl _ => None
  end.

(** The position of the last entry of the name [n]. *)
Fixpoint last_index n l : option nat :=
  match l with
  | [] => None
  | f :: l' =>
      match last_index n l' with
      | Some j => Some (S j)
      | None => if decide (File.file_name f = n) then Some 0%nat else None
      end
  end.

(** The last entry of the name [n]. *)
Definition last_named n l : option file_attrs :=
  last (filter (λ f, File.file_name f = n) l).

(** What [os.path.join(path, entry)] puts before an [entry] that is not
    absolute. *)
Definition join_prefix (path : str) : str :=
  if bool_decide (path = []) || endswith path (u "/") then path
  else path ++ u "/".

(** The three keys [_get_hashes] asks for. *)
Definition triple (d : document) : str * str * str :=
  (Hashes.project_name d, Hashes.repo_name d, Hashes.google_project_id d).

(** The instance is the one of its triple in the collection: [find_one]
    on the triple finds the document with the ["_id"] and the entries of the
    instance, or finds nothing when the instance was never stored and is
    empty. *)
Definition in_step self s : Prop :=
  let found :=
    find (Mongo.is_for (Hashes.project_name (hashes self))
                       (Hashes.repo_name (hashes self))
                       (Hashes.google_project_id (hashes self)))
         (collection s) in
  match Hashes._id (hashes self) with
  | Some i =>
      ∃ d, found = Some d ∧ Hashes._id d = Some i
           ∧ Hashes.files d = Hashes.files (hashes self)
  | None => found = None ∧ Hashes.files (hashes self) = []
  end.

(** The instance has its place in the collection: the document of its
    ["_id"] is the one [find_one] finds for its triple, or, for an instance
    without ["_id"], [find_one] finds nothing for its triple. *)
Definition placed self s : Prop :=
  let found :=
    find (Mongo.is_for (Hashes.project_name (hashes self))
                       (Hashes.repo_name (hashes self))
                       (Hashes.google_project_id (hashes self)))
         (collection s) in
  match Hashes._id (hashes self) with
  | Some i => ∃ d, found = Some d ∧ Hashes._id d = Some i
  | None => found = None
  end.




(** No two documents of the collection are for the same triple. *)
Definition one_per_triple (c : list document) : Prop :=
  NoDup (triple <$> c).

End RunNotions.

(** The world of [Demo] with a [bq] that accepts every file. *)
Module Demo2.

Definition E : env := {|
  environ := environ (Demo.E (u "ddl"));
  listdir := listdir (Demo.E (u "ddl"));
  isfile := isfile (Demo.E (u "ddl"));
  read := read (Demo.E (u "ddl"));
  clock := clock (Demo.E (u "ddl"));
  spawn := fun _ _ _ => inr (Build_CompletedProcess 0 (u "ok") []);
|}.

(** The same without [REPO_AND_OWNER_NAME], and with one without ["/"]. *)
Definition E_unnamed : env := {|
  environ := delete (u "REPO_AND_OWNER_NAME") (environ E);
  listdir := listdir E; isfile := isfile E; read := read E;
  clock := clock E; spawn := spawn E;
|}.

Definition E_no_slash : env := {|
  environ := <[u "REPO_AND_OWNER_NAME" := u "warehouse"]> (environ E);
  listdir := listdir E; isfile := isfile E; read := read E;
  clock := clock E; spawn := spawn E;
|}.

(** A world in which [ddl/b.sql] cannot be read, and one in which [bq]
    cannot be started. *)
Definition E_unreadable : env := {|
  environ := environ E; listdir := listdir E; isfile := isfile E;
  read := fun path =>
    if bool_decide (path = u "ddl/b.sql") then inl (u "Permission denied")
    else read E path;
  clock := clock E; spawn := spawn E;
|}.

Definition E_no_bq : env := {|
  environ := environ E; listdir := listdir E; isfile := isfile E;
  read := read E; clock := clock E;
  spawn := fun _ _ _ => inl (u "No such file or directory");
|}.

(** A world in which the folder is listed in another order. *)
Definition E_listed_otherwise : env := {|
  environ := environ E;
  listdir := fun path =>
    if bool_decide (path = u "ddl")
    then inr [u "c.txt"; u "a.sql"; u "b.sql"]
    else inl (u "No such file or directory");
  isfile := isfile E; read := read E; clock := clock E; spawn := spawn E;
|}.

End Demo2.

(* ===================================================================== *)
(** ** Test vectors *)
(* ===================================================================== *)

Example md5_empty :
  md5_hexdigest [] = u "d41d8cd98f00b204e9800998ecf8427e".
Proof. vm_compute. reflexivity. Qed.

Example md5_abc :
  option_map md5_hexdigest (utf8 (u "abc"))
  = Some (u "900150983cd24fb0d6963f7d28e17f72").
Proof. vm_compute. reflexivity. Qed.

Example md5_select_1 :
  option_map md5_hexdigest (utf8 (u "SELECT 1;"))
  = Some (u "71568061b2970a4b7c5160fe75356e10").
Proof. vm_compute. reflexivity. Qed.

Example md5_56_a :
  option_map md5_hexdigest (utf8 (repeat 97 56))
  = Some (u "3b0c8ac703f828b04c6c197006d17218").
Proof. vm_compute. reflexivity. Qed.

Example md5_64_a :
  option_map md5_hexdigest (utf8 (repeat 97 64))
  = Some (u "014842d480b571495a4a0363793f7367").
Proof. vm_compute. reflexivity. Qed.

Example utf8_e_acute : utf8 [0xE9] = Some [195; 169].
Proof. reflexivity. Qed.

Example utf8_astral : utf8 [0x1F600; 0x20AC] = Some [240; 159; 152; 128; 226; 130; 172].
Proof. reflexivity. Qed.

Example md5_astral :
  option_map md5_hexdigest (utf8 [0x1F600; 0x20AC])
  = Some (u "b03aa768531bae635705337ecadc64de").
Proof. vm_compute. reflexivity. Qed.

Example utf8_surrogate : utf8 [0x61; 0xD800] = None.
Proof. reflexivity. Qed.

Example path_join_ex :
  path_join (u "ddl") (u "a.sql") = u "ddl/a.sql"
  /\ path_join (u "ddl/") (u "a.sql") = u "ddl/a.sql"
  /\ path_join (u "") (u "a.sql") = u "a.sql"
  /\ path_join (u "ddl") (u "/a.sql") = u "/a.sql".
Proof. vm_compute. repeat split. Qed.

Example split1_ex :
  split1 47 (u "a/b/c") = [u "a"; u "b/c"]
  /\ split1 47 (u "abc") = [u "abc"]
  /\ split1 47 (u "/") = [u ""; u ""]
  /\ split1 47 (u "") = [u ""].
Proof. vm_compute. repeat split. Qed.

Example demo_fresh_store : fst Demo.fresh_store = Return Demo.empty_store.
Proof. vm_compute. reflexivity. Qed.

Example demo_after_a : fst Demo.after_a = Return Demo.store_a.
Proof. vm_compute. reflexivity. Qed.

(* ===================================================================== *)
(** ** Properties of the codec *)
(* ===================================================================== *)

Section CodecFacts.

(** A hex digest has 32 characters, whatever was hashed. *)
Lemma md5_hexdigest_length (b : bytes) : length (md5_hexdigest b) = 32%nat.
Proof.
  unfold md5_hexdigest, md5_digest.
  destruct (md5_blocks _ _ _) as [[[x y] z] w].
  reflexivity.
Qed.

Lemma md5_hexdigest_nonempty (b : bytes) : md5_hexdigest b ≠ [].
Proof.
  intros H. pose proof (md5_hexdigest_length b) as L.
  rewrite H in L. discriminate L.
Qed.

End CodecFacts.

(* ===================================================================== *)
(** ** Properties of the state *)
(* ===================================================================== *)

Section StateFacts.

Lemma add_logs_nil s : add_logs [] s = s.
Proof. destruct s. unfold add_logs. simpl. by rewrite app_nil_r. Qed.

Lemma add_log_add_logs r rs s :
  add_log r (add_logs rs s) = add_logs (rs ++ [r]) s.
Proof. unfold add_log, add_logs. simpl. by rewrite app_assoc. Qed.

Lemma add_log_one r s : add_log r s = add_logs [r] s.
Proof. reflexivity. Qed.

Lemma add_logs_add_logs rs1 rs2 s :
  add_logs rs2 (add_logs rs1 s) = add_logs (rs1 ++ rs2) s.
Proof. unfold add_logs. simpl. by rewrite app_assoc. Qed.

End StateFacts.

(* ===================================================================== *)
(** ** The hash store *)
(* ===================================================================== *)

Section HashStore.

Implicit Types (self : t) (E : env) (s : state).
Implicit Types (file_name text : str) (b : bytes).

(** [matches_saved_hash] compares the digest with the saved one and only
    logs. *)
Lemma matches_saved_hash_run self file_name text b E s :
  utf8 text = Some b ->
  matches_saved_hash self file_name text E s
  = (Return (bool_decide (md5_hexdigest b = get_file_hash self file_name)),
     add_logs (matches_log self file_name (md5_hexdigest b)) s).
Proof.
  intros Hb. unfold matches_saved_hash, matches_log, bind, logging, encode_utf8.
  rewrite Hb. unfold ret. simpl.
  destruct s as [lg k rn co]. unfold add_log, add_logs. simpl.
  repeat case_bool_decide; simpl; rewrite <- ?app_assoc; reflexivity.
Qed.

Lemma matches_saved_hash_unencodable self file_name text E s :
  utf8 text = None ->
  fst (matches_saved_hash self file_name text E s) = Raise UnicodeEncodeError.
Proof.
  intros Hb. unfold matches_saved_hash, bind, logging, encode_utf8.
  rewrite Hb. reflexivity.
Qed.

(** The two branches of [update_saved_hash]. *)
Lemma update_saved_hash_existing self file_name text b r E s :
  utf8 text = Some b ->
  filesdict self !! file_name = Some r ->
  update_saved_hash self file_name text E s
  = (Return (assign (File.set_deploy_date (clock E (clock_reads s))) r
               (assign (File.set_file_hash (md5_hexdigest b)) r self)),
     tick (add_log (Build_log_record INFO
                      "update_saved_hash: updating hash for %s"
                      [Str file_name]) s)).
Proof.
  intros Hb Hr. unfold update_saved_hash, bind, logging, encode_utf8.
  rewrite Hb, Hr. reflexivity.
Qed.

Lemma update_saved_hash_new self file_name text b E s :
  utf8 text = Some b ->
  filesdict self !! file_name = None ->
  let files := Hashes.files (hashes self) in
  let new_hash :=
    File.Build file_name (md5_hexdigest b)
               (clock E (clock_reads s)) (clock E (S (clock_reads s))) in
  update_saved_hash self file_name text E s
  = (Return (set_filesdict (<[file_name := length files]> (filesdict self))
               (set_hashes (Hashes.set_files (files ++ [new_hash])
                                             (hashes self)) self)),
     tick (tick (add_log (Build_log_record INFO
                            "update_saved_hash: adding new hash for %s"
                            [Str file_name]) s))).
Proof.
  intros Hb Hr. unfold update_saved_hash, bind, logging, encode_utf8.
  rewrite Hb, Hr. reflexivity.
Qed.

(** Reading through a reference after an assignment through a reference. *)
Lemma deref_assign (g : file_attrs -> file_attrs) r self i :
  deref (assign g r self) i
  = if decide (i = r) then g <$> deref self i else deref self i.
Proof.
  unfold deref, assign. simpl. rewrite list_lookup_alter.
  repeat case_decide; subst; congruence.
Qed.

Lemma filesdict_assign (g : file_attrs -> file_attrs) r self :
  filesdict (assign g r self) = filesdict self.
Proof. reflexivity. Qed.

Lemma length_files_assign (g : file_attrs -> file_attrs) r self :
  length (Hashes.files (hashes (assign g r self)))
  = length (Hashes.files (hashes self)).
Proof. unfold assign. simpl. apply length_alter. Qed.

End HashStore.

(* ===================================================================== *)
(** ** The invariant that ties [filesdict] to [hashes["files"]] *)
(* ===================================================================== *)

Section Invariant.

Implicit Types (self : t) (E : env) (s : state) (n : str) (f : file_attrs).
Implicit Types (l : list file_attrs).

Lemma occurrences_one_position n l i j f g :
  occurrences n l = 1%nat →
  l !! i = Some f → File.file_name f = n →
  l !! j = Some g → File.file_name g = n →
  i = j.
Proof.
  unfold occurrences. revert i j.
  induction l as [|x l IH]; intros i j Hc Hi Hf Hj Hg; [done|].
  rewrite filter_cons in Hc.
  destruct (decide (File.file_name x = n)) as [Hx|Hx]; simpl in Hc.
  - assert (Hnil : filter (λ f, File.file_name f = n) l = [])
      by (apply nil_length_inv; lia).
    destruct i as [|i], j as [|j]; [done| | |]; exfalso; simpl in *.
    + eapply (filter_nil_not_elem_of _ _ g Hnil Hg), list_elem_of_lookup_2, Hj.
    + eapply (filter_nil_not_elem_of _ _ f Hnil Hf), list_elem_of_lookup_2, Hi.
    + eapply (filter_nil_not_elem_of _ _ f Hnil Hf), list_elem_of_lookup_2, Hi.
  - destruct i as [|i], j as [|j]; simpl in *; simplify_eq.
    f_equal. by apply IH.
Qed.

Lemma occurrences_NoDup n l :
  NoDup (File.file_name <$> l) → n ∈ File.file_name <$> l →
  occurrences n l = 1%nat.
Proof.
  unfold occurrences. induction l as [|x l IH]; intros Hnd Hin.
  - by apply elem_of_nil in Hin.
  - rewrite fmap_cons in Hnd, Hin. apply NoDup_cons in Hnd as [Hx Hnd].
    rewrite filter_cons.
    destruct (decide (File.file_name x = n)) as [Hn|Hn]; simpl.
    + f_equal. apply length_zero_iff_nil.
      destruct (filter _ l) as [|y l'] eqn:Hfl; [done|]. exfalso.
      assert (Hy : y ∈ filter (λ f, File.file_name f = n) l)
        by (rewrite Hfl; apply list_elem_of_here).
      apply list_elem_of_filter in Hy as [Hyn Hy].
      apply Hx. rewrite Hn, <- Hyn. by apply list_elem_of_fmap_2.
    + apply IH; [done|]. apply elem_of_cons in Hin as [Hin|Hin]; congruence.
Qed.

Lemma linked_NoDup self :
  linked self → NoDup (File.file_name <$> Hashes.files (hashes self)).
Proof.
  intros [_ Hk]. apply NoDup_alt. intros i j n Hi Hj.
  apply list_lookup_fmap_Some_1 in Hi as (f & -> & Hi).
  apply list_lookup_fmap_Some_1 in Hj as (g & Hg & Hj).
  apply Hk in Hi, Hj. rewrite Hg in Hi. congruence.
Qed.

Lemma linked_invariant self : linked self ↔ invariant self.
Proof.
  split.
  - intros Hl. pose proof (linked_NoDup _ Hl) as Hnd.
    destruct Hl as [He Hk]. split; [done| |].
    + intros n [r Hr]. apply occurrences_NoDup; [done|].
      destruct (He _ _ Hr) as (f & Hf & <-).
      by eapply list_elem_of_fmap_2, list_elem_of_lookup_2.
    + intros f Hf. apply list_elem_of_lookup_1 in Hf as [i Hi].
      eexists. by apply Hk.
  - intros [He Ho Hk]. split; [done|].
    intros i f Hi.
    destruct (Hk f) as [r Hr]; [by eapply list_elem_of_lookup_2|].
    destruct (He _ _ Hr) as (g & Hg & Hgn).
    rewrite Hr. f_equal.
    eapply (occurrences_one_position (File.file_name f)); eauto.
Qed.

Lemma invariant_live self : invariant self → live self.
Proof.
  intros [He _ _] n r Hr. destruct (He _ _ Hr) as (f & Hf & _). by exists f.
Qed.

(** *** [dict_of_files] *)

Lemma dict_of_files_other l : ∀ i (acc : gmap str nat) n,
  n ∉ File.file_name <$> l →
  dict_of_files i l acc !! n = acc !! n.
Proof.
  induction l as [|x l IH]; intros i acc n Hn; [done|].
  rewrite fmap_cons in Hn. apply not_elem_of_cons in Hn as [Hx Hn].
  simpl. rewrite IH by done. by apply lookup_insert_ne.
Qed.

Lemma dict_of_files_entry l : ∀ i (acc : gmap str nat) n r,
  dict_of_files i l acc !! n = Some r →
  acc !! n = Some r
  ∨ ∃ j f, r = (i + j)%nat ∧ l !! j = Some f ∧ File.file_name f = n.
Proof.
  induction l as [|x l IH]; intros i acc n r Hr; [by left|].
  simpl in Hr. apply IH in Hr as [Hr|(j & f & -> & Hj & Hf)].
  - destruct (decide (File.file_name x = n)) as [Hx|Hx].
    + subst n. rewrite lookup_insert_eq in Hr. simplify_eq.
      right. exists 0%nat, x. split; [lia|done].
    + rewrite lookup_insert_ne in Hr by done. by left.
  - right. exists (S j), f. split; [lia|done].
Qed.

Lemma dict_of_files_keyed l : ∀ i (acc : gmap str nat) j f,
  NoDup (File.file_name <$> l) →
  l !! j = Some f →
  dict_of_files i l acc !! File.file_name f = Some (i + j)%nat.
Proof.
  induction l as [|x l IH]; intros i acc j f Hnd Hj; [done|].
  rewrite fmap_cons in Hnd. apply NoDup_cons in Hnd as [Hx Hnd].
  destruct j as [|j]; simpl in *.
  - simplify_eq. rewrite dict_of_files_other by done.
    rewrite lookup_insert_eq. f_equal. lia.
  - rewrite (IH _ _ j f) by done. f_equal. lia.
Qed.

(** Every name of the list is a key, duplicates or not. *)
Lemma dict_of_files_is_Some l : ∀ i (acc : gmap str nat) f,
  f ∈ l → is_Some (dict_of_files i l acc !! File.file_name f).
Proof.
  induction l as [|x l IH]; intros i acc f Hf; [by apply elem_of_nil in Hf|].
  simpl. apply elem_of_cons in Hf as [->|Hf]; [|by apply IH].
  destruct (decide (File.file_name x ∈ File.file_name <$> l)) as [Hx|Hx].
  - apply list_elem_of_fmap in Hx as (g & -> & Hg). by apply IH.
  - rewrite dict_of_files_other by done. rewrite lookup_insert_eq. by eexists.
Qed.

(** *** [__init__] *)

Lemma init_found p r g us pw E s d :
  find (Mongo.is_for p r g) (collection s) = Some d →
  __init__ p r g us pw E s
  = (Return (Build us pw p r g
               (Hashes.set_update_date (clock E (clock_reads s)) d)
               (dict_of_files 0 (Hashes.files d) ∅)),
     tick s).
Proof.
  intros Hd. unfold __init__, bind, _get_hashes, Mongo.find_one.
  rewrite Hd. reflexivity.
Qed.

Lemma init_fresh p r g us pw E s :
  find (Mongo.is_for p r g) (collection s) = None →
  __init__ p r g us pw E s
  = (Return (Build us pw p r g
               (Hashes.Build None p r g (clock E (clock_reads s))
                  (Some (clock E (S (clock_reads s)))) [])
               ∅),
     tick (tick (add_logs (init_log p r g) s))).
Proof.
  intros Hd. unfold __init__, bind, _get_hashes, Mongo.find_one.
  rewrite Hd. unfold logging, add_logs, init_log, add_log. simpl.
  by rewrite <- app_assoc.
Qed.

Lemma init_linked p r g us pw E s :
  (∀ d, find (Mongo.is_for p r g) (collection s) = Some d → distinct_names d) →
  ∃ self s', __init__ p r g us pw E s = (Return self, s') ∧ linked self.
Proof.
  intros Hwf.
  destruct (find (Mongo.is_for p r g) (collection s)) as [d|] eqn:Hd.
  - eexists _, _. split; [by apply init_found|].
    specialize (Hwf d eq_refl). unfold linked, deref. simpl. split.
    + intros n i Hi. apply dict_of_files_entry in Hi as [Hi|(j & f & -> & Hj & Hf)].
      * by rewrite lookup_empty in Hi.
      * by exists f.
    + intros i f Hi. by rewrite (dict_of_files_keyed _ 0 ∅ i f).
  - eexists _, _. split; [by apply init_fresh|].
    unfold linked, deref. simpl. split.
    + intros n i Hi. by rewrite lookup_empty in Hi.
    + intros i f Hi. by rewrite lookup_nil in Hi.
Qed.

(** Whatever document [__init__] finds, the references it makes are
    live, and [update_saved_hash] keeps them so. *)
Lemma init_live p r g us pw E s :
  ∃ self s', __init__ p r g us pw E s = (Return self, s') ∧ live self.
Proof.
  destruct (find (Mongo.is_for p r g) (collection s)) as [d|] eqn:Hd.
  - eexists _, _. split; [by apply init_found|].
    intros n i Hi. unfold deref. simpl in *.
    apply dict_of_files_entry in Hi as [Hi|(j & f & -> & Hj & _)].
    + by rewrite lookup_empty in Hi.
    + by exists f.
  - eexists _, _. split; [by apply init_fresh|].
    intros n i Hi. simpl in Hi. by rewrite lookup_empty in Hi.
Qed.

Lemma update_saved_hash_live self n text E s self' s' :
  live self → update_saved_hash self n text E s = (Return self', s') →
  live self'.
Proof.
  intros Hlive Hup. destruct (utf8 text) as [b|] eqn:Hb; cycle 1.
  { unfold update_saved_hash, bind, encode_utf8 in Hup.
    rewrite Hb in Hup. discriminate Hup. }
  destruct (filesdict self !! n) as [r|] eqn:Hr.
  - rewrite (update_saved_hash_existing _ _ _ _ _ _ _ Hb Hr) in Hup.
    simplify_eq. intros m i Hi. rewrite !filesdict_assign in Hi.
    destruct (Hlive _ _ Hi) as [f Hf]. rewrite !deref_assign, Hf.
    case_decide; by eexists.
  - rewrite (update_saved_hash_new _ _ _ _ _ _ Hb Hr) in Hup.
    simplify_eq. intros m i Hi. unfold deref in *. simpl in *.
    apply lookup_lt_is_Some. rewrite length_app. simpl.
    destruct (decide (n = m)) as [->|Hm].
    + rewrite lookup_insert_eq in Hi. simplify_eq. lia.
    + rewrite lookup_insert_ne in Hi by done.
      apply Hlive, lookup_lt_is_Some in Hi. lia.
Qed.

(** A later entry takes the key of an earlier one of the same name: on a
    stored document with two entries of one name, [filesdict] has the
    second, and the name occurs twice. *)
Example init_on_two_of_a_name :
  ∃ self s',
    __init__ (u "acme") (u "warehouse") (u "gcp-prod") (u "deployer")
             (u "secret") (Demo.E (u "ddl"))
             (set_collection [Demo.twice] Demo.s0) = (Return self, s')
    ∧ filesdict self !! u "ddl/a.sql" = Some 1%nat
    ∧ occurrences (u "ddl/a.sql") (Hashes.files (hashes self)) = 2%nat.
Proof. eexists _, _. vm_compute. repeat split. Qed.

(** *** [update_saved_hash] *)

Lemma update_saved_hash_linked self n text b E s :
  linked self → utf8 text = Some b →
  ∃ self' s', update_saved_hash self n text E s = (Return self', s')
              ∧ linked self'.
Proof.
  intros [He Hk] Hb.
  destruct (filesdict self !! n) as [r|] eqn:Hr.
  - eexists _, _. split; [by apply update_saved_hash_existing|].
    split.
    + intros m i Hi. rewrite !filesdict_assign in Hi.
      destruct (He _ _ Hi) as (f & Hf & Hfn).
      rewrite !deref_assign, Hf. case_decide; simpl; eauto.
    + intros i f Hi. rewrite !filesdict_assign.
      rewrite !deref_assign in Hi.
      case_decide.
      * destruct (deref self i) as [f0|] eqn:Hf0; simplify_eq/=.
        by apply (Hk _ f0).
      * by apply Hk.
  - eexists _, _. split; [by apply update_saved_hash_new|].
    unfold linked, deref in *. simpl. split.
    + intros m i Hi. destruct (decide (n = m)) as [->|Hm].
      * rewrite lookup_insert_eq in Hi. simplify_eq.
        eexists. split.
        { rewrite lookup_app_r by lia. rewrite Nat.sub_diag. reflexivity. }
        reflexivity.
      * rewrite lookup_insert_ne in Hi by done.
        destruct (He _ _ Hi) as (f & Hf & Hfn). exists f.
        split; [by apply lookup_app_l_Some|done].
    + intros i f Hi. apply lookup_app_Some in Hi as [Hi|[Hlen Hi]].
      * pose proof (Hk _ _ Hi) as Hd.
        rewrite lookup_insert_ne; [done|]. intros ->. congruence.
      * apply list_lookup_singleton_Some in Hi as [Hi <-]. simpl.
        rewrite lookup_insert_eq. f_equal. lia.
Qed.

End Invariant.

(** *** The test [check_linked] *)

Section Check.

Implicit Types (self : t) (l : list file_attrs).

Lemma keyed_from_sound l : ∀ i (dict : gmap str nat) j f,
  keyed_from i l dict = true → l !! j = Some f →
  dict !! File.file_name f = Some (i + j)%nat.
Proof.
  induction l as [|x l IH]; intros i dict j f Hk Hj; [done|].
  simpl in Hk. apply andb_true_iff in Hk as [Hx Hk].
  apply bool_decide_eq_true in Hx.
  destruct j as [|j]; simpl in Hj.
  - simplify_eq. rewrite Hx. f_equal. lia.
  - rewrite (IH _ _ _ _ Hk Hj). f_equal. lia.
Qed.

Lemma check_linked_sound self : check_linked self = true → invariant self.
Proof.
  unfold check_linked. intros H. apply andb_true_iff in H as [Hd Hk].
  apply bool_decide_eq_true in Hd. apply linked_invariant. split.
  - intros n r Hr. specialize (Hd n r Hr). simpl in Hd.
    destruct (deref self r) as [f|]; simplify_eq/=. by exists f.
  - intros i f Hi. by rewrite (keyed_from_sound _ 0 _ i f Hk Hi).
Qed.

End Check.

(* ===================================================================== *)
(** ** The operations of the hash store *)
(* ===================================================================== *)

Section Operations.

Implicit Types (self : t) (E : env) (s : state) (n text : str) (b : bytes).

(** The fingerprint of every name after [update_saved_hash]. *)
Lemma get_file_hash_update self n text b E s self' s' m :
  invariant self → utf8 text = Some b →
  update_saved_hash self n text E s = (Return self', s') →
  get_file_hash self' m
  = if decide (m = n) then md5_hexdigest b else get_file_hash self m.
Proof.
  intros Hinv Hb Hup. apply linked_invariant in Hinv as [He Hk].
  unfold get_file_hash.
  destruct (filesdict self !! n) as [r|] eqn:Hr.
  - rewrite (update_saved_hash_existing _ _ _ _ _ _ _ Hb Hr) in Hup.
    simplify_eq. rewrite !filesdict_assign.
    destruct (He _ _ Hr) as (f & Hf & Hfn).
    case_decide as Hm.
    + subst m. rewrite Hr, !deref_assign, Hf.
      rewrite !decide_True by done. reflexivity.
    + destruct (filesdict self !! m) as [r'|] eqn:Hr'; [|done].
      rewrite !deref_assign. case_decide; [|done].
      subst r'. destruct (He _ _ Hr') as (f' & Hf' & Hfn'). congruence.
  - rewrite (update_saved_hash_new _ _ _ _ _ _ Hb Hr) in Hup.
    simplify_eq. unfold deref. simpl.
    case_decide as Hm.
    + subst m. rewrite lookup_insert_eq.
      rewrite lookup_app_r by lia. by rewrite Nat.sub_diag.
    + rewrite lookup_insert_ne by done.
      destruct (filesdict self !! m) as [r'|] eqn:Hr'; [|done].
      destruct (He _ _ Hr') as (f' & Hf' & Hfn'). unfold deref in Hf'.
      by rewrite (lookup_app_l_Some _ _ _ _ Hf'), Hf'.
Qed.

(** C1. On an instance of the class, [matches_saved_hash(n, C)] right
    after [update_saved_hash(n, C)] returns [True], for every [n] and [C]:
    both take the MD5 hex digest of the UTF-8 encoding of [C], the update
    stores it under [n] and the test finds it there.  The update returns
    for every [C] that has a UTF-8 encoding.  The hypothesis says that the
    references of [filesdict] are live, which the memory of Python
    guarantees. *)
Theorem update_then_matches self n text E s :
  live self →
  (∀ self' s1,
     update_saved_hash self n text E s = (Return self', s1) →
     ∃ s2, matches_saved_hash self' n text E s1 = (Return true, s2))
  ∧ (∀ b, utf8 text = Some b →
     ∃ self' s1, update_saved_hash self n text E s = (Return self', s1)
                 ∧ get_file_hash self' n = md5_hexdigest b).
Proof.
  intros Hlive.
  assert (Hret : ∀ b, utf8 text = Some b →
     ∃ self' s1, update_saved_hash self n text E s = (Return self', s1)
                 ∧ get_file_hash self' n = md5_hexdigest b).
  { intros b Hb. unfold get_file_hash.
    destruct (filesdict self !! n) as [r|] eqn:Hr.
    - eexists _, _. split; [by apply update_saved_hash_existing|].
      destruct (Hlive _ _ Hr) as [f Hf].
      rewrite !filesdict_assign, Hr, !deref_assign, Hf.
      rewrite !decide_True by done. reflexivity.
    - eexists _, _. split; [by apply update_saved_hash_new|].
      unfold deref. simpl. rewrite lookup_insert_eq.
      rewrite lookup_app_r by lia. by rewrite Nat.sub_diag. }
  split; [|exact Hret].
  intros self' s1 Hup.
  destruct (utf8 text) as [b|] eqn:Hb.
  - destruct (Hret b eq_refl) as (self2 & s2 & Hup2 & Hget).
    rewrite Hup in Hup2. simplify_eq.
    eexists. rewrite (matches_saved_hash_run _ _ _ _ _ _ Hb), Hget.
    by rewrite bool_decide_eq_true_2.
  - unfold update_saved_hash, bind, encode_utf8 in Hup.
    rewrite Hb in Hup. discriminate Hup.
Qed.

Lemma update_then_matches_witness :
  live Demo.store_a
  ∧ ∃ self' s1 s2,
      update_saved_hash Demo.store_a (u "ddl/a.sql") Demo.b_sql
                        (Demo.E (u "ddl")) Demo.s0 = (Return self', s1)
      ∧ matches_saved_hash self' (u "ddl/a.sql") Demo.b_sql
                           (Demo.E (u "ddl")) s1 = (Return true, s2).
Proof.
  assert (Hl : live Demo.store_a)
    by (apply invariant_live, check_linked_sound; vm_compute; reflexivity).
  split; [exact Hl|].
  destruct (update_then_matches Demo.store_a (u "ddl/a.sql") Demo.b_sql
              (Demo.E (u "ddl")) Demo.s0 Hl) as [Hm Hr].
  destruct (Hr Demo.b_sql) as (self' & s1 & Hup & _); [vm_compute; reflexivity|].
  destruct (Hm self' s1 Hup) as [s2 Hs2].
  exists self', s1, s2. split; assumption.
Defined.

(** C8. For a name [n] that [filesdict] does not have,
    [matches_saved_hash(n, C)] returns [False]: [get_file_hash] answers
    with the empty text, an MD5 hex digest has 32 characters, and the two
    are compared for equality.  The call only logs.  It returns for every
    [C] that has a UTF-8 encoding, and [True] for no [C] at all. *)
Theorem unrecorded_file_never_matches self n text E s :
  filesdict self !! n = None →
  get_file_hash self n = []
  ∧ fst (matches_saved_hash self n text E s) ≠ Return true
  ∧ (∀ b, utf8 text = Some b →
     length (md5_hexdigest b) = 32%nat
     ∧ ∃ rs, matches_saved_hash self n text E s
             = (Return false, add_logs rs s)).
Proof.
  intros Hn.
  assert (Hget : get_file_hash self n = [])
    by (unfold get_file_hash; by rewrite Hn).
  assert (Hret : ∀ b, utf8 text = Some b →
     matches_saved_hash self n text E s
     = (Return false, add_logs (matches_log self n (md5_hexdigest b)) s)).
  { intros b Hb. rewrite (matches_saved_hash_run _ _ _ _ _ _ Hb), Hget.
    by rewrite bool_decide_eq_false_2 by apply md5_hexdigest_nonempty. }
  split; [done|]. split.
  - destruct (utf8 text) as [b|] eqn:Hb.
    + by rewrite (Hret b).
    + by rewrite matches_saved_hash_unencodable.
  - intros b Hb. split; [apply md5_hexdigest_length|].
    eexists. by apply Hret.
Qed.

Lemma unrecorded_file_never_matches_witness :
  filesdict Demo.store_a !! u "ddl/b.sql" = None
  ∧ ∃ rs, matches_saved_hash Demo.store_a (u "ddl/b.sql") Demo.b_sql
                             (Demo.E (u "ddl")) Demo.s0
          = (Return false, add_logs rs Demo.s0).
Proof.
  assert (Hn : filesdict Demo.store_a !! u "ddl/b.sql" = None)
    by (vm_compute; reflexivity).
  split; [exact Hn|].
  destruct (unrecorded_file_never_matches Demo.store_a (u "ddl/b.sql")
              Demo.b_sql (Demo.E (u "ddl")) Demo.s0 Hn) as (_ & _ & Hr).
  destruct (Hr Demo.b_sql) as [_ Hrs]; [vm_compute; reflexivity|].
  exact Hrs.
Defined.

(** C4. [update_saved_hash(n, C)] takes the digest of [C] again.  When
    [filesdict] has [n], the dict it refers to gets that digest as
    [file_hash] and the reading of the clock as [deploy_date], where it is:
    [filesdict] and the length of [hashes["files"]] stay as they are.
    Otherwise one entry is appended to [hashes["files"]], named [n], with
    the digest, and with [deploy_date] and [create_date] read from the clock
    one after the other; [filesdict] then sends [n] to it. *)
Theorem update_saved_hash_spec self n text b E s :
  utf8 text = Some b →
  let now := clock E (clock_reads s) in
  let files := Hashes.files (hashes self) in
  ∃ self' s',
    update_saved_hash self n text E s = (Return self', s')
    ∧ match filesdict self !! n with
      | Some r =>
          filesdict self' = filesdict self
          ∧ length (Hashes.files (hashes self')) = length files
          ∧ deref self' r
            = (λ f, File.Build (File.file_name f) (md5_hexdigest b) now
                               (File.create_date f)) <$> deref self r
          ∧ clock_reads s' = S (clock_reads s)
      | None =>
          Hashes.files (hashes self')
          = files ++ [File.Build n (md5_hexdigest b) now
                                 (clock E (S (clock_reads s)))]
          ∧ filesdict self' = <[n := length files]> (filesdict self)
          ∧ clock_reads s' = S (S (clock_reads s))
      end.
Proof.
  intros Hb now files.
  destruct (filesdict self !! n) as [r|] eqn:Hr.
  - eexists _, _. split; [by apply update_saved_hash_existing|].
    rewrite !filesdict_assign, !length_files_assign, !deref_assign.
    rewrite !decide_True by done.
    repeat split. by destruct (deref self r).
  - eexists _, _. split; [by apply update_saved_hash_new|].
    repeat split.
Qed.

Lemma update_saved_hash_spec_witness :
  utf8 Demo.b_sql = Some Demo.b_sql
  ∧ ∃ self' s',
      update_saved_hash Demo.store_a (u "ddl/a.sql") Demo.b_sql
                        (Demo.E (u "ddl")) Demo.s0 = (Return self', s')
      ∧ filesdict self' = filesdict Demo.store_a
      ∧ length (Hashes.files (hashes self')) = 1%nat
      ∧ deref self' 0
        = Some (File.Build (u "ddl/a.sql") (md5_hexdigest Demo.b_sql)
                           1000 1003)
      ∧ clock_reads s' = 1%nat.
Proof.
  assert (Hb : utf8 Demo.b_sql = Some Demo.b_sql) by (vm_compute; reflexivity).
  split; [exact Hb|].
  exact (update_saved_hash_spec Demo.store_a (u "ddl/a.sql") Demo.b_sql _
                                (Demo.E (u "ddl")) Demo.s0 Hb).
Defined.

(** C10. When [filesdict] has [n], [update_saved_hash(n, C)] changes the
    [file_hash] and the [deploy_date] of the entry of [n] and nothing else:
    that entry keeps its [file_name] and [create_date], every other entry
    of [hashes["files"]] is as before, so is the fingerprint of every other
    name, and so are the other keys of [hashes] and the attributes of the
    instance. *)
Theorem update_saved_hash_frame self n text b r E s :
  invariant self → utf8 text = Some b → filesdict self !! n = Some r →
  ∃ self' s' f f',
    update_saved_hash self n text E s = (Return self', s')
    ∧ deref self r = Some f ∧ deref self' r = Some f'
    ∧ File.file_name f' = File.file_name f
    ∧ File.create_date f' = File.create_date f
    ∧ (∀ i, i ≠ r → deref self' i = deref self i)
    ∧ (∀ m, m ≠ n → filesdict self' !! m = filesdict self !! m
                    ∧ get_file_hash self' m = get_file_hash self m)
    ∧ Hashes.project_name (hashes self') = Hashes.project_name (hashes self)
    ∧ Hashes.repo_name (hashes self') = Hashes.repo_name (hashes self)
    ∧ Hashes.google_project_id (hashes self')
      = Hashes.google_project_id (hashes self)
    ∧ Hashes._id (hashes self') = Hashes._id (hashes self)
    ∧ Hashes.create_date (hashes self') = Hashes.create_date (hashes self)
    ∧ Hashes.update_date (hashes self') = Hashes.update_date (hashes self)
    ∧ project_name self' = project_name self
    ∧ repo_name self' = repo_name self
    ∧ google_project_id self' = google_project_id self.
Proof.
  intros Hinv Hb Hr.
  pose proof (update_saved_hash_existing _ _ _ _ _ E s Hb Hr) as Hup.
  destruct (proj2 (linked_invariant self) Hinv) as [He _].
  destruct (He _ _ Hr) as (f & Hf & Hfn).
  eexists _, _, f, _. split; [exact Hup|]. split; [exact Hf|].
  split.
  { rewrite !deref_assign, !decide_True by done. rewrite Hf. reflexivity. }
  split; [done|]. split; [done|]. split.
  { intros i Hi. rewrite !deref_assign. by rewrite !decide_False. }
  split; [|by repeat split].
  intros m Hm. split; [done|].
  rewrite (get_file_hash_update _ _ _ _ _ _ _ _ m Hinv Hb Hup).
  by rewrite decide_False.
Qed.

Lemma update_saved_hash_frame_witness :
  invariant Demo.store_a
  ∧ utf8 Demo.b_sql = Some Demo.b_sql
  ∧ filesdict Demo.store_a !! u "ddl/a.sql" = Some 0%nat
  ∧ ∃ self' s' f f',
      update_saved_hash Demo.store_a (u "ddl/a.sql") Demo.b_sql
                        (Demo.E (u "ddl")) Demo.s0 = (Return self', s')
      ∧ deref Demo.store_a 0 = Some f ∧ deref self' 0 = Some f'
      ∧ File.file_name f' = File.file_name f
      ∧ File.create_date f' = File.create_date f.
Proof.
  assert (Hi : invariant Demo.store_a)
    by (apply check_linked_sound; vm_compute; reflexivity).
  assert (Hb : utf8 Demo.b_sql = Some Demo.b_sql) by (vm_compute; reflexivity).
  assert (Hr : filesdict Demo.store_a !! u "ddl/a.sql" = Some 0%nat)
    by (vm_compute; reflexivity).
  split; [exact Hi|]. split; [exact Hb|]. split; [exact Hr|].
  destruct (update_saved_hash_frame Demo.store_a (u "ddl/a.sql") Demo.b_sql _
              0%nat (Demo.E (u "ddl")) Demo.s0 Hi Hb Hr)
    as (self' & s' & f & f' & H1 & H2 & H3 & H4 & H5 & _).
  exists self', s', f, f'. repeat split; assumption.
Defined.

(** C9. The invariant of the instance: a name that [filesdict] has leads
    to an entry of [hashes["files"]] of that name, and is the name of that
    entry only.  [__init__] establishes it, on a fresh record and on a
    stored document that has one entry per name, as the data model asks;
    [update_saved_hash] keeps it, leaving the number of entries as it is for
    a name that [filesdict] has and adding one entry for a name that it
    lacks. *)
Theorem hash_store_invariant :
  (∀ p r g us pw E s,
     match find (Mongo.is_for p r g) (collection s) with
     | Some d => distinct_names d
     | None => True
     end →
     ∃ self s', __init__ p r g us pw E s = (Return self, s')
                ∧ invariant self)
  ∧ (∀ self n text b E s,
     invariant self → utf8 text = Some b →
     ∃ self' s', update_saved_hash self n text E s = (Return self', s')
       ∧ invariant self'
       ∧ length (Hashes.files (hashes self'))
         = match filesdict self !! n with
           | Some _ => length (Hashes.files (hashes self))
           | None => S (length (Hashes.files (hashes self)))
           end).
Proof.
  split.
  - intros p r g us pw E s Hd.
    destruct (init_linked p r g us pw E s) as (self & s' & Hi & Hl).
    { intros d Hfind. by rewrite Hfind in Hd. }
    exists self, s'. split; [done|]. by apply linked_invariant.
  - intros self n text b E s Hinv Hb.
    destruct (update_saved_hash_linked self n text b E s)
      as (self' & s' & Hup & Hl); [by apply linked_invariant|done|].
    exists self', s'. split; [done|]. split; [by apply linked_invariant|].
    destruct (filesdict self !! n) as [r|] eqn:Hr.
    + rewrite (update_saved_hash_existing _ _ _ _ _ _ _ Hb Hr) in Hup.
      simplify_eq. by rewrite !length_files_assign.
    + rewrite (update_saved_hash_new _ _ _ _ _ _ Hb Hr) in Hup.
      simplify_eq. simpl. rewrite length_app. simpl. lia.
Qed.

Lemma hash_store_invariant_witness :
  (∃ self s',
     __init__ (u "acme") (u "warehouse") (u "gcp-prod") (u "deployer")
              (u "secret") (Demo.E (u "ddl")) (snd Demo.after_a)
     = (Return self, s')
     ∧ invariant self)
  ∧ (∃ self' s',
       update_saved_hash Demo.store_a (u "ddl/b.sql") Demo.b_sql
                         (Demo.E (u "ddl")) Demo.s0 = (Return self', s')
       ∧ invariant self'
       ∧ length (Hashes.files (hashes self')) = 2%nat).
Proof.
  destruct hash_store_invariant as [Hinit Hupdate]. split.
  - apply Hinit. vm_compute. apply NoDup_singleton.
  - apply (Hupdate Demo.store_a (u "ddl/b.sql") Demo.b_sql Demo.b_sql).
    + apply check_linked_sound. vm_compute. reflexivity.
    + vm_compute. reflexivity.
Defined.

(** C7. [__init__] asks the collection for the document of the triple
    and takes the one there is.  When there is none it makes a record
    without ["_id"], with the triple, an empty list of files and the reading
    of the clock as [create_date], and logs two warnings.  Either way
    [update_date] is then set to the reading of the clock. *)
Theorem load_hash_store p r g us pw E s :
  (∀ d, d ∈ collection s → Mongo.is_for p r g d = true →
        (∀ d', d' ∈ collection s → Mongo.is_for p r g d' = true → d' = d) →
        find (Mongo.is_for p r g) (collection s) = Some d)
  ∧ ∃ self s',
      __init__ p r g us pw E s = (Return self, s')
      ∧ match find (Mongo.is_for p r g) (collection s) with
        | Some d =>
            hashes self
            = Hashes.set_update_date (clock E (clock_reads s)) d
            ∧ s' = tick s
        | None =>
            Hashes._id (hashes self) = None
            ∧ Hashes.files (hashes self) = []
            ∧ Hashes.create_date (hashes self) = clock E (clock_reads s)
            ∧ Hashes.update_date (hashes self)
              = Some (clock E (S (clock_reads s)))
            ∧ Hashes.project_name (hashes self) = p
            ∧ Hashes.repo_name (hashes self) = r
            ∧ Hashes.google_project_id (hashes self) = g
            ∧ filesdict self = ∅
            ∧ s' = tick (tick (add_logs (init_log p r g) s))
        end.
Proof.
  split.
  - intros d Hd Hfor Huniq.
    destruct (find (Mongo.is_for p r g) (collection s)) as [d'|] eqn:Hfind.
    + apply find_some in Hfind as [Hin Hfor'].
      f_equal. apply Huniq; [by apply list_elem_of_In|done].
    + apply list_elem_of_In in Hd.
      pose proof (find_none _ _ Hfind d Hd). congruence.
  - destruct (find (Mongo.is_for p r g) (collection s)) as [d|] eqn:Hfind.
    + eexists _, _. split; [by apply init_found|]. done.
    + eexists _, _. split; [by apply init_fresh|]. by repeat split.
Qed.

Lemma load_hash_store_witness :
  find (Mongo.is_for (u "acme") (u "warehouse") (u "gcp-prod"))
       (collection (snd Demo.after_a))
  = Some (hashes Demo.store_a)
  ∧ ∃ self s',
      __init__ (u "acme") (u "warehouse") (u "gcp-prod") (u "deployer")
               (u "secret") (Demo.E (u "ddl")) (snd Demo.after_a)
      = (Return self, s')
      ∧ hashes self = Hashes.set_update_date 1004 (hashes Demo.store_a)
      ∧ s' = tick (snd Demo.after_a).
Proof.
  destruct (load_hash_store (u "acme") (u "warehouse") (u "gcp-prod")
              (u "deployer") (u "secret") (Demo.E (u "ddl"))
              (snd Demo.after_a)) as [Hu Hl].
  split.
  - apply Hu.
    + vm_compute. apply list_elem_of_here.
    + vm_compute. reflexivity.
    + intros d' Hd' _. vm_compute in Hd'.
      apply list_elem_of_singleton in Hd'. exact Hd'.
  - exact Hl.
Defined.

End Operations.

(* ===================================================================== *)
(** ** The file locator *)
(* ===================================================================== *)

Section Locator.

Implicit Types (a b c x : str) (l : list str) (E : env) (s : state).

Lemma str_leb_total a : ∀ b, str_leb a b = false → str_leb b a = true.
Proof.
  induction a as [|x a IH]; intros [|y b] H; simpl in *; try done.
  apply orb_false_iff in H as [Hlt H].
  apply N.ltb_ge in Hlt.
  destruct (N.eqb_spec x y) as [->|Hne]; simpl in H.
  - rewrite N.ltb_irrefl, N.eqb_refl. simpl. by apply IH.
  - apply orb_true_iff. left. apply N.ltb_lt. lia.
Qed.

Lemma str_leb_trans a : ∀ b c,
  str_leb a b = true → str_leb b c = true → str_leb a c = true.
Proof.
  induction a as [|x a IH]; intros [|y b] [|z c] Hab Hbc; simpl in *; try done.
  apply orb_true_iff in Hab, Hbc. apply orb_true_iff.
  destruct Hab as [Hab|Hab], Hbc as [Hbc|Hbc];
    repeat match goal with
    | H : (_ <? _) = true |- _ => apply N.ltb_lt in H
    | H : (_ && _) = true |- _ => apply andb_true_iff in H as [? ?]
    | H : (_ =? _) = true |- _ => apply N.eqb_eq in H; subst
    end.
  - left. apply N.ltb_lt. lia.
  - left. by apply N.ltb_lt.
  - left. by apply N.ltb_lt.
  - right. rewrite N.eqb_refl. simpl. by eapply IH.
Qed.

Lemma insert_sorted_perm x l : insert_sorted x l ≡ₚ x :: l.
Proof.
  induction l as [|y l IH]; simpl; [done|].
  destruct (str_leb x y); [done|].
  rewrite IH. apply Permutation_swap.
Qed.

Lemma insert_sorted_HdRel a x l :
  str_le a x → HdRel str_le a l → HdRel str_le a (insert_sorted x l).
Proof.
  intros Hax Hal. destruct l as [|y l]; simpl.
  - by constructor.
  - destruct (str_leb x y); constructor; [done|].
    by inversion Hal.
Qed.

Lemma insert_sorted_Sorted x l :
  Sorted str_le l → Sorted str_le (insert_sorted x l).
Proof.
  induction 1 as [|y l Hl IH Hy]; simpl.
  - by repeat constructor.
  - destruct (str_leb x y) eqn:Hxy.
    + constructor; [by constructor|]. by constructor.
    + constructor; [done|].
      apply insert_sorted_HdRel; [|done]. by apply str_leb_total.
Qed.

Lemma sort_perm l : sort l ≡ₚ l.
Proof.
  induction l as [|x l IH]; simpl; [done|].
  by rewrite insert_sorted_perm, IH.
Qed.

Lemma sort_Sorted l : Sorted str_le (sort l).
Proof.
  induction l as [|x l IH]; simpl; [constructor|].
  by apply insert_sorted_Sorted.
Qed.

(** The two ways out of [find_ddl_files]. *)
Lemma find_ddl_files_listed path entries E s :
  listdir E path = inr entries →
  let ddl_files :=
    sort (map (path_join path) (filter (is_ddl_file E path) entries)) in
  find_ddl_files path E s
  = (Return ddl_files,
     add_logs [ Build_log_record DEBUG "Finding DDL files in %s" [Str path];
                found_log ddl_files ] s).
Proof.
  intros Hl. unfold find_ddl_files, bind, try, os_listdir, logging. simpl.
  rewrite Hl. unfold add_log, add_logs. simpl.
  by rewrite <- app_assoc.
Qed.

Lemma find_ddl_files_unlisted path strerror E s :
  listdir E path = inl strerror →
  find_ddl_files path E s
  = (Return [],
     add_logs [ Build_log_record DEBUG "Finding DDL files in %s" [Str path];
                unlisted_log path strerror ] s).
Proof.
  intros Hl. unfold find_ddl_files, bind, try, os_listdir, logging. simpl.
  rewrite Hl. unfold add_log, add_logs. simpl.
  by rewrite <- app_assoc.
Qed.

(** C5, as stated, fails: the locator returns the entries joined to the
    path it was given.  For the folder [ddl] with [b.sql], [a.sql] and
    [c.txt], all regular files, the result is [ddl/a.sql], [ddl/b.sql] and
    not [a.sql], [b.sql]. *)
Lemma locator_returns_paths_not_names :
  listdir (Demo.E (u "ddl")) (u "ddl") = inr [u "b.sql"; u "a.sql"; u "c.txt"]
  ∧ fst (find_ddl_files (u "ddl") (Demo.E (u "ddl")) Demo.s0)
    = Return [u "ddl/a.sql"; u "ddl/b.sql"]
  ∧ fst (find_ddl_files (u "ddl") (Demo.E (u "ddl")) Demo.s0)
    ≠ Return [u "a.sql"; u "b.sql"].
Proof.
  split; [reflexivity|]. split; [vm_compute; reflexivity|].
  vm_compute. discriminate.
Qed.

(** C5, amended.  For a directory that can be listed, the locator returns
    [os.path.join(path, entry)] for the entries of the listing that end
    with [.sql] and for which that path is a regular file, each as many
    times as the listing has it, sorted as texts; it only logs.  For the
    folder [ddl] with [b.sql], [a.sql] and [c.txt] the result is
    [ddl/a.sql], [ddl/b.sql]. *)
Theorem find_ddl_files_spec path entries E s :
  listdir E path = inr entries →
  ∃ ddl_files rs,
    find_ddl_files path E s = (Return ddl_files, add_logs rs s)
    ∧ ddl_files
      ≡ₚ path_join path
         <$> filter (λ entry, endswith entry (u ".sql") = true
                              ∧ isfile E (path_join path entry) = true)
                    entries
    ∧ StronglySorted str_le ddl_files
    ∧ (∀ p, p ∈ ddl_files ↔
         ∃ entry, entry ∈ entries ∧ endswith entry (u ".sql") = true
                  ∧ isfile E (path_join path entry) = true
                  ∧ p = path_join path entry)
    ∧ (entries = [u "b.sql"; u "a.sql"; u "c.txt"] → path = u "ddl" →
       (∀ entry, entry ∈ entries → isfile E (path_join path entry) = true) →
       ddl_files = [u "ddl/a.sql"; u "ddl/b.sql"]).
Proof.
  intros Hl. eexists _, _. split; [by apply find_ddl_files_listed|].
  assert (Hperm : sort (map (path_join path)
                          (filter (is_ddl_file E path) entries))
    ≡ₚ path_join path
       <$> filter (λ entry, endswith entry (u ".sql") = true
                            ∧ isfile E (path_join path entry) = true)
                  entries).
  { rewrite sort_perm. change (map (path_join path)) with (fmap (M:=list) (path_join path)).
    f_equiv. erewrite list_filter_iff; [done|].
    intros entry. unfold is_ddl_file.
    rewrite andb_True, !Is_true_true. done. }
  split; [done|]. split.
  { apply Sorted_StronglySorted; [|apply sort_Sorted].
    intros a b c. apply str_leb_trans. }
  split.
  { intros p. rewrite Hperm, list_elem_of_fmap. split.
    - intros (entry & -> & Hin).
      apply list_elem_of_filter in Hin as [[H1 H2] Hin]. by exists entry.
    - intros (entry & Hin & H1 & H2 & ->). exists entry. split; [done|].
      by apply list_elem_of_filter. }
  intros -> -> Hfiles.
  assert (Ha : isfile E (u "ddl/a.sql") = true).
  { apply (Hfiles (u "a.sql")). set_solver. }
  assert (Hb : isfile E (u "ddl/b.sql") = true).
  { apply (Hfiles (u "b.sql")). set_solver. }
  unfold is_ddl_file. rewrite !filter_cons, filter_nil.
  change (path_join (u "ddl") (u "a.sql")) with (u "ddl/a.sql").
  change (path_join (u "ddl") (u "b.sql")) with (u "ddl/b.sql").
  rewrite Ha, Hb. reflexivity.
Qed.

Lemma find_ddl_files_spec_witness :
  listdir (Demo.E (u "ddl")) (u "ddl") = inr [u "b.sql"; u "a.sql"; u "c.txt"]
  ∧ ∃ ddl_files rs,
      find_ddl_files (u "ddl") (Demo.E (u "ddl")) Demo.s0
      = (Return ddl_files, add_logs rs Demo.s0)
      ∧ StronglySorted str_le ddl_files
      ∧ ddl_files = [u "ddl/a.sql"; u "ddl/b.sql"].
Proof.
  split; [reflexivity|].
  destruct (find_ddl_files_spec (u "ddl") [u "b.sql"; u "a.sql"; u "c.txt"]
              (Demo.E (u "ddl")) Demo.s0 eq_refl)
    as (ddl_files & rs & Hrun & _ & Hsorted & _ & Hex).
  exists ddl_files, rs. split; [exact Hrun|]. split; [exact Hsorted|].
  apply Hex; [reflexivity..|].
  intros entry Hin. vm_compute in Hin.
  repeat (apply elem_of_cons in Hin as [->|Hin]; [vm_compute; reflexivity|]).
  by apply elem_of_nil in Hin.
Defined.

End Locator.

(* ===================================================================== *)
(** ** The orchestrator *)
(* ===================================================================== *)

Section Orchestrator.

Implicit Types (self hs : t) (E : env) (s : state) (sql gp : str).
Implicit Types (p : CompletedProcess).

(** [execute_sql] logs, starts [bq] on the text, and logs again or raises. *)
Lemma execute_sql_run sql gp E s :
  execute_sql sql gp E s
  = let s1 := add_run (bq_cmd gp, sql) (add_logs (executing_log sql gp) s) in
    match spawn E (length (runs s)) (bq_cmd gp) sql with
    | inl e => (Raise (OSError e), s1)
    | inr p =>
        if (returncode p =? 0)%Z
        then (Return tt, add_logs (executed_log p) s1)
        else (Raise (CalledProcessError (returncode p) (stdout p) (stderr p)),
              s1)
    end.
Proof.
  unfold execute_sql, bind, logging, subprocess_run. simpl.
  destruct (spawn E _ _ _) as [e|p]; simpl.
  - unfold add_run, add_log, add_logs. simpl. by rewrite <- app_assoc.
  - destruct (returncode p =? 0)%Z; simpl;
      unfold add_run, add_log, add_logs; simpl;
      rewrite <- ?app_assoc; reflexivity.
Qed.

(** One turn of the loop, for a file that can be read and encoded. *)
Lemma deploy_files_cons hs gp f rest sql b E s :
  read E f = inr sql → utf8 sql = Some b →
  let s_m := add_logs (matches_log hs f (md5_hexdigest b)) s in
  let s_r :=
    add_run (bq_cmd gp, sql)
      (add_logs (Build_log_record INFO "Executing file %s." [Str f]
                 :: executing_log sql gp) s_m) in
  deploy_files hs gp (f :: rest) E s
  = if bool_decide (md5_hexdigest b = get_file_hash hs f)
    then deploy_files hs gp rest E (add_log (skipped_log f) s_m)
    else
      match spawn E (length (runs s)) (bq_cmd gp) sql with
      | inl e => (Raise (OSError e), s_r)
      | inr p =>
          if (returncode p =? 0)%Z then
            let s_u :=
              add_log (Build_log_record INFO "Saving file hash for %s." [Str f])
                      (add_logs (executed_log p) s_r) in
            match update_saved_hash hs f sql E s_u with
            | (Return hu, su) =>
                match save hu E su with
                | (Return hs', s') => deploy_files hs' gp rest E s'
                | (Raise e, s') => (Raise e, s')
                end
            | (Raise e, su) => (Raise e, su)
            end
          else (Raise (SystemExit 3), add_logs (failed_log f p) s_r)
      end.
Proof.
  intros Hread Hb s_m s_r.
  cbn [deploy_files]. unfold bind at 1. unfold get_sql at 1. rewrite Hread.
  unfold bind at 1. rewrite (matches_saved_hash_run _ _ _ _ _ _ Hb).
  fold s_m. destruct (bool_decide _); [reflexivity|].
  unfold bind at 1, try at 1. unfold bind at 1, logging at 1.
  rewrite execute_sql_run.
  assert (Hs : add_run (bq_cmd gp, sql)
                 (add_logs (executing_log sql gp)
                    (add_log (Build_log_record INFO "Executing file %s." [Str f])
                             s_m)) = s_r).
  { unfold s_r, add_run, add_log, add_logs. simpl. by rewrite <- !app_assoc. }
  simpl runs. cbv zeta. rewrite Hs.
  destruct (spawn E _ _ _) as [e|p]; [reflexivity|].
  destruct (returncode p =? 0)%Z.
  - reflexivity.
  - unfold bind, logging, sys_exit, raise. simpl.
    unfold failed_log, add_log, add_logs. simpl. by rewrite <- !app_assoc.
Qed.

(** C3. When [matches_saved_hash] returns [True] for a located file,
    [deploy] logs that it skips the file and goes on with the rest, with the
    same instance: [bq] is not started, the clock is not read (so no
    [deploy_date] is set), and the collection is not written. *)
Theorem unchanged_file_is_skipped hs gp f rest sql E s s1 :
  read E f = inr sql →
  matches_saved_hash hs f sql E s = (Return true, s1) →
  deploy_files hs gp (f :: rest) E s
  = deploy_files hs gp rest E (add_log (skipped_log f) s1)
  ∧ (∃ rs, add_log (skipped_log f) s1 = add_logs rs s)
  ∧ runs s1 = runs s ∧ collection s1 = collection s
  ∧ clock_reads s1 = clock_reads s.
Proof.
  intros Hread Hm.
  destruct (utf8 sql) as [b|] eqn:Hb.
  - rewrite (matches_saved_hash_run _ _ _ _ _ _ Hb) in Hm.
    injection Hm as Htrue <-.
    rewrite (deploy_files_cons _ _ _ _ _ _ _ _ Hread Hb). cbv zeta.
    rewrite Htrue. split; [done|]. split; [|done].
    eexists. rewrite add_log_add_logs. reflexivity.
  - pose proof (matches_saved_hash_unencodable hs f sql E s Hb) as Hr.
    rewrite Hm in Hr. discriminate Hr.
Qed.

Lemma unchanged_file_is_skipped_witness :
  read (Demo.E (u "ddl")) (u "ddl/a.sql") = inr Demo.a_sql
  ∧ fst (matches_saved_hash Demo.store_a (u "ddl/a.sql") Demo.a_sql
                            (Demo.E (u "ddl")) Demo.s0) = Return true
  ∧ fst (deploy_files Demo.store_a (u "gcp-prod") [u "ddl/a.sql"]
                      (Demo.E (u "ddl")) Demo.s0) = Return Demo.store_a
  ∧ runs (snd (deploy_files Demo.store_a (u "gcp-prod") [u "ddl/a.sql"]
                            (Demo.E (u "ddl")) Demo.s0)) = [].
Proof.
  assert (Hread : read (Demo.E (u "ddl")) (u "ddl/a.sql") = inr Demo.a_sql)
    by reflexivity.
  destruct (matches_saved_hash Demo.store_a (u "ddl/a.sql") Demo.a_sql
              (Demo.E (u "ddl")) Demo.s0) as [r s1] eqn:Hm.
  assert (Hr : r = Return true).
  { change r with (fst (r, s1)). rewrite <- Hm. vm_compute. reflexivity. }
  subst r. split; [exact Hread|]. split; [reflexivity|].
  destruct (unchanged_file_is_skipped Demo.store_a (u "gcp-prod")
              (u "ddl/a.sql") [] Demo.a_sql (Demo.E (u "ddl")) Demo.s0 s1
              Hread Hm) as (Hstep & _ & Hruns & _).
  rewrite Hstep. simpl. split; [reflexivity|]. exact Hruns.
Defined.

(** The loop over a list and then another is the loop over both. *)
Lemma deploy_files_app hs gp l1 l2 E : ∀ s,
  deploy_files hs gp (l1 ++ l2) E s
  = match deploy_files hs gp l1 E s with
    | (Return hs1, s1) => deploy_files hs1 gp l2 E s1
    | (Raise e, s1) => (Raise e, s1)
    end.
Proof.
  revert hs. induction l1 as [|f l1 IH]; intros hs s; [done|].
  rewrite <- app_comm_cons. cbn [deploy_files]. unfold bind.
  destruct (get_sql f E s) as [[sql|e] s0]; [|done].
  destruct (matches_saved_hash hs f sql E s0) as [[[|]|e] s1]; [| |done].
  - destruct (logging _ _ _ E s1) as [[[]|e] s2]; [|done]. apply IH.
  - destruct (try _ E s1) as [[[[]|e]|e] s2]; [| |done].
    + destruct (logging _ _ _ E s2) as [[[]|e] s3]; [|done].
      destruct (update_saved_hash hs f sql E s3) as [[hu|e] s4]; [|done].
      destruct (save hu E s4) as [[hs'|e] s5]; [|done].
      apply IH.
    + by destruct e.
Qed.

(** *** Saving *)

Lemma find_replace_first i (d : document) (c : list document) :
  Hashes._id d = Some i →
  is_Some (find (Mongo.has_id i) c) →
  find (Mongo.has_id i) (Mongo.replace_first (Mongo.has_id i) d c) = Some d.
Proof.
  intros Hd [x Hx]. induction c as [|y c IH]; [done|].
  simpl in *. destruct (Mongo.has_id i y) eqn:Hy; simpl.
  - unfold Mongo.has_id. by rewrite bool_decide_eq_true_2.
  - rewrite Hy. by apply IH.
Qed.

Lemma find_app_miss (q : document → bool) (c l : list document) :
  (∀ x, x ∈ c → q x = false) → find q (c ++ l) = find q l.
Proof.
  induction c as [|y c IH]; intros Hc; [done|].
  simpl. rewrite (Hc y) by apply list_elem_of_here.
  apply IH. intros x Hx. apply Hc. by apply list_elem_of_further.
Qed.

Lemma find_fresh_id (d : document) (c : list document) :
  let d' := Hashes.set__id (fresh (Mongo.ids c)) d in
  find (Mongo.has_id (fresh (Mongo.ids c))) (c ++ [d']) = Some d'.
Proof.
  intros d'. rewrite find_app_miss.
  - simpl. unfold Mongo.has_id. by rewrite bool_decide_eq_true_2.
  - intros x Hx. apply bool_decide_eq_false_2. intros Hid.
    apply (infinite_is_fresh (Mongo.ids c)).
    apply list_elem_of_omap. by exists x.
Qed.

Lemma save_stored self i E s :
  Hashes._id (hashes self) = Some i →
  save self E s
  = (Return self,
     set_collection
       (Mongo.replace_first (Mongo.has_id i) (hashes self) (collection s))
       (add_log saving_log s)).
Proof.
  intros Hi. unfold save, bind, logging. rewrite Hi. reflexivity.
Qed.

Lemma save_new self E s :
  Hashes._id (hashes self) = None →
  let d' := Hashes.set__id (fresh (Mongo.ids (collection s))) (hashes self) in
  save self E s
  = (Return (set_hashes d' self),
     set_collection (collection s ++ [d']) (add_log saving_log s)).
Proof.
  intros Hi. unfold save, bind, logging. rewrite Hi. reflexivity.
Qed.

(** [save] leaves the collection with the document of the instance, and
    the instance as it was but for ["_id"]. *)
Lemma save_in_sync self E s :
  (∀ i, Hashes._id (hashes self) = Some i →
        is_Some (find (Mongo.has_id i) (collection s))) →
  ∃ self' s' i,
    save self E s = (Return self', s')
    ∧ Hashes._id (hashes self') = Some i
    ∧ find (Mongo.has_id i) (collection s') = Some (hashes self')
    ∧ filesdict self' = filesdict self
    ∧ Hashes.files (hashes self') = Hashes.files (hashes self)
    ∧ runs s' = runs s ∧ clock_reads s' = clock_reads s.
Proof.
  intros Hpresent.
  destruct (Hashes._id (hashes self)) as [i|] eqn:Hi.
  - eexists _, _, i. split; [by apply save_stored|].
    split; [done|]. split; [|done]. simpl.
    apply find_replace_first; [done|]. by apply Hpresent.
  - eexists _, _, _. split; [by apply save_new|].
    split; [reflexivity|]. split; [|done]. simpl.
    apply find_fresh_id.
Qed.

Lemma invariant_ext self self' :
  filesdict self' = filesdict self →
  Hashes.files (hashes self') = Hashes.files (hashes self) →
  invariant self → invariant self'.
Proof.
  intros Hd Hf [He Ho Hk]. split; unfold deref in *; rewrite ?Hd, ?Hf; done.
Qed.

Lemma get_file_hash_ext self self' m :
  filesdict self' = filesdict self →
  Hashes.files (hashes self') = Hashes.files (hashes self) →
  get_file_hash self' m = get_file_hash self m.
Proof. intros Hd Hf. unfold get_file_hash, deref. by rewrite Hd, Hf. Qed.

Lemma in_sync_present self s i :
  in_sync self s → Hashes._id (hashes self) = Some i →
  is_Some (find (Mongo.has_id i) (collection s)).
Proof.
  unfold in_sync. intros Hs Hi. rewrite Hi in Hs.
  destruct (find _ _); [by eexists|done].
Qed.

Lemma in_sync_collection self s s' :
  collection s' = collection s → in_sync self s → in_sync self s'.
Proof. unfold in_sync. by intros ->. Qed.

(** *** The loop *)

Lemma update_saved_hash_state self n text E s self' s' :
  update_saved_hash self n text E s = (Return self', s') →
  collection s' = collection s ∧ runs s' = runs s
  ∧ Hashes._id (hashes self') = Hashes._id (hashes self).
Proof.
  intros Hup. destruct (utf8 text) as [b|] eqn:Hb.
  - destruct (filesdict self !! n) as [r|] eqn:Hr.
    + rewrite (update_saved_hash_existing _ _ _ _ _ _ _ Hb Hr) in Hup.
      by simplify_eq.
    + rewrite (update_saved_hash_new _ _ _ _ _ _ Hb Hr) in Hup.
      by simplify_eq.
  - unfold update_saved_hash, bind, encode_utf8 in Hup.
    rewrite Hb in Hup. discriminate Hup.
Qed.

(** A fingerprint that [filesdict] leads to is in [hashes["files"]]. *)
Lemma get_file_hash_entry self n h :
  invariant self → get_file_hash self n = h → h ≠ [] →
  ∃ f, f ∈ Hashes.files (hashes self)
       ∧ File.file_name f = n ∧ File.file_hash f = h.
Proof.
  intros [He _ _] Hget Hh. unfold get_file_hash in Hget.
  destruct (filesdict self !! n) as [r|] eqn:Hr; [|congruence].
  destruct (He _ _ Hr) as (f & Hf & Hfn). rewrite Hf in Hget.
  exists f. split; [|done]. by eapply list_elem_of_lookup_2.
Qed.

(** And an entry of [hashes["files"]] is the one [filesdict] leads to. *)
Lemma entry_get_file_hash self f :
  invariant self → f ∈ Hashes.files (hashes self) →
  get_file_hash self (File.file_name f) = File.file_hash f.
Proof.
  intros Hinv Hf. apply linked_invariant in Hinv as [_ Hk].
  apply list_elem_of_lookup_1 in Hf as [i Hi].
  unfold get_file_hash. rewrite (Hk i f Hi). unfold deref in *. by rewrite Hi.
Qed.

(** One turn that does not raise: the instance stays as the class wants
    it and in step with the collection, the file of the turn has its
    fingerprint, and so has every file that had it. *)
Lemma deploy_files_turn hs gp f rest E s hs1 s1 :
  invariant hs → in_sync hs s →
  deploy_files hs gp (f :: rest) E s = (Return hs1, s1) →
  ∃ hs' s',
    deploy_files hs' gp rest E s' = (Return hs1, s1)
    ∧ invariant hs' ∧ in_sync hs' s'
    ∧ up_to_date E hs' f
    ∧ (∀ m, up_to_date E hs m → up_to_date E hs' m).
Proof.
  intros Hinv Hsync Hrun.
  destruct (read E f) as [e|sql] eqn:Hread.
  { cbn [deploy_files] in Hrun. unfold bind, get_sql in Hrun.
    rewrite Hread in Hrun. discriminate Hrun. }
  destruct (utf8 sql) as [b|] eqn:Hb; cycle 1.
  { cbn [deploy_files] in Hrun. unfold bind, get_sql in Hrun.
    rewrite Hread in Hrun.
    pose proof (matches_saved_hash_unencodable hs f sql E s Hb) as Hm.
    destruct (matches_saved_hash hs f sql E s) as [r sx].
    simpl in Hm. subst r. discriminate Hrun. }
  rewrite (deploy_files_cons _ _ _ _ _ _ _ _ Hread Hb) in Hrun.
  cbv zeta in Hrun. case_bool_decide as Hh.
  - eexists hs, _. split; [exact Hrun|]. split; [done|].
    split; [by eapply in_sync_collection|].
    split; [|done]. by exists sql, b.
  - destruct (spawn E _ _ _) as [e|p]; [discriminate Hrun|].
    destruct (returncode p =? 0)%Z; [|discriminate Hrun].
    match type of Hrun with
    | context [update_saved_hash hs f sql E ?s_u] =>
        destruct (update_saved_hash_linked hs f sql b E s_u)
          as (hu & su & Hup & Hl); [by apply linked_invariant|done|]
    end.
    rewrite Hup in Hrun.
    destruct (update_saved_hash_state _ _ _ _ _ _ _ Hup) as (Hco & _ & Hid).
    destruct (save_in_sync hu E su)
      as (hs' & s' & i & Hsave & Hid' & Hfind & Hd & Hf & _).
    { intros i Hi. rewrite Hco. simpl.
      apply (in_sync_present hs s i Hsync). congruence. }
    rewrite Hsave in Hrun.
    assert (Hget : ∀ m, get_file_hash hs' m
      = if decide (m = f) then md5_hexdigest b else get_file_hash hs m).
    { intros m. rewrite (get_file_hash_ext hu hs' m Hd Hf).
      by eapply get_file_hash_update. }
    exists hs', s'. split; [exact Hrun|].
    split. { eapply invariant_ext; [done..|]. by apply linked_invariant. }
    split. { unfold in_sync. by rewrite Hid', Hfind. }
    split. { exists sql, b. rewrite Hget, decide_True by done. done. }
    intros m (sql' & b' & Hr' & Hb' & Hg'). exists sql', b'.
    split; [done|]. split; [done|]. rewrite Hget. case_decide; [|done].
    subst m. congruence.
Qed.

Lemma deploy_files_Return gp E l : ∀ hs s hs1 s1,
  invariant hs → in_sync hs s →
  deploy_files hs gp l E s = (Return hs1, s1) →
  invariant hs1 ∧ in_sync hs1 s1
  ∧ (∀ m, up_to_date E hs m → up_to_date E hs1 m)
  ∧ (∀ g, g ∈ l → up_to_date E hs1 g).
Proof.
  induction l as [|f l IH]; intros hs s hs1 s1 Hinv Hsync Hrun.
  - simpl in Hrun. unfold ret in Hrun. simplify_eq.
    split; [done|]. split; [done|]. split; [done|].
    intros g Hg. by apply elem_of_nil in Hg.
  - destruct (deploy_files_turn _ _ _ _ _ _ _ _ Hinv Hsync Hrun)
      as (hs' & s' & Hrest & Hinv' & Hsync' & Hf & Hkeep).
    destruct (IH _ _ _ _ Hinv' Hsync' Hrest) as (Hi1 & Hs1 & Hk1 & Hl1).
    split; [done|]. split; [done|]. split; [by auto|].
    intros g Hg. apply elem_of_cons in Hg as [->|Hg]; auto.
Qed.

(** What the instance has, the collection has. *)
Lemma up_to_date_stored E hs s g :
  invariant hs → in_sync hs s → up_to_date E hs g →
  ∃ sql b, read E g = inr sql ∧ utf8 sql = Some b
           ∧ stored hs s g (md5_hexdigest b).
Proof.
  intros Hinv Hsync (sql & b & Hread & Hb & Hget).
  exists sql, b. split; [done|]. split; [done|].
  destruct (get_file_hash_entry _ _ _ Hinv Hget (md5_hexdigest_nonempty b))
    as (f & Hf & Hfn & Hfh).
  unfold in_sync in Hsync.
  destruct (Hashes._id (hashes hs)) as [i|] eqn:Hi.
  - destruct (find (Mongo.has_id i) (collection s)) as [d|] eqn:Hd; [|done].
    simpl in Hsync. simplify_eq. exists i, d, f.
    rewrite Hi, Hsync. done.
  - rewrite Hsync in Hf. by apply elem_of_nil in Hf.
Qed.

(** C2. [deploy] has gone through the files [pre] and comes to [f],
    whose fingerprint differs, and [bq] ends on it with a status that is
    not 0, so that [execute_sql] raises [CalledProcessError].  Then the
    script exits with status 3, whatever files [post] were to follow; the
    command for [f] is the last one started; the clock is not read and the
    collection is not written after the turns of [pre], so that [f] gets no
    fingerprint, in the instance or in the collection; and the collection
    has, for every file of [pre], the fingerprint of its content.  The
    instance starts as [__init__] leaves it: as the class wants it and in
    step with the collection. *)
Theorem failed_file_stops_the_run hs gp pre f post sql b p E s hs1 s1 :
  invariant hs → in_sync hs s →
  deploy_files hs gp pre E s = (Return hs1, s1) →
  read E f = inr sql → utf8 sql = Some b →
  get_file_hash hs1 f ≠ md5_hexdigest b →
  spawn E (length (runs s1)) (bq_cmd gp) sql = inr p →
  returncode p ≠ 0%Z →
  let s' := failed_state hs1 f sql b gp p s1 in
  deploy_files hs gp (pre ++ f :: post) E s = (Raise (SystemExit 3), s')
  ∧ exit_status (fst (deploy_files hs gp (pre ++ f :: post) E s)) = 3%Z
  ∧ runs s' = runs s1 ++ [(bq_cmd gp, sql)]
  ∧ clock_reads s' = clock_reads s1
  ∧ collection s' = collection s1
  ∧ ¬ stored hs1 s' f (md5_hexdigest b)
  ∧ (filesdict hs1 !! f = None → ∀ h, ¬ stored hs1 s' f h)
  ∧ (∀ g, g ∈ pre →
       ∃ sql_g b_g, read E g = inr sql_g ∧ utf8 sql_g = Some b_g
                    ∧ stored hs1 s' g (md5_hexdigest b_g)).
Proof.
  intros Hinv Hsync Hpre Hread Hb Hdiff Hspawn Hrc s'.
  assert (Hrun : deploy_files hs gp (pre ++ f :: post) E s
                 = (Raise (SystemExit 3), s')).
  { rewrite deploy_files_app, Hpre.
    rewrite (deploy_files_cons _ _ _ _ _ _ _ _ Hread Hb). cbv zeta.
    rewrite bool_decide_eq_false_2 by congruence.
    rewrite Hspawn. apply Z.eqb_neq in Hrc. rewrite Hrc.
    reflexivity. }
  destruct (deploy_files_Return _ _ _ _ _ _ _ Hinv Hsync Hpre)
    as (Hinv1 & Hsync1 & _ & Hfiles).
  split; [exact Hrun|]. split; [by rewrite Hrun|].
  split; [done|]. split; [done|]. split; [done|]. split.
  - intros (i & d & e & Hi & Hd & He & Hen & Heh).
    apply Hdiff. unfold in_sync in Hsync1. rewrite Hi in Hsync1.
    change (collection s') with (collection s1) in Hd.
    rewrite Hd in Hsync1. simpl in Hsync1. simplify_eq.
    rewrite Hsync1 in He.
    by rewrite (entry_get_file_hash _ _ Hinv1 He).
  - split; [|intros g Hg;
      apply (up_to_date_stored E hs1 s' g Hinv1);
        [by apply (in_sync_collection _ s1)|by apply Hfiles]].
    intros Hnone h (i & d & e & Hi & Hd & He & Hen & Heh).
    unfold in_sync in Hsync1. rewrite Hi in Hsync1.
    change (collection s') with (collection s1) in Hd.
    rewrite Hd in Hsync1. simpl in Hsync1. simplify_eq.
    rewrite Hsync1 in He.
    destruct (inv_keyed _ Hinv1 e He) as [r Hr]. congruence.
Qed.

Lemma failed_file_stops_the_run_witness :
  invariant Demo.empty_store ∧ in_sync Demo.empty_store (snd Demo.fresh_store)
  ∧ fst (deploy_files Demo.empty_store (u "gcp-prod") [u "ddl/a.sql"]
                      (Demo.E (u "ddl")) (snd Demo.fresh_store))
    = Return Demo.store_a
  ∧ fst (deploy_files Demo.empty_store (u "gcp-prod")
                      ([u "ddl/a.sql"] ++ [u "ddl/b.sql"])
                      (Demo.E (u "ddl")) (snd Demo.fresh_store))
    = Raise (SystemExit 3)
  ∧ ∃ sql_g b_g,
      read (Demo.E (u "ddl")) (u "ddl/a.sql") = inr sql_g
      ∧ utf8 sql_g = Some b_g
      ∧ stored Demo.store_a
          (snd (deploy_files Demo.empty_store (u "gcp-prod")
                  ([u "ddl/a.sql"] ++ [u "ddl/b.sql"])
                  (Demo.E (u "ddl")) (snd Demo.fresh_store)))
          (u "ddl/a.sql") (md5_hexdigest b_g).
Proof.
  assert (Hi : invariant Demo.empty_store)
    by (apply check_linked_sound; vm_compute; reflexivity).
  assert (Hs : in_sync Demo.empty_store (snd Demo.fresh_store))
    by reflexivity.
  destruct (deploy_files Demo.empty_store (u "gcp-prod") [u "ddl/a.sql"]
              (Demo.E (u "ddl")) (snd Demo.fresh_store))
    as [r1 s1] eqn:Hpre.
  assert (Hr1 : r1 = Return Demo.store_a).
  { change r1 with (fst (r1, s1)). rewrite <- Hpre. vm_compute. reflexivity. }
  assert (Hruns : runs s1 = [(bq_cmd (u "gcp-prod"), Demo.a_sql)]).
  { change s1 with (snd (r1, s1)). rewrite <- Hpre. vm_compute. reflexivity. }
  subst r1.
  destruct (failed_file_stops_the_run Demo.empty_store (u "gcp-prod")
              [u "ddl/a.sql"] (u "ddl/b.sql") [] Demo.b_sql Demo.b_sql
              (Build_CompletedProcess 1 [] (u "Syntax error"))
              (Demo.E (u "ddl")) (snd Demo.fresh_store) Demo.store_a s1
              Hi Hs Hpre)
    as (Hrun & _ & _ & _ & _ & _ & _ & Hstored).
  - reflexivity.
  - vm_compute. reflexivity.
  - vm_compute. discriminate.
  - rewrite Hruns. vm_compute. reflexivity.
  - discriminate.
  - split; [exact Hi|]. split; [exact Hs|]. split; [reflexivity|].
    rewrite Hrun. split; [reflexivity|].
    apply Hstored. apply list_elem_of_here.
Defined.

(** [__init__] returns, and touches neither [bq] nor the collection. *)
Lemma init_returns (pn rn g us pw : str) E s :
  ∃ self s', __init__ pn rn g us pw E s = (Return self, s')
             ∧ runs s' = runs s ∧ collection s' = collection s
             ∧ ∃ rs, log s' = log s ++ rs.
Proof.
  destruct (find (Mongo.is_for pn rn g) (collection s)) as [d|] eqn:Hd.
  - eexists _, _. split; [by apply init_found|].
    split; [done|]. split; [done|]. exists []. simpl. by rewrite app_nil_r.
  - eexists _, _. split; [by apply init_fresh|].
    split; [done|]. split; [done|]. by eexists.
Qed.

(** C6. When the directory cannot be listed, [find_ddl_files] logs the
    error and returns the empty list.  With the five environment variables
    set, and a ["/"] in [REPO_AND_OWNER_NAME], [main] then returns, so that
    the script exits with status 0, and it has started no command and
    written nothing to the collection. *)
Theorem unlistable_folder_deploys_nothing path strerror E s :
  listdir E path = inl strerror →
  find_ddl_files path E s
  = (Return [],
     add_logs [ Build_log_record DEBUG "Finding DDL files in %s" [Str path];
                unlisted_log path strerror ] s)
  ∧ ∀ name project repo g user password,
      environ E !! u "INPUT_GOOGLE_PROJECT_ID" = Some g →
      environ E !! u "INPUT_DDL_FOLDER_PATH" = Some path →
      environ E !! u "INPUT_HADOOP_MONGO_USER" = Some user →
      environ E !! u "INPUT_HADOOP_MONGO_PASSWORD" = Some password →
      environ E !! u "REPO_AND_OWNER_NAME" = Some name →
      split1 47 name = [project; repo] →
      ∃ self s',
        main E s = (Return self, s')
        ∧ exit_status (fst (main E s)) = 0%Z
        ∧ runs s' = runs s
        ∧ collection s' = collection s
        ∧ unlisted_log path strerror ∈ log s'.
Proof.
  intros Hl. split; [by apply find_ddl_files_unlisted|].
  intros name project repo g user password Hg Hp Hu Hpw Hname Hsplit.
  destruct (init_returns project repo g user password E s)
    as (self & s1 & Hinit & Hruns & Hcoll & _).
  assert (Hmain : main E s
    = (Return self,
       add_logs [ Build_log_record DEBUG "Finding DDL files in %s" [Str path];
                  unlisted_log path strerror ] s1)).
  { unfold main, deploy, bind, os_environ.
    rewrite Hg, Hp, Hu, Hpw, Hname, Hsplit. simpl.
    rewrite Hinit. by rewrite (find_ddl_files_unlisted _ _ _ _ Hl). }
  exists self. eexists. split; [exact Hmain|]. rewrite Hmain.
  split; [done|]. split; [done|]. split; [done|]. simpl.
  apply elem_of_app. right. set_solver.
Qed.

Lemma unlistable_folder_deploys_nothing_witness :
  listdir (Demo.E (u "nowhere")) (u "nowhere")
  = inl (u "No such file or directory")
  ∧ ∃ self s',
      main (Demo.E (u "nowhere")) Demo.s0 = (Return self, s')
      ∧ exit_status (fst (main (Demo.E (u "nowhere")) Demo.s0)) = 0%Z
      ∧ runs s' = [] ∧ collection s' = [].
Proof.
  assert (Hl : listdir (Demo.E (u "nowhere")) (u "nowhere")
               = inl (u "No such file or directory")) by reflexivity.
  split; [exact Hl|].
  destruct (unlistable_folder_deploys_nothing (u "nowhere")
              (u "No such file or directory") (Demo.E (u "nowhere"))
              Demo.s0 Hl) as [_ Hmain].
  destruct (Hmain (u "acme/warehouse") (u "acme") (u "warehouse")
              (u "gcp-prod") (u "deployer") (u "secret"))
    as (self & s' & H1 & H2 & H3 & H4 & _);
    [vm_compute; reflexivity..|].
  exists self, s'. repeat split; assumption.
Defined.

(** *** The script keeps its collection in order *)

Lemma find_by_id (c : list document) d i :
  NoDup (Mongo.ids c) → d ∈ c → Hashes._id d = Some i →
  find (Mongo.has_id i) c = Some d.
Proof.
  induction c as [|y c IH]; intros Hnd Hd Hi; [by apply elem_of_nil in Hd|].
  simpl. unfold Mongo.has_id at 1. case_bool_decide as Hy.
  - apply elem_of_cons in Hd as [->|Hd]; [done|]. exfalso.
    unfold Mongo.ids in Hnd. simpl in Hnd. rewrite Hy in Hnd.
    apply NoDup_cons in Hnd as [Hnotin _]. apply Hnotin.
    apply list_elem_of_omap. by exists d.
  - apply elem_of_cons in Hd as [->|Hd]; [done|].
    apply IH; [|done..].
    unfold Mongo.ids in Hnd. simpl in Hnd.
    destruct (Hashes._id y); [by apply NoDup_cons in Hnd as [_ ?]|done].
Qed.

Lemma ids_replace_first i d (c : list document) :
  Hashes._id d = Some i →
  Mongo.ids (Mongo.replace_first (Mongo.has_id i) d c) = Mongo.ids c.
Proof.
  intros Hd. induction c as [|y c IH]; [done|]. simpl.
  unfold Mongo.has_id at 1. case_bool_decide as Hy.
  - unfold Mongo.ids. simpl. by rewrite Hd, Hy.
  - unfold Mongo.ids in *. simpl. fold (omap (M:=list) Hashes._id).
    by rewrite IH.
Qed.

Lemma elem_of_replace_first (q : document → bool) d (c : list document) x :
  x ∈ Mongo.replace_first q d c → x = d ∨ x ∈ c.
Proof.
  induction c as [|y c IH]; simpl; [by right|].
  destruct (q y); intros Hx; apply elem_of_cons in Hx as [->|Hx].
  - by left.
  - right. by apply list_elem_of_further.
  - right. apply list_elem_of_here.
  - destruct (IH Hx); [by left|right]. by apply list_elem_of_further.
Qed.

Lemma save_well_kept self E s self' s' :
  invariant self → well_kept (collection s) →
  save self E s = (Return self', s') → well_kept (collection s').
Proof.
  intros Hinv [Hnd Hall] Hsave.
  assert (Hdn : distinct_names (hashes self))
    by (by apply linked_NoDup, linked_invariant).
  destruct (Hashes._id (hashes self)) as [i|] eqn:Hi.
  - rewrite (save_stored _ _ _ _ Hi) in Hsave. simplify_eq. simpl. split.
    + by rewrite ids_replace_first.
    + intros d Hd. apply elem_of_replace_first in Hd as [->|Hd]; [|by auto].
      split; [by rewrite Hi|done].
  - rewrite (save_new _ _ _ Hi) in Hsave. simplify_eq. simpl. split.
    + unfold Mongo.ids. rewrite omap_app. simpl.
      apply NoDup_app. split; [done|]. split; [|apply NoDup_singleton].
      intros j Hj Hj'. apply list_elem_of_singleton in Hj'. subst j.
      by apply (infinite_is_fresh (Mongo.ids (collection s))).
    + intros d Hd. apply elem_of_app in Hd as [Hd|Hd]; [by auto|].
      apply list_elem_of_singleton in Hd. subst d. split; [by eexists|done].
Qed.

(** However the loop ends, a collection in order stays in order. *)
Lemma deploy_files_well_kept gp E l : ∀ hs s r s',
  invariant hs → in_sync hs s → well_kept (collection s) →
  deploy_files hs gp l E s = (r, s') → well_kept (collection s').
Proof.
  induction l as [|f l IH]; intros hs s r s' Hinv Hsync Hwk Hrun.
  { simpl in Hrun. unfold ret in Hrun. by simplify_eq. }
  destruct (read E f) as [e|sql] eqn:Hread.
  { cbn [deploy_files] in Hrun. unfold bind, get_sql in Hrun.
    rewrite Hread in Hrun. by simplify_eq. }
  destruct (utf8 sql) as [b|] eqn:Hb; cycle 1.
  { cbn [deploy_files] in Hrun. unfold bind, get_sql in Hrun.
    rewrite Hread in Hrun.
    unfold matches_saved_hash, bind, logging, encode_utf8 in Hrun.
    rewrite Hb in Hrun. unfold raise in Hrun. by simplify_eq. }
  rewrite (deploy_files_cons _ _ _ _ _ _ _ _ Hread Hb) in Hrun.
  cbv zeta in Hrun. case_bool_decide as Hh.
  { refine (IH _ _ _ _ Hinv _ _ Hrun); [|done].
    by apply (in_sync_collection _ s). }
  destruct (spawn E _ _ _) as [e|p]; [by simplify_eq|].
  destruct (returncode p =? 0)%Z; [|by simplify_eq].
  match type of Hrun with
  | context [update_saved_hash hs f sql E ?s_u] =>
      destruct (update_saved_hash_linked hs f sql b E s_u)
        as (hu & su & Hup & Hl); [by apply linked_invariant|done|]
  end.
  rewrite Hup in Hrun.
  destruct (update_saved_hash_state _ _ _ _ _ _ _ Hup) as (Hco & _ & Hid).
  destruct (save_in_sync hu E su)
    as (hs' & s1 & i & Hsave & Hid' & Hfind & Hd & Hf & _).
  { intros i Hi. rewrite Hco. simpl.
    apply (in_sync_present hs s i Hsync). congruence. }
  rewrite Hsave in Hrun.
  apply linked_invariant in Hl.
  refine (IH _ _ _ _ _ _ _ Hrun).
  - by eapply invariant_ext.
  - unfold in_sync. by rewrite Hid', Hfind.
  - eapply save_well_kept; [exact Hl| |exact Hsave]. by rewrite Hco.
Qed.

(** On a collection in order, [__init__] makes an instance as the class
    wants it and in step with the collection. *)
Lemma init_establishes (pn rn g us pw : str) E s :
  well_kept (collection s) →
  ∃ self s', __init__ pn rn g us pw E s = (Return self, s')
             ∧ invariant self ∧ in_sync self s'
             ∧ collection s' = collection s.
Proof.
  intros [Hnd Hall].
  destruct (find (Mongo.is_for pn rn g) (collection s)) as [d|] eqn:Hd.
  - apply find_some in Hd as Hin. destruct Hin as [Hin _].
    apply list_elem_of_In in Hin. destruct (Hall d Hin) as [[i Hi] Hdn].
    destruct (init_linked pn rn g us pw E s) as (self & s' & Hinit & Hl).
    { intros d' Hd'. by simplify_eq. }
    exists self, s'. split; [done|]. split; [by apply linked_invariant|].
    rewrite (init_found _ _ _ _ _ _ _ _ Hd) in Hinit. simplify_eq.
    split; [|done]. unfold in_sync. simpl. rewrite Hi.
    by rewrite (find_by_id _ d i).
  - eexists _, _. split; [by apply init_fresh|].
    split; [|done]. apply linked_invariant. split.
    + intros n i Hi. simpl in Hi. by rewrite lookup_empty in Hi.
    + intros i f Hi. unfold deref in Hi. simpl in Hi.
      by rewrite lookup_nil in Hi.
Qed.

(** A run of the script on a collection in order leaves it in order. *)
Lemma main_well_kept E s r s' :
  well_kept (collection s) → main E s = (r, s') → well_kept (collection s').
Proof.
  intros Hwk Hmain.
  unfold main, deploy, bind, os_environ, getitem, ret, raise in Hmain.
  repeat match type of Hmain with
  | context [environ E !! ?k] =>
      destruct (environ E !! k); [|by simplify_eq]
  end.
  destruct (split1 47 _ !! 0%nat) as [pn|]; [|by simplify_eq].
  destruct (split1 47 _ !! 1%nat) as [rn|]; [|by simplify_eq].
  match type of Hmain with
  | context [__init__ ?a ?b ?c ?d ?e E s] =>
      destruct (init_establishes a b c d e E s Hwk)
        as (self & s1 & Hinit & Hinv & Hsync & Hco)
  end.
  rewrite Hinit in Hmain.
  match type of Hmain with
  | context [find_ddl_files ?path E s1] =>
      destruct (listdir E path) as [e|entries] eqn:Hl;
        [rewrite (find_ddl_files_unlisted _ _ _ _ Hl) in Hmain
        |rewrite (find_ddl_files_listed _ _ _ _ Hl) in Hmain]
  end.
  - simpl in Hmain. unfold ret in Hmain. simplify_eq. simpl. by rewrite Hco.
  - cbv zeta in Hmain.
    refine (deploy_files_well_kept _ _ _ _ _ _ _ Hinv _ _ Hmain).
    + by apply (in_sync_collection _ s1).
    + simpl. by rewrite Hco.
Qed.

(** With its five variables set, and a ["/"] in [REPO_AND_OWNER_NAME],
    [main] is [__init__], the listing, and the loop; whatever the loop
    raises, [SystemExit] included, is what [main] raises. *)
Lemma main_runs_the_loop E s name project repo g path user password :
  environ E !! u "INPUT_GOOGLE_PROJECT_ID" = Some g →
  environ E !! u "INPUT_DDL_FOLDER_PATH" = Some path →
  environ E !! u "INPUT_HADOOP_MONGO_USER" = Some user →
  environ E !! u "INPUT_HADOOP_MONGO_PASSWORD" = Some password →
  environ E !! u "REPO_AND_OWNER_NAME" = Some name →
  split1 47 name = [project; repo] →
  ∃ self s1 ddl_files s2,
    __init__ project repo g user password E s = (Return self, s1)
    ∧ find_ddl_files path E s1 = (Return ddl_files, s2)
    ∧ main E s = deploy_files self g ddl_files E s2.
Proof.
  intros Hg Hp Hu Hpw Hname Hsplit.
  destruct (init_returns project repo g user password E s)
    as (self & s1 & Hinit & _).
  assert (Hfind : ∃ ddl_files s2,
            find_ddl_files path E s1 = (Return ddl_files, s2)).
  { destruct (listdir E path) as [e|entries] eqn:Hl.
    - eexists _, _. by apply find_ddl_files_unlisted.
    - eexists _, _. by apply find_ddl_files_listed. }
  destruct Hfind as (ddl_files & s2 & Hfind).
  exists self, s1, ddl_files, s2. split; [done|]. split; [done|].
  unfold main, deploy, bind, os_environ.
  rewrite Hg, Hp, Hu, Hpw, Hname, Hsplit. simpl.
  by rewrite Hinit, Hfind.
Qed.

End Orchestrator.

(* ===================================================================== *)
(** ** How a run ends before the loop *)
(* ===================================================================== *)

Section Configuration.

Implicit Types (E : env) (s : state).

Lemma split1_absent (sep : N) (a : str) :
  sep ∉ a → split1 sep a = [a].
Proof.
  induction a as [|c a IH]; intros Hsep; [done|].
  apply not_elem_of_cons in Hsep as [Hc Ha]. simpl.
  destruct (N.eqb_spec c sep) as [->|_]; [done|].
  by rewrite IH.
Qed.

Lemma split1_first (sep : N) (a b : str) :
  sep ∉ a → split1 sep (a ++ sep :: b) = [a; b].
Proof.
  induction a as [|c a IH]; intros Hsep; simpl.
  - by rewrite N.eqb_refl.
  - apply not_elem_of_cons in Hsep as [Hc Ha].
    destruct (N.eqb_spec c sep) as [->|_]; [done|].
    by rewrite IH.
Qed.

(** X1. [main] stops at the first of its environment variables that is
    not set, in the order in which the script reads them, with [KeyError]:
    the exit status is 1 and nothing was logged, read from the clock,
    started or written. *)
Theorem missing_variable_stops_main E s i k :
  list_find (λ key, environ E !! key = None) main_keys = Some (i, k) →
  main E s = (Raise (KeyError k), s)
  ∧ exit_status (fst (main E s)) = 1%Z.
Proof.
  intros Hfind. apply list_find_Some in Hfind as (Hi & Hk & Hbefore).
  assert (Hmain : main E s = (Raise (KeyError k), s)); [|by rewrite Hmain].
  unfold main, deploy, bind, os_environ.
  assert (Hset : ∀ j key, main_keys !! j = Some key → (j < i)%nat →
                          is_Some (environ E !! key)).
  { intros j key Hj Hlt. specialize (Hbefore j key Hj Hlt).
    by destruct (environ E !! key). }
  destruct i as [|[|[|[|[|i]]]]]; simpl in Hi; simplify_eq.
  - by rewrite Hk.
  - destruct (Hset 0%nat _ eq_refl) as [? ->]; [lia|]. by rewrite Hk.
  - destruct (Hset 0%nat _ eq_refl) as [? ->]; [lia|].
    destruct (Hset 1%nat _ eq_refl) as [? ->]; [lia|]. by rewrite Hk.
  - destruct (Hset 0%nat _ eq_refl) as [? ->]; [lia|].
    destruct (Hset 1%nat _ eq_refl) as [? ->]; [lia|].
    destruct (Hset 2%nat _ eq_refl) as [? ->]; [lia|]. by rewrite Hk.
  - destruct (Hset 0%nat _ eq_refl) as [? ->]; [lia|].
    destruct (Hset 1%nat _ eq_refl) as [? ->]; [lia|].
    destruct (Hset 2%nat _ eq_refl) as [? ->]; [lia|].
    destruct (Hset 3%nat _ eq_refl) as [? ->]; [lia|]. by rewrite Hk.
Qed.

Lemma missing_variable_stops_main_witness :
  list_find (λ key, environ Demo2.E_unnamed !! key = None) main_keys
  = Some (4%nat, u "REPO_AND_OWNER_NAME")
  ∧ main Demo2.E_unnamed Demo.s0
    = (Raise (KeyError (u "REPO_AND_OWNER_NAME")), Demo.s0).
Proof.
  assert (H : list_find (λ key, environ Demo2.E_unnamed !! key = None)
                main_keys = Some (4%nat, u "REPO_AND_OWNER_NAME"))
    by (vm_compute; reflexivity).
  split; [exact H|].
  exact (proj1 (missing_variable_stops_main Demo2.E_unnamed Demo.s0 _ _ H)).
Defined.

(** X2. With the four [INPUT_] variables set and a [REPO_AND_OWNER_NAME]
    that has no ["/"], [deploy] raises [IndexError] when it takes the name
    of the repository: the exit status is 1, and the collection was not
    asked for anything, nor anything logged. *)
Theorem repository_without_owner_stops_main E s g path user password name :
  environ E !! u "INPUT_GOOGLE_PROJECT_ID" = Some g →
  environ E !! u "INPUT_DDL_FOLDER_PATH" = Some path →
  environ E !! u "INPUT_HADOOP_MONGO_USER" = Some user →
  environ E !! u "INPUT_HADOOP_MONGO_PASSWORD" = Some password →
  environ E !! u "REPO_AND_OWNER_NAME" = Some name →
  47 ∉ name →
  main E s = (Raise IndexError, s)
  ∧ exit_status (fst (main E s)) = 1%Z.
Proof.
  intros Hg Hp Hu Hpw Hname Hslash.
  assert (Hmain : main E s = (Raise IndexError, s)); [|by rewrite Hmain].
  unfold main, deploy, bind, os_environ.
  rewrite Hg, Hp, Hu, Hpw, Hname, (split1_absent _ _ Hslash).
  reflexivity.
Qed.

Lemma repository_without_owner_stops_main_witness :
  (47 ∉ (u "warehouse"))
  ∧ main Demo2.E_no_slash Demo.s0 = (Raise IndexError, Demo.s0).
Proof.
  assert (H : 47 ∉ (u "warehouse")).
  { apply (bool_decide_unpack _). vm_compute. exact I. }
  split; [exact H|].
  refine (proj1 (repository_without_owner_stops_main Demo2.E_no_slash Demo.s0
                   (u "gcp-prod") (u "ddl") (u "deployer") (u "secret")
                   (u "warehouse") _ _ _ _ _ H));
    vm_compute; reflexivity.
Defined.

(** X3. [REPO_AND_OWNER_NAME] is cut at its first ["/"]: the text before
    it is the project and all the text after it, further ["/"] included, is
    the repository for which [__init__] loads the hash store; the folder to
    list and the Google project come from their own variables. *)
Theorem repository_name_is_cut_at_first_slash
    E s g path user password project repo :
  environ E !! u "INPUT_GOOGLE_PROJECT_ID" = Some g →
  environ E !! u "INPUT_DDL_FOLDER_PATH" = Some path →
  environ E !! u "INPUT_HADOOP_MONGO_USER" = Some user →
  environ E !! u "INPUT_HADOOP_MONGO_PASSWORD" = Some password →
  environ E !! u "REPO_AND_OWNER_NAME" = Some (project ++ 47 :: repo) →
  47 ∉ project →
  ∃ self s1 ddl_files s2,
    __init__ project repo g user password E s = (Return self, s1)
    ∧ Hashes.project_name (hashes self) = project
    ∧ Hashes.repo_name (hashes self) = repo
    ∧ Hashes.google_project_id (hashes self) = g
    ∧ find_ddl_files path E s1 = (Return ddl_files, s2)
    ∧ main E s = deploy_files self g ddl_files E s2.
Proof.
  intros Hg Hp Hu Hpw Hname Hslash.
  destruct (find (Mongo.is_for project repo g) (collection s)) as [d|] eqn:Hd.
  - pose proof (init_found project repo g user password E s d Hd) as Hinit.
    apply find_some in Hd as [_ Hfor]. unfold Mongo.is_for in Hfor.
    apply andb_true_iff in Hfor as [Hfor H3].
    apply andb_true_iff in Hfor as [H1 H2].
    apply bool_decide_eq_true in H1, H2, H3.
    assert (Hfind : ∃ ddl_files s2,
              find_ddl_files path E (tick s) = (Return ddl_files, s2)).
    { destruct (listdir E path) as [e|entries] eqn:Hl.
      - eexists _, _. by apply find_ddl_files_unlisted.
      - eexists _, _. by apply find_ddl_files_listed. }
    destruct Hfind as (ddl_files & s2 & Hfind).
    eexists _, _, ddl_files, s2. split; [exact Hinit|].
    split; [done|]. split; [done|]. split; [done|]. split; [done|].
    unfold main, deploy, bind, os_environ.
    rewrite Hg, Hp, Hu, Hpw, Hname, (split1_first _ _ _ Hslash). simpl.
    by rewrite Hinit, Hfind.
  - pose proof (init_fresh project repo g user password E s Hd) as Hinit.
    match type of Hinit with _ = (_, ?s1) =>
      assert (Hfind : ∃ ddl_files s2,
                find_ddl_files path E s1 = (Return ddl_files, s2))
    end.
    { destruct (listdir E path) as [e|entries] eqn:Hl.
      - eexists _, _. by apply find_ddl_files_unlisted.
      - eexists _, _. by apply find_ddl_files_listed. }
    destruct Hfind as (ddl_files & s2 & Hfind).
    eexists _, _, ddl_files, s2. split; [exact Hinit|].
    split; [done|]. split; [done|]. split; [done|]. split; [done|].
    unfold main, deploy, bind, os_environ.
    rewrite Hg, Hp, Hu, Hpw, Hname, (split1_first _ _ _ Hslash). simpl.
    by rewrite Hinit, Hfind.
Qed.

Lemma repository_name_is_cut_at_first_slash_witness :
  environ Demo2.E !! u "REPO_AND_OWNER_NAME"
  = Some (u "acme" ++ 47 :: u "warehouse")
  ∧ (47 ∉ (u "acme"))
  ∧ ∃ self s1 ddl_files s2,
      __init__ (u "acme") (u "warehouse") (u "gcp-prod") (u "deployer")
               (u "secret") Demo2.E Demo.s0 = (Return self, s1)
      ∧ find_ddl_files (u "ddl") Demo2.E s1 = (Return ddl_files, s2)
      ∧ main Demo2.E Demo.s0
        = deploy_files self (u "gcp-prod") ddl_files Demo2.E s2.
Proof.
  assert (Hn : environ Demo2.E !! u "REPO_AND_OWNER_NAME"
               = Some (u "acme" ++ 47 :: u "warehouse"))
    by (vm_compute; reflexivity).
  assert (Hs : 47 ∉ (u "acme")).
  { apply (bool_decide_unpack _). vm_compute. exact I. }
  split; [exact Hn|]. split; [exact Hs|].
  destruct (repository_name_is_cut_at_first_slash Demo2.E Demo.s0
              (u "gcp-prod") (u "ddl") (u "deployer") (u "secret")
              (u "acme") (u "warehouse"))
    as (self & s1 & ddl_files & s2 & H1 & _ & _ & _ & H2 & H3);
    [vm_compute; reflexivity..|exact Hs|].
  exists self, s1, ddl_files, s2. repeat split; assumption.
Defined.

End Configuration.

(* ===================================================================== *)
(** ** The turns of the loop *)
(* ===================================================================== *)

Section Turns.

Implicit Types (self hs : t) (E : env) (s : state) (sql gp : str).
Implicit Types (p : CompletedProcess).

(** [save] returns, and leaves all but ["_id"] and the collection. *)
Lemma save_returns self E s :
  ∃ self' s',
    save self E s = (Return self', s')
    ∧ runs s' = runs s ∧ clock_reads s' = clock_reads s
    ∧ filesdict self' = filesdict self
    ∧ Hashes.files (hashes self') = Hashes.files (hashes self).
Proof.
  destruct (Hashes._id (hashes self)) as [i|] eqn:Hi.
  - eexists _, _. split; [by apply save_stored|]. done.
  - eexists _, _. split; [by apply save_new|]. done.
Qed.

(** X4. A located file that cannot be read ends the run with the
    [OSError] of [open]: the exit status is 1, no command is started for it
    or for a later file, and the state is the one the earlier files left,
    their fingerprints included. *)
Theorem unreadable_file_stops_the_run hs gp pre f post e E s hs1 s1 :
  deploy_files hs gp pre E s = (Return hs1, s1) →
  read E f = inl e →
  deploy_files hs gp (pre ++ f :: post) E s = (Raise (OSError e), s1)
  ∧ exit_status (fst (deploy_files hs gp (pre ++ f :: post) E s)) = 1%Z.
Proof.
  intros Hpre Hread.
  assert (Hrun : deploy_files hs gp (pre ++ f :: post) E s
                 = (Raise (OSError e), s1)); [|by rewrite Hrun].
  rewrite deploy_files_app, Hpre. cbn [deploy_files].
  unfold bind, get_sql. by rewrite Hread.
Qed.

Lemma unreadable_file_stops_the_run_witness :
  fst (deploy_files Demo.empty_store (u "gcp-prod") [u "ddl/a.sql"]
                    Demo2.E_unreadable (snd Demo.fresh_store))
  = Return Demo.store_a
  ∧ read Demo2.E_unreadable (u "ddl/b.sql") = inl (u "Permission denied")
  ∧ fst (deploy_files Demo.empty_store (u "gcp-prod")
                      ([u "ddl/a.sql"] ++ [u "ddl/b.sql"])
                      Demo2.E_unreadable (snd Demo.fresh_store))
    = Raise (OSError (u "Permission denied"))
  ∧ collection
      (snd (deploy_files Demo.empty_store (u "gcp-prod")
              ([u "ddl/a.sql"] ++ [u "ddl/b.sql"])
              Demo2.E_unreadable (snd Demo.fresh_store)))
    = [hashes Demo.store_a].
Proof.
  destruct (deploy_files Demo.empty_store (u "gcp-prod") [u "ddl/a.sql"]
              Demo2.E_unreadable (snd Demo.fresh_store))
    as [r1 s1] eqn:Hpre.
  assert (Hr1 : r1 = Return Demo.store_a).
  { change r1 with (fst (r1, s1)). rewrite <- Hpre. vm_compute. reflexivity. }
  assert (Hc1 : collection s1 = [hashes Demo.store_a]).
  { change s1 with (snd (r1, s1)). rewrite <- Hpre. vm_compute. reflexivity. }
  subst r1. split; [reflexivity|]. split; [reflexivity|].
  destruct (unreadable_file_stops_the_run Demo.empty_store (u "gcp-prod")
              [u "ddl/a.sql"] (u "ddl/b.sql") [] (u "Permission denied")
              Demo2.E_unreadable (snd Demo.fresh_store) Demo.store_a s1
              Hpre eq_refl) as [Hrun _].
  rewrite Hrun. split; [reflexivity|exact Hc1].
Defined.

(** X5. When [bq] cannot be started for a file, the [OSError] of
    [subprocess.run] is not the error [deploy] catches: the run ends with
    exit status 1 and not 3, without the four error records of a failed
    deployment, and without a fingerprint for the file: the clock is not
    read and the collection not written. *)
Theorem unstartable_command_stops_the_run
    hs gp pre f post sql b e E s hs1 s1 :
  deploy_files hs gp pre E s = (Return hs1, s1) →
  read E f = inr sql → utf8 sql = Some b →
  get_file_hash hs1 f ≠ md5_hexdigest b →
  spawn E (length (runs s1)) (bq_cmd gp) sql = inl e →
  ∃ rs,
    deploy_files hs gp (pre ++ f :: post) E s
    = (Raise (OSError e), add_run (bq_cmd gp, sql) (add_logs rs s1))
    ∧ Forall (λ r, levelname r ≠ ERROR) rs
    ∧ exit_status (fst (deploy_files hs gp (pre ++ f :: post) E s)) = 1%Z.
Proof.
  intros Hpre Hread Hb Hdiff Hspawn.
  eexists.
  assert (Hrun : deploy_files hs gp (pre ++ f :: post) E s
                 = (Raise (OSError e),
                    add_run (bq_cmd gp, sql)
                      (add_logs (matches_log hs1 f (md5_hexdigest b)
                                 ++ Build_log_record INFO "Executing file %s."
                                      [Str f]
                                    :: executing_log sql gp) s1))).
  { rewrite deploy_files_app, Hpre.
    rewrite (deploy_files_cons _ _ _ _ _ _ _ _ Hread Hb). cbv zeta.
    rewrite bool_decide_eq_false_2 by congruence.
    rewrite Hspawn. by rewrite add_logs_add_logs. }
  split; [exact Hrun|]. split; [|by rewrite Hrun].
  unfold matches_log. repeat case_bool_decide;
    repeat (apply Forall_cons; split; [done|]); apply Forall_nil_2.
Qed.

Lemma unstartable_command_stops_the_run_witness :
  spawn Demo2.E_no_bq 0 (bq_cmd (u "gcp-prod")) Demo.a_sql
  = inl (u "No such file or directory")
  ∧ ∃ rs,
      deploy_files Demo.empty_store (u "gcp-prod") ([] ++ [u "ddl/a.sql"])
                   Demo2.E_no_bq Demo.s0
      = (Raise (OSError (u "No such file or directory")),
         add_run (bq_cmd (u "gcp-prod"), Demo.a_sql) (add_logs rs Demo.s0))
      ∧ Forall (λ r, levelname r ≠ ERROR) rs.
Proof.
  split; [reflexivity|].
  destruct (unstartable_command_stops_the_run Demo.empty_store (u "gcp-prod")
              [] (u "ddl/a.sql") [] Demo.a_sql Demo.a_sql
              (u "No such file or directory") Demo2.E_no_bq Demo.s0
              Demo.empty_store Demo.s0)
    as (rs & Hrun & Hrs & _).
  - reflexivity.
  - reflexivity.
  - vm_compute. reflexivity.
  - vm_compute. discriminate.
  - reflexivity.
  - exists rs. split; assumption.
Defined.

(** X6. When [bq] ends with status 0 on a file whose fingerprint
    differs, the turn starts that one command, gives the file the
    fingerprint of its content, and saves at once: the rest of the files is
    processed with the collection already holding that fingerprint, and
    with every other fingerprint as it was. *)
Theorem deployed_file_is_saved_at_once hs gp f rest sql b p E s :
  invariant hs → in_sync hs s →
  read E f = inr sql → utf8 sql = Some b →
  get_file_hash hs f ≠ md5_hexdigest b →
  spawn E (length (runs s)) (bq_cmd gp) sql = inr p →
  returncode p = 0%Z →
  ∃ hs' s',
    deploy_files hs gp (f :: rest) E s = deploy_files hs' gp rest E s'
    ∧ runs s' = runs s ++ [(bq_cmd gp, sql)]
    ∧ get_file_hash hs' f = md5_hexdigest b
    ∧ stored hs' s' f (md5_hexdigest b)
    ∧ (∀ m, m ≠ f → get_file_hash hs' m = get_file_hash hs m)
    ∧ invariant hs' ∧ in_sync hs' s'.
Proof.
  intros Hinv Hsync Hread Hb Hdiff Hspawn Hrc.
  rewrite (deploy_files_cons _ _ _ _ _ _ _ _ Hread Hb). cbv zeta.
  rewrite bool_decide_eq_false_2 by congruence.
  rewrite Hspawn, Hrc. simpl Z.eqb. cbv iota.
  match goal with
  | |- context [update_saved_hash hs f sql E ?s_u] =>
      destruct (update_saved_hash_linked hs f sql b E s_u)
        as (hu & su & Hup & Hl); [by apply linked_invariant|done|]
  end.
  rewrite Hup.
  destruct (update_saved_hash_state _ _ _ _ _ _ _ Hup) as (Hco & Hru & Hid).
  destruct (save_in_sync hu E su)
    as (hs' & s' & i & Hsave & Hid' & Hfind & Hd & Hf & Hru' & _).
  { intros i Hi. rewrite Hco. simpl.
    apply (in_sync_present hs s i Hsync). congruence. }
  rewrite Hsave.
  assert (Hget : ∀ m, get_file_hash hs' m
    = if decide (m = f) then md5_hexdigest b else get_file_hash hs m).
  { intros m. rewrite (get_file_hash_ext hu hs' m Hd Hf).
    by eapply get_file_hash_update. }
  assert (Hinv' : invariant hs').
  { eapply invariant_ext; [done..|]. by apply linked_invariant. }
  assert (Hsync' : in_sync hs' s') by (unfold in_sync; by rewrite Hid', Hfind).
  exists hs', s'. split; [done|].
  split. { by rewrite Hru', Hru. }
  assert (Hf' : get_file_hash hs' f = md5_hexdigest b)
    by (by rewrite Hget, decide_True).
  split; [done|]. split.
  { destruct (get_file_hash_entry _ _ _ Hinv' Hf' (md5_hexdigest_nonempty b))
      as (x & Hx & Hxn & Hxh).
    exists i, (hashes hs'), x. done. }
  split; [|done]. intros m Hm. by rewrite Hget, decide_False.
Qed.

Lemma deployed_file_is_saved_at_once_witness :
  invariant Demo.empty_store ∧ in_sync Demo.empty_store Demo.s0
  ∧ ∃ hs' s',
      deploy_files Demo.empty_store (u "gcp-prod") [u "ddl/a.sql"]
                   Demo2.E Demo.s0
      = deploy_files hs' (u "gcp-prod") [] Demo2.E s'
      ∧ runs s' = [(bq_cmd (u "gcp-prod"), Demo.a_sql)]
      ∧ stored hs' s' (u "ddl/a.sql") (md5_hexdigest Demo.a_sql).
Proof.
  assert (Hi : invariant Demo.empty_store)
    by (apply check_linked_sound; vm_compute; reflexivity).
  assert (Hs : in_sync Demo.empty_store Demo.s0) by reflexivity.
  split; [exact Hi|]. split; [exact Hs|].
  destruct (deployed_file_is_saved_at_once Demo.empty_store (u "gcp-prod")
              (u "ddl/a.sql") [] Demo.a_sql Demo.a_sql
              (Build_CompletedProcess 0 (u "ok") []) Demo2.E Demo.s0 Hi Hs)
    as (hs' & s' & H1 & H2 & _ & H3 & _).
  - reflexivity.
  - reflexivity.
  - vm_compute. discriminate.
  - reflexivity.
  - reflexivity.
  - exists hs', s'. split; [exact H1|]. split; [exact H2|exact H3].
Defined.

(** [update_saved_hash] returns on a text that can be encoded, and leaves
    the commands and the collection. *)
Lemma update_saved_hash_returns self n text b E s :
  utf8 text = Some b →
  ∃ self' s', update_saved_hash self n text E s = (Return self', s')
              ∧ runs s' = runs s ∧ collection s' = collection s.
Proof.
  intros Hb. destruct (filesdict self !! n) as [r|] eqn:Hr.
  - eexists _, _. split; [by apply update_saved_hash_existing|]. done.
  - eexists _, _. split; [by apply update_saved_hash_new|]. done.
Qed.

Lemma deploy_files_runs gp E l : ∀ hs s r s',
  deploy_files hs gp l E s = (r, s') →
  ∃ rs, runs s' = runs s ++ rs
        ∧ rs `sublist_of` omap (command_for E gp) l.
Proof.
  induction l as [|f l IH]; intros hs s r s' Hrun.
  { simpl in Hrun. unfold ret in Hrun. simplify_eq.
    exists []. by rewrite app_nil_r. }
  change (omap (command_for E gp) (f :: l))
    with (match command_for E gp f with
          | Some y => y :: omap (command_for E gp) l
          | None => omap (command_for E gp) l
          end).
  unfold command_for at 1.
  destruct (read E f) as [e|sql] eqn:Hread.
  { cbn [deploy_files] in Hrun. unfold bind, get_sql in Hrun.
    rewrite Hread in Hrun. simplify_eq.
    exists []. split; [by rewrite app_nil_r|apply sublist_nil_l]. }
  destruct (utf8 sql) as [b|] eqn:Hb; cycle 1.
  { cbn [deploy_files] in Hrun. unfold bind, get_sql in Hrun.
    rewrite Hread in Hrun.
    unfold matches_saved_hash, bind, logging, encode_utf8 in Hrun.
    rewrite Hb in Hrun. unfold raise in Hrun. simplify_eq.
    exists []. split; [by rewrite app_nil_r|apply sublist_nil_l]. }
  rewrite (deploy_files_cons _ _ _ _ _ _ _ _ Hread Hb) in Hrun.
  cbv zeta in Hrun. case_bool_decide as Hh.
  { destruct (IH _ _ _ _ Hrun) as (rs & Hrs & Hsub).
    exists rs. split; [done|]. by apply sublist_cons. }
  destruct (spawn E _ _ _) as [e|p].
  { simplify_eq. exists [(bq_cmd gp, sql)]. split; [done|].
    apply sublist_skip, sublist_nil_l. }
  destruct (returncode p =? 0)%Z; cycle 1.
  { simplify_eq. exists [(bq_cmd gp, sql)]. split; [done|].
    apply sublist_skip, sublist_nil_l. }
  match type of Hrun with
  | context [update_saved_hash hs f sql E ?s_u] =>
      destruct (update_saved_hash_returns hs f sql b E s_u Hb)
        as (hu & su & Hup & Hru & _)
  end.
  rewrite Hup in Hrun.
  destruct (save_returns hu E su) as (hs' & s1 & Hsave & Hru' & _).
  rewrite Hsave in Hrun.
  destruct (IH _ _ _ _ Hrun) as (rs & Hrs & Hsub).
  exists ((bq_cmd gp, sql) :: rs). split; [|by apply sublist_skip].
  rewrite Hrs, Hru', Hru. simpl. by rewrite <- app_assoc.
Qed.

(** X7. However the loop ends, the commands it started are [bq]
    commands with the content of located files on their input, in the order
    of the files and at most one per file: the script starts nothing else,
    and nothing for a file it cannot read. *)
Theorem commands_follow_the_files hs gp l E s :
  ∃ rs, runs (snd (deploy_files hs gp l E s)) = runs s ++ rs
        ∧ rs `sublist_of` omap (command_for E gp) l.
Proof.
  destruct (deploy_files hs gp l E s) as [r s'] eqn:Hrun.
  by eapply deploy_files_runs.
Qed.

(** The loop raises [SystemExit] only with the code 3, and only when the
    last command it started ended with a status that is not 0. *)
Lemma deploy_files_SystemExit gp E l : ∀ hs s c s',
  deploy_files hs gp l E s = (Raise (SystemExit c), s') →
  c = 3%Z
  ∧ ∃ sql p, last (runs s') = Some (bq_cmd gp, sql)
             ∧ spawn E (length (runs s') - 1) (bq_cmd gp) sql = inr p
             ∧ returncode p ≠ 0%Z.
Proof.
  induction l as [|f l IH]; intros hs s c s' Hrun; [done|].
  destruct (read E f) as [e|sql] eqn:Hread.
  { cbn [deploy_files] in Hrun. unfold bind, get_sql in Hrun.
    rewrite Hread in Hrun. discriminate Hrun. }
  destruct (utf8 sql) as [b|] eqn:Hb; cycle 1.
  { cbn [deploy_files] in Hrun. unfold bind, get_sql in Hrun.
    rewrite Hread in Hrun.
    unfold matches_saved_hash, bind, logging, encode_utf8 in Hrun.
    rewrite Hb in Hrun. discriminate Hrun. }
  rewrite (deploy_files_cons _ _ _ _ _ _ _ _ Hread Hb) in Hrun.
  cbv zeta in Hrun. case_bool_decide as Hh; [by eapply IH|].
  destruct (spawn E _ _ _) as [e|p] eqn:Hspawn; [discriminate Hrun|].
  destruct (returncode p =? 0)%Z eqn:Hrc.
  - match type of Hrun with
    | context [update_saved_hash hs f sql E ?s_u] =>
        destruct (update_saved_hash_returns hs f sql b E s_u Hb)
          as (hu & su & Hup & _)
    end.
    rewrite Hup in Hrun.
    destruct (save_returns hu E su) as (hs' & s1 & Hsave & _).
    rewrite Hsave in Hrun. by eapply IH.
  - simplify_eq. split; [done|]. exists sql, p. simpl.
    rewrite last_snoc, length_app. simpl.
    replace (length (runs s) + 1 - 1)%nat with (length (runs s)) by lia.
    split; [done|]. split; [done|]. by apply Z.eqb_neq.
Qed.

(** X8. The script exits with a [sys.exit] code only as [sys.exit(3)],
    and only when the last command it started is a [bq] command that ended
    with a status that is not 0. *)
Theorem exit_3_means_a_failed_command E s c s' :
  main E s = (Raise (SystemExit c), s') →
  c = 3%Z
  ∧ ∃ g sql p,
      environ E !! u "INPUT_GOOGLE_PROJECT_ID" = Some g
      ∧ last (runs s') = Some (bq_cmd g, sql)
      ∧ spawn E (length (runs s') - 1) (bq_cmd g) sql = inr p
      ∧ returncode p ≠ 0%Z.
Proof.
  intros Hmain.
  unfold main, deploy, bind, os_environ, getitem, ret, raise in Hmain.
  destruct (environ E !! u "INPUT_GOOGLE_PROJECT_ID") as [g|] eqn:Hg;
    [|discriminate Hmain].
  repeat match type of Hmain with
  | context [environ E !! ?k] =>
      destruct (environ E !! k); [|discriminate Hmain]
  end.
  destruct (split1 47 _ !! 0%nat) as [pn|]; [|discriminate Hmain].
  destruct (split1 47 _ !! 1%nat) as [rn|]; [|discriminate Hmain].
  match type of Hmain with
  | context [__init__ ?a ?b ?c ?d ?e E s] =>
      destruct (init_returns a b c d e E s) as (self & s1 & Hinit & _)
  end.
  rewrite Hinit in Hmain.
  match type of Hmain with
  | context [find_ddl_files ?path E s1] =>
      destruct (listdir E path) as [e|entries] eqn:Hl;
        [rewrite (find_ddl_files_unlisted _ _ _ _ Hl) in Hmain
        |rewrite (find_ddl_files_listed _ _ _ _ Hl) in Hmain]
  end.
  - discriminate Hmain.
  - cbv zeta in Hmain.
    destruct (deploy_files_SystemExit _ _ _ _ _ _ _ Hmain)
      as (Hc & sql & p & H1 & H2 & H3).
    split; [done|]. by exists g, sql, p.
Qed.

Lemma exit_3_means_a_failed_command_witness :
  fst (main (Demo.E (u "ddl")) Demo.s0) = Raise (SystemExit 3)
  ∧ ∃ g sql p,
      last (runs (snd (main (Demo.E (u "ddl")) Demo.s0)))
      = Some (bq_cmd g, sql)
      ∧ spawn (Demo.E (u "ddl"))
              (length (runs (snd (main (Demo.E (u "ddl")) Demo.s0))) - 1)
              (bq_cmd g) sql = inr p
      ∧ returncode p ≠ 0%Z.
Proof.
  destruct (main (Demo.E (u "ddl")) Demo.s0) as [r s'] eqn:Hmain.
  assert (Hr : r = Raise (SystemExit 3)).
  { change r with (fst (r, s')). rewrite <- Hmain. vm_compute. reflexivity. }
  subst r. split; [reflexivity|].
  destruct (exit_3_means_a_failed_command _ _ _ _ Hmain)
    as (_ & g & sql & p & _ & H1 & H2 & H3).
  exists g, sql, p. repeat split; assumption.
Defined.

End Turns.

(* ===================================================================== *)
(** ** A run that succeeds, and the run after it *)
(* ===================================================================== *)

Section Runs.

Implicit Types (self hs : t) (E : env) (s : state) (sql gp : str).

(** What [find_ddl_files] returns does not depend on the state. *)
Lemma find_ddl_files_returns path E s :
  ∃ rs, find_ddl_files path E s
        = (Return (match listdir E path with
                   | inr entries =>
                       sort (map (path_join path)
                                 (filter (is_ddl_file E path) entries))
                   | inl _ => []
                   end),
           add_logs rs s).
Proof.
  destruct (listdir E path) as [e|entries] eqn:Hl.
  - eexists. by apply find_ddl_files_unlisted.
  - eexists. by apply find_ddl_files_listed.
Qed.

(** A run that returns has read its variables, made its instance, listed
    the folder and gone through the loop. *)
Lemma main_Return E s self s' :
  main E s = (Return self, s') →
  ∃ g path user password name pn rn hs0 s0 rs,
    environ E !! u "INPUT_GOOGLE_PROJECT_ID" = Some g
    ∧ environ E !! u "INPUT_DDL_FOLDER_PATH" = Some path
    ∧ environ E !! u "INPUT_HADOOP_MONGO_USER" = Some user
    ∧ environ E !! u "INPUT_HADOOP_MONGO_PASSWORD" = Some password
    ∧ environ E !! u "REPO_AND_OWNER_NAME" = Some name
    ∧ split1 47 name !! 0%nat = Some pn
    ∧ split1 47 name !! 1%nat = Some rn
    ∧ __init__ pn rn g user password E s = (Return hs0, s0)
    ∧ deploy_files hs0 g
        (match listdir E path with
         | inr entries =>
             sort (map (path_join path) (filter (is_ddl_file E path) entries))
         | inl _ => []
         end) E (add_logs rs s0) = (Return self, s').
Proof.
  intros Hmain.
  unfold main, deploy, bind, os_environ, getitem, ret, raise in Hmain.
  destruct (environ E !! u "INPUT_GOOGLE_PROJECT_ID") as [g|] eqn:Hg;
    [|discriminate Hmain].
  destruct (environ E !! u "INPUT_DDL_FOLDER_PATH") as [path|] eqn:Hp;
    [|discriminate Hmain].
  destruct (environ E !! u "INPUT_HADOOP_MONGO_USER") as [user|] eqn:Hu;
    [|discriminate Hmain].
  destruct (environ E !! u "INPUT_HADOOP_MONGO_PASSWORD") as [pw|] eqn:Hpw;
    [|discriminate Hmain].
  destruct (environ E !! u "REPO_AND_OWNER_NAME") as [name|] eqn:Hname;
    [|discriminate Hmain].
  destruct (split1 47 name !! 0%nat) as [pn|] eqn:H0; [|discriminate Hmain].
  destruct (split1 47 name !! 1%nat) as [rn|] eqn:H1; [|discriminate Hmain].
  destruct (init_returns pn rn g user pw E s) as (hs0 & s0 & Hinit & _).
  rewrite Hinit in Hmain.
  destruct (find_ddl_files_returns path E s0) as [rs Hfind].
  rewrite Hfind in Hmain.
  by exists g, path, user, pw, name, pn, rn, hs0, s0, rs.
Qed.

(** And a run with these variables is these steps. *)
Lemma main_steps E s g path user password name pn rn :
  environ E !! u "INPUT_GOOGLE_PROJECT_ID" = Some g →
  environ E !! u "INPUT_DDL_FOLDER_PATH" = Some path →
  environ E !! u "INPUT_HADOOP_MONGO_USER" = Some user →
  environ E !! u "INPUT_HADOOP_MONGO_PASSWORD" = Some password →
  environ E !! u "REPO_AND_OWNER_NAME" = Some name →
  split1 47 name !! 0%nat = Some pn →
  split1 47 name !! 1%nat = Some rn →
  ∃ hs0 s0 rs,
    __init__ pn rn g user password E s = (Return hs0, s0)
    ∧ main E s
      = deploy_files hs0 g
          (match listdir E path with
           | inr entries =>
               sort (map (path_join path)
                         (filter (is_ddl_file E path) entries))
           | inl _ => []
           end) E (add_logs rs s0).
Proof.
  intros Hg Hp Hu Hpw Hname H0 H1.
  destruct (init_returns pn rn g user password E s) as (hs0 & s0 & Hinit & _).
  destruct (find_ddl_files_returns path E s0) as [rs Hfind].
  exists hs0, s0, rs. split; [done|].
  unfold main, deploy, bind, os_environ, getitem, ret, raise.
  by rewrite Hg, Hp, Hu, Hpw, Hname, H0, H1, Hinit, Hfind.
Qed.

(** X9. After a run that returns, on a collection in order, the
    collection has, in the document of the instance, the fingerprint of the
    content of every file of the folder that ends with [.sql] and is a
    regular file. *)
Theorem successful_run_stores_every_file E s self s' path entries entry :
  well_kept (collection s) →
  main E s = (Return self, s') →
  environ E !! u "INPUT_DDL_FOLDER_PATH" = Some path →
  listdir E path = inr entries →
  entry ∈ entries →
  endswith entry (u ".sql") = true →
  isfile E (path_join path entry) = true →
  ∃ sql b,
    read E (path_join path entry) = inr sql ∧ utf8 sql = Some b
    ∧ stored self s' (path_join path entry) (md5_hexdigest b).
Proof.
  intros Hwk Hmain Hpath Hl Hentry Hsql Hfile.
  destruct (main_Return _ _ _ _ Hmain)
    as (g & path' & user & pw & name & pn & rn & hs0 & s0 & rs
        & _ & Hp & _ & _ & _ & _ & _ & Hinit & Hloop).
  rewrite Hpath in Hp. simplify_eq. rewrite Hl in Hloop.
  destruct (init_establishes pn rn g user pw E s Hwk)
    as (hs0' & s0' & Hinit' & Hinv & Hsync & _).
  rewrite Hinit in Hinit'. simplify_eq.
  destruct (deploy_files_Return _ _ _ _ _ _ _ Hinv
              (in_sync_collection _ _ (add_logs rs s0') eq_refl Hsync) Hloop)
    as (Hinv1 & Hsync1 & _ & Hfiles).
  apply (up_to_date_stored E self s' _ Hinv1 Hsync1), Hfiles.
  rewrite sort_perm. apply list_elem_of_In, in_map, list_elem_of_In.
  apply list_elem_of_filter. split; [|done].
  unfold is_ddl_file. by rewrite Hsql, Hfile.
Qed.

Lemma successful_run_stores_every_file_witness :
  well_kept (collection Demo.s0)
  ∧ listdir Demo2.E (u "ddl") = inr [u "b.sql"; u "a.sql"; u "c.txt"]
  ∧ ∃ self s' sql b,
      main Demo2.E Demo.s0 = (Return self, s')
      ∧ read Demo2.E (path_join (u "ddl") (u "b.sql")) = inr sql
      ∧ utf8 sql = Some b
      ∧ stored self s' (path_join (u "ddl") (u "b.sql")) (md5_hexdigest b).
Proof.
  assert (Hwk : well_kept (collection Demo.s0)).
  { split; [apply NoDup_nil_2|]. intros d Hd. by apply elem_of_nil in Hd. }
  split; [exact Hwk|]. split; [reflexivity|].
  destruct (main Demo2.E Demo.s0) as [r s'] eqn:Hmain.
  assert (Hr : match r with Return _ => True | Raise _ => False end).
  { change r with (fst (r, s')). rewrite <- Hmain. vm_compute. exact I. }
  destruct r as [self|e]; [|destruct Hr].
  destruct (successful_run_stores_every_file Demo2.E Demo.s0 self s'
              (u "ddl") [u "b.sql"; u "a.sql"; u "c.txt"] (u "b.sql")
              Hwk Hmain) as (sql & b & H1 & H2 & H3).
  - vm_compute. reflexivity.
  - reflexivity.
  - apply list_elem_of_here.
  - vm_compute. reflexivity.
  - vm_compute. reflexivity.
  - exists self, s', sql, b. repeat split; assumption.
Defined.

(** *** The run after *)

Lemma find_replace_same (q1 q2 : document → bool) (c : list document) d new :
  find q1 c = Some d → find q2 c = Some d → q2 new = true →
  find q2 (Mongo.replace_first q1 new c) = Some new.
Proof.
  intros H1 H2 Hnew. induction c as [|x c IH]; [done|]. simpl in *.
  destruct (q1 x) eqn:Hx.
  - simpl. by rewrite Hnew.
  - destruct (q2 x) eqn:Hx2.
    + simplify_eq. apply find_some in H1 as [_ H1]. congruence.
    + simpl. rewrite Hx2. by apply IH.
Qed.

Lemma update_saved_hash_triple self n text E s self' s' :
  update_saved_hash self n text E s = (Return self', s') →
  triple (hashes self') = triple (hashes self).
Proof.
  intros Hup. destruct (utf8 text) as [b|] eqn:Hb.
  - destruct (filesdict self !! n) as [r|] eqn:Hr.
    + rewrite (update_saved_hash_existing _ _ _ _ _ _ _ Hb Hr) in Hup.
      by simplify_eq.
    + rewrite (update_saved_hash_new _ _ _ _ _ _ Hb Hr) in Hup.
      by simplify_eq.
  - unfold update_saved_hash, bind, encode_utf8 in Hup.
    rewrite Hb in Hup. discriminate Hup.
Qed.

Lemma is_for_own (d : document) :
  Mongo.is_for (Hashes.project_name d) (Hashes.repo_name d)
               (Hashes.google_project_id d) d = true.
Proof. unfold Mongo.is_for. by rewrite !bool_decide_eq_true_2. Qed.

Lemma in_step_in_sync self s :
  well_kept (collection s) → in_step self s → in_sync self s.
Proof.
  intros [Hnd _]. unfold in_step, in_sync.
  destruct (Hashes._id (hashes self)) as [i|]; [|by intros [_ ?]].
  intros (d & Hd & Hi & Hf).
  apply find_some in Hd as [Hin _]. apply list_elem_of_In in Hin.
  by rewrite (find_by_id _ d i Hnd Hin Hi), <- Hf.
Qed.

(** [save] puts the instance in step with the collection, when the
    collection has the document of its ["_id"] under its triple, or no
    document under its triple for an instance without ["_id"]. *)
Lemma save_in_step self E s self' s' :
  well_kept (collection s) →
  match Hashes._id (hashes self) with
  | Some i =>
      ∃ d, find (Mongo.is_for (Hashes.project_name (hashes self))
                              (Hashes.repo_name (hashes self))
                              (Hashes.google_project_id (hashes self)))
                (collection s) = Some d
           ∧ Hashes._id d = Some i
  | None =>
      find (Mongo.is_for (Hashes.project_name (hashes self))
                         (Hashes.repo_name (hashes self))
                         (Hashes.google_project_id (hashes self)))
           (collection s) = None
  end →
  save self E s = (Return self', s') →
  in_step self' s'
  ∧ triple (hashes self') = triple (hashes self)
  ∧ filesdict self' = filesdict self
  ∧ Hashes.files (hashes self') = Hashes.files (hashes self).
Proof.
  intros [Hnd Hall] Hpre Hsave.
  destruct (Hashes._id (hashes self)) as [i|] eqn:Hi.
  - rewrite (save_stored _ _ _ _ Hi) in Hsave. simplify_eq.
    split; [|done]. unfold in_step. rewrite Hi. simpl.
    destruct Hpre as (d & Hd & Hdi).
    exists (hashes self'). split; [|done].
    apply (find_replace_same _ _ _ d); [|done|apply is_for_own].
    apply find_some in Hd as Hin. destruct Hin as [Hin _].
    apply list_elem_of_In in Hin. by apply find_by_id.
  - rewrite (save_new _ _ _ Hi) in Hsave. simplify_eq.
    split; [|done]. unfold in_step. simpl.
    exists (Hashes.set__id (fresh (Mongo.ids (collection s))) (hashes self)).
    split; [|done].
    rewrite find_app_miss.
    + simpl. unfold Mongo.is_for. simpl.
      by rewrite !bool_decide_eq_true_2.
    + intros x Hx%list_elem_of_In. by apply (find_none _ _ Hpre).
Qed.

Lemma in_step_ext self self' s s' :
  hashes self' = hashes self → collection s' = collection s →
  in_step self s → in_step self' s'.
Proof. unfold in_step. by intros -> ->. Qed.

(** One turn that does not raise, with the collection. *)
Lemma deploy_files_turn_in_step hs gp f rest E s hs1 s1 :
  invariant hs → in_step hs s → well_kept (collection s) →
  deploy_files hs gp (f :: rest) E s = (Return hs1, s1) →
  ∃ hs' s',
    deploy_files hs' gp rest E s' = (Return hs1, s1)
    ∧ invariant hs' ∧ in_step hs' s' ∧ well_kept (collection s')
    ∧ triple (hashes hs') = triple (hashes hs).
Proof.
  intros Hinv Hstep Hwk Hrun.
  destruct (read E f) as [e|sql] eqn:Hread.
  { cbn [deploy_files] in Hrun. unfold bind, get_sql in Hrun.
    rewrite Hread in Hrun. discriminate Hrun. }
  destruct (utf8 sql) as [b|] eqn:Hb; cycle 1.
  { cbn [deploy_files] in Hrun. unfold bind, get_sql in Hrun.
    rewrite Hread in Hrun.
    unfold matches_saved_hash, bind, logging, encode_utf8 in Hrun.
    rewrite Hb in Hrun. discriminate Hrun. }
  rewrite (deploy_files_cons _ _ _ _ _ _ _ _ Hread Hb) in Hrun.
  cbv zeta in Hrun. case_bool_decide as Hh.
  { eexists hs, _. split; [exact Hrun|]. split; [done|].
    split; [by eapply in_step_ext|]. done. }
  destruct (spawn E _ _ _) as [e|p]; [discriminate Hrun|].
  destruct (returncode p =? 0)%Z; [|discriminate Hrun].
  match type of Hrun with
  | context [update_saved_hash hs f sql E ?s_u] =>
      destruct (update_saved_hash_linked hs f sql b E s_u)
        as (hu & su & Hup & Hl); [by apply linked_invariant|done|]
  end.
  rewrite Hup in Hrun. apply linked_invariant in Hl.
  destruct (update_saved_hash_state _ _ _ _ _ _ _ Hup) as (Hco & _ & Hid).
  pose proof (update_saved_hash_triple _ _ _ _ _ _ _ Hup) as Htr.
  simpl in Hco.
  assert (Hwku : well_kept (collection su)) by (by rewrite Hco).
  destruct (save_returns hu E su) as (hs' & s' & Hsave & _).
  rewrite Hsave in Hrun.
  destruct (save_in_step hu E su hs' s' Hwku) as (Hstep' & Htr' & Hd & Hf);
    [|exact Hsave|].
  { unfold in_step in Hstep. injection Htr as -> -> ->.
    rewrite Hco, Hid.
    destruct (Hashes._id (hashes hs)) as [i|].
    - destruct Hstep as (d & ? & ? & _). by exists d.
    - by destruct Hstep. }
  exists hs', s'. split; [exact Hrun|].
  split; [by eapply invariant_ext|]. split; [done|].
  split; [by eapply save_well_kept|]. congruence.
Qed.

Lemma deploy_files_in_step gp E l : ∀ hs s hs1 s1,
  invariant hs → in_step hs s → well_kept (collection s) →
  deploy_files hs gp l E s = (Return hs1, s1) →
  in_step hs1 s1 ∧ well_kept (collection s1)
  ∧ triple (hashes hs1) = triple (hashes hs).
Proof.
  induction l as [|f l IH]; intros hs s hs1 s1 Hinv Hstep Hwk Hrun.
  - simpl in Hrun. unfold ret in Hrun. by simplify_eq.
  - destruct (deploy_files_turn_in_step _ _ _ _ _ _ _ _ Hinv Hstep Hwk Hrun)
      as (hs' & s' & Hrest & Hinv' & Hstep' & Hwk' & Htr).
    destruct (IH _ _ _ _ Hinv' Hstep' Hwk' Hrest) as (H1 & H2 & H3).
    split; [done|]. split; [done|]. congruence.
Qed.

(** On a collection in order, [__init__] makes an instance in step with
    it, for the triple it was asked. *)
Lemma init_in_step (pn rn g us pw : str) E s :
  well_kept (collection s) →
  ∃ hs0 s0,
    __init__ pn rn g us pw E s = (Return hs0, s0)
    ∧ invariant hs0 ∧ in_step hs0 s0
    ∧ collection s0 = collection s
    ∧ triple (hashes hs0) = (pn, rn, g).
Proof.
  intros Hwk.
  destruct (init_establishes pn rn g us pw E s Hwk)
    as (hs0 & s0 & Hinit & Hinv & _ & Hco).
  exists hs0, s0. split; [done|]. split; [done|].
  destruct Hwk as [Hnd Hall].
  destruct (find (Mongo.is_for pn rn g) (collection s)) as [d|] eqn:Hd.
  - rewrite (init_found _ _ _ _ _ _ _ _ Hd) in Hinit. simplify_eq.
    apply find_some in Hd as Hin. destruct Hin as [Hin Hfor].
    apply list_elem_of_In in Hin. destruct (Hall d Hin) as [[i Hi] _].
    unfold Mongo.is_for in Hfor.
    apply andb_true_iff in Hfor as [Hfor H3].
    apply andb_true_iff in Hfor as [H1 H2].
    apply bool_decide_eq_true in H1, H2, H3.
    unfold in_step, triple. simpl. rewrite H1, H2, H3, Hi, Hd.
    split; [by exists d|done].
  - rewrite (init_fresh _ _ _ _ _ _ _ Hd) in Hinit. simplify_eq.
    unfold in_step, triple. simpl. by rewrite Hd.
Qed.

(** Two instances as the class wants them, with the same entries, have the
    same fingerprints. *)
Lemma get_file_hash_same_files self1 self2 m :
  invariant self1 → invariant self2 →
  Hashes.files (hashes self1) = Hashes.files (hashes self2) →
  get_file_hash self1 m = get_file_hash self2 m.
Proof.
  intros [He1 Hk1]%linked_invariant [He2 Hk2]%linked_invariant Hf.
  unfold get_file_hash, deref in *. rewrite Hf in He1, Hk1.
  destruct (filesdict self1 !! m) as [r1|] eqn:H1.
  - destruct (He1 _ _ H1) as (f & Hr1 & Hn). subst m.
    by rewrite (Hk2 _ _ Hr1), Hf.
  - destruct (filesdict self2 !! m) as [r2|] eqn:H2; [|done].
    destruct (He2 _ _ H2) as (f & Hr2 & Hn). subst m.
    rewrite (Hk1 _ _ Hr2) in H1. discriminate H1.
Qed.

(** The loop over files that all have their fingerprint only logs. *)
Lemma deploy_files_all_skipped gp E l : ∀ hs s,
  (∀ g, g ∈ l → up_to_date E hs g) →
  ∃ rs, deploy_files hs gp l E s = (Return hs, add_logs rs s).
Proof.
  induction l as [|f l IH]; intros hs s Hall.
  - exists []. by rewrite add_logs_nil.
  - destruct (Hall f) as (sql & b & Hread & Hb & Hget);
      [apply list_elem_of_here|].
    rewrite (deploy_files_cons _ _ _ _ _ _ _ _ Hread Hb). cbv zeta.
    rewrite bool_decide_eq_true_2 by done.
    edestruct (IH hs) as [rs Hrs].
    { intros g Hg. apply Hall. by apply list_elem_of_further. }
    rewrite Hrs, add_log_add_logs, add_logs_add_logs. by eexists.
Qed.

(** X10. A run right after a run that returned, in the same world,
    deploys nothing: it returns too, so with exit status 0, having started
    no command and left the collection as it was, and its instance has the
    fingerprints the first run ended with. *)
Theorem second_run_deploys_nothing E s self s' :
  well_kept (collection s) →
  main E s = (Return self, s') →
  ∃ self2 s2,
    main E s' = (Return self2, s2)
    ∧ exit_status (fst (main E s')) = 0%Z
    ∧ runs s2 = runs s'
    ∧ collection s2 = collection s'
    ∧ ∀ m, get_file_hash self2 m = get_file_hash self m.
Proof.
  intros Hwk Hmain.
  destruct (main_Return _ _ _ _ Hmain)
    as (g & path & user & pw & name & pn & rn & hs0 & s0 & rs
        & Hg & Hp & Hu & Hpw & Hname & H0 & H1 & Hinit & Hloop).
  destruct (init_in_step pn rn g user pw E s Hwk)
    as (hs0' & s0' & Hinit' & Hinv0 & Hstep0 & Hco0 & Htr0).
  rewrite Hinit in Hinit'. simplify_eq.
  assert (Hwk0 : well_kept (collection (add_logs rs s0')))
    by (simpl; by rewrite Hco0).
  assert (Hstep0' : in_step hs0' (add_logs rs s0'))
    by exact (in_step_ext _ _ _ _ eq_refl eq_refl Hstep0).
  destruct (deploy_files_in_step _ _ _ _ _ _ _ Hinv0 Hstep0' Hwk0 Hloop)
    as (Hstep1 & Hwk1 & Htr1).
  destruct (deploy_files_Return _ _ _ _ _ _ _ Hinv0
              (in_step_in_sync _ _ Hwk0 Hstep0') Hloop)
    as (Hinv1 & _ & _ & Hfiles).
  destruct (main_steps E s' g path user pw name pn rn Hg Hp Hu Hpw Hname H0 H1)
    as (hs2 & s2 & rs2 & Hinit2 & Hmain2).
  destruct (init_in_step pn rn g user pw E s' Hwk1)
    as (hs2' & s2' & Hinit2' & Hinv2 & Hstep2 & Hco2 & Htr2).
  rewrite Hinit2 in Hinit2'.
  assert (hs2 = hs2' ∧ s2 = s2') as [-> ->] by (split; congruence).
  clear Hinit2'.
  assert (Hsame : Hashes.files (hashes hs2') = Hashes.files (hashes self)).
  { assert (Ht : triple (hashes self) = (pn, rn, g)) by congruence.
    unfold triple in Ht, Htr2. unfold in_step in Hstep1, Hstep2.
    injection Ht as F1 F2 F3. injection Htr2 as G1 G2 G3.
    rewrite F1, F2, F3 in Hstep1. rewrite G1, G2, G3, Hco2 in Hstep2.
    destruct (Hashes._id (hashes self)) as [i|],
             (Hashes._id (hashes hs2')) as [i2|].
    - destruct Hstep1 as (d & Hd & _ & Hf), Hstep2 as (d2 & Hd2 & _ & Hf2).
      congruence.
    - destruct Hstep1 as (d & Hd & _ & Hf), Hstep2 as [Hd2 _]. congruence.
    - destruct Hstep1 as [Hd Hf], Hstep2 as (d2 & Hd2 & _ & Hf2). congruence.
    - destruct Hstep1 as [_ Hf], Hstep2 as [_ Hf2]. congruence. }
  assert (Hget : ∀ m, get_file_hash hs2' m = get_file_hash self m)
    by (intros m; by apply get_file_hash_same_files).
  match type of Hmain2 with
  | context [deploy_files hs2' g ?l E ?sx] =>
      destruct (deploy_files_all_skipped g E l hs2' sx) as [rs3 Hskip]
  end.
  { intros f Hf. destruct (Hfiles f Hf) as (sql & b & ? & ? & ?).
    exists sql, b. by rewrite Hget. }
  rewrite Hskip in Hmain2.
  eexists _, _. split; [exact Hmain2|]. rewrite Hmain2.
  split; [done|]. split; [|split; [|done]]; simpl.
  - destruct (init_returns pn rn g user pw E s') as (? & ? & Hi & Hr & _).
    rewrite Hinit2 in Hi. by simplify_eq.
  - done.
Qed.

Lemma second_run_deploys_nothing_witness :
  well_kept (collection Demo.s0)
  ∧ ∃ self s' self2 s2,
      main Demo2.E Demo.s0 = (Return self, s')
      ∧ length (runs s') = 2%nat
      ∧ main Demo2.E s' = (Return self2, s2)
      ∧ runs s2 = runs s'
      ∧ collection s2 = collection s'.
Proof.
  assert (Hwk : well_kept (collection Demo.s0)).
  { split; [apply NoDup_nil_2|]. intros d Hd. by apply elem_of_nil in Hd. }
  split; [exact Hwk|].
  destruct (main Demo2.E Demo.s0) as [r s'] eqn:Hmain.
  assert (Hr : match r with Return _ => True | Raise _ => False end).
  { change r with (fst (r, s')). rewrite <- Hmain. vm_compute. exact I. }
  assert (Hruns : length (runs s') = 2%nat).
  { change s' with (snd (r, s')). rewrite <- Hmain. vm_compute. reflexivity. }
  destruct r as [self|e]; [|destruct Hr].
  destruct (second_run_deploys_nothing Demo2.E Demo.s0 self s' Hwk Hmain)
    as (self2 & s2 & H1 & _ & H2 & H3 & _).
  exists self, s', self2, s2. repeat split; assumption.
Defined.

End Runs.

(* ===================================================================== *)
(** ** Saving and loading *)
(* ===================================================================== *)

Section Persistence.

Implicit Types (self : t) (E : env) (s : state) (n : str).
Implicit Types (c : list document) (d : document).

Lemma length_replace_first (q : document → bool) d c :
  length (Mongo.replace_first q d c) = length c.
Proof.
  induction c as [|x c IH]; [done|]. simpl.
  destruct (q x); simpl; by rewrite ?IH.
Qed.

Lemma replace_first_none (q : document → bool) d c :
  (∀ x, x ∈ c → q x = false) → Mongo.replace_first q d c = c.
Proof.
  induction c as [|x c IH]; intros Hc; [done|]. simpl.
  rewrite (Hc x) by apply list_elem_of_here. f_equal.
  apply IH. intros y Hy. apply Hc. by apply list_elem_of_further.
Qed.

Lemma replace_first_keeps (q : document → bool) d c x :
  x ∈ c → q x = false → x ∈ Mongo.replace_first q d c.
Proof.
  induction c as [|y c IH]; intros Hx Hq; [done|]. simpl.
  apply elem_of_cons in Hx as [->|Hx].
  - rewrite Hq. apply list_elem_of_here.
  - destruct (q y); apply list_elem_of_further; [done|by apply IH].
Qed.

Lemma replace_first_again (q : document → bool) d c :
  q d = true →
  Mongo.replace_first q d (Mongo.replace_first q d c)
  = Mongo.replace_first q d c.
Proof.
  intros Hd. induction c as [|x c IH]; [done|]. simpl.
  destruct (q x) eqn:Hx; simpl.
  - by rewrite Hd.
  - by rewrite Hx, IH.
Qed.

Lemma replace_first_last (q : document → bool) d c :
  (∀ x, x ∈ c → q x = false) → q d = true →
  Mongo.replace_first q d (c ++ [d]) = c ++ [d].
Proof.
  intros Hc Hd. induction c as [|x c IH]; simpl.
  - by rewrite Hd.
  - rewrite (Hc x) by apply list_elem_of_here. f_equal.
    apply IH. intros y Hy. apply Hc. by apply list_elem_of_further.
Qed.

(** X11. [save] inserts the record of an instance that has no
    ["_id"], as one more document under an ["_id"] that no document has, and
    the instance keeps that ["_id"]; with an ["_id"] it replaces: the
    collection keeps its size and its identifiers, the documents of other
    identifiers stay, and when no document has the ["_id"] nothing is
    written at all. *)
Theorem save_inserts_once_then_replaces self E s :
  ∃ self' s' i,
    save self E s = (Return self', s')
    ∧ Hashes._id (hashes self') = Some i
    ∧ match Hashes._id (hashes self) with
      | None =>
          (i ∉ Mongo.ids (collection s))
          ∧ hashes self' = Hashes.set__id i (hashes self)
          ∧ collection s' = collection s ++ [hashes self']
      | Some j =>
          i = j ∧ self' = self
          ∧ length (collection s') = length (collection s)
          ∧ Mongo.ids (collection s') = Mongo.ids (collection s)
          ∧ (∀ d, d ∈ collection s → Hashes._id d ≠ Some j →
                  d ∈ collection s')
          ∧ (j ∈ Mongo.ids (collection s) →
             find (Mongo.has_id j) (collection s') = Some (hashes self))
          ∧ (j ∉ Mongo.ids (collection s) → collection s' = collection s)
      end.
Proof.
  destruct (Hashes._id (hashes self)) as [j|] eqn:Hj.
  - eexists _, _, j. split; [by apply save_stored|]. split; [done|].
    simpl. split; [done|]. split; [done|].
    split; [apply length_replace_first|].
    split; [by apply ids_replace_first|]. split; [|split].
    + intros d Hd Hne. apply replace_first_keeps; [done|].
      by apply bool_decide_eq_false_2.
    + intros Hin. apply find_replace_first; [done|].
      apply list_elem_of_omap in Hin as (x & Hx & Hxi).
      destruct (find (Mongo.has_id j) (collection s)) eqn:Hf; [by eexists|].
      apply list_elem_of_In in Hx.
      pose proof (find_none _ _ Hf x Hx) as Hno.
      apply bool_decide_eq_false in Hno. done.
    + intros Hnot. apply replace_first_none. intros x Hx.
      apply bool_decide_eq_false_2. intros Hxi. apply Hnot.
      apply list_elem_of_omap. by exists x.
  - eexists _, _, _. split; [by apply save_new|]. split; [reflexivity|].
    simpl. split; [apply infinite_is_fresh|done].
Qed.

(** X12. Saving twice in a row writes what saving once writes: the
    second [save] finds the ["_id"] the first one left in the instance, and
    replaces the document by itself. *)
Theorem save_twice_is_save_once self E s :
  ∃ self1 s1 s2,
    save self E s = (Return self1, s1)
    ∧ save self1 E s1 = (Return self1, s2)
    ∧ collection s2 = collection s1.
Proof.
  destruct (Hashes._id (hashes self)) as [j|] eqn:Hj.
  - eexists _, _, _. split; [by apply save_stored|].
    split; [by apply save_stored|]. simpl.
    apply replace_first_again. unfold Mongo.has_id.
    by apply bool_decide_eq_true_2.
  - eexists _, _, _. split; [by apply save_new|].
    split; [by apply save_stored|]. simpl.
    apply replace_first_last.
    + intros x Hx. apply bool_decide_eq_false_2. intros Hxi.
      apply (infinite_is_fresh (Mongo.ids (collection s))).
      apply list_elem_of_omap. by exists x.
    + by apply bool_decide_eq_true_2.
Qed.

End Persistence.

(* ===================================================================== *)
(** ** What [__init__] makes of a stored record *)
(* ===================================================================== *)

Section Loading.

Implicit Types (self : t) (E : env) (s : state) (n : str) (f : file_attrs).
Implicit Types (l : list file_attrs).

Lemma dict_of_files_last n l : ∀ i (acc : gmap str nat),
  dict_of_files i l acc !! n
  = match last_index n l with
    | Some j => Some (i + j)%nat
    | None => acc !! n
    end.
Proof.
  induction l as [|f l IH]; intros i acc; [done|].
  simpl. rewrite IH. destruct (last_index n l) as [j|].
  - f_equal. lia.
  - case_decide as Hn.
    + subst n. rewrite lookup_insert_eq. f_equal. lia.
    + by rewrite lookup_insert_ne.
Qed.

Lemma last_index_None n l :
  last_index n l = None → last_named n l = None.
Proof.
  unfold last_named.
  induction l as [|f l IH]; intros Hj; [done|]. simpl in Hj.
  rewrite filter_cons.
  destruct (last_index n l) as [k|]; [done|].
  case_decide as Hn; [done|]. by apply IH.
Qed.

Lemma last_index_Some n l j :
  last_index n l = Some j →
  ∃ f, l !! j = Some f ∧ last_named n l = Some f.
Proof.
  revert j.
  induction l as [|f l IH]; intros j Hj; [done|]. simpl in Hj.
  unfold last_named in *. rewrite filter_cons.
  destruct (last_index n l) as [k|] eqn:Hk.
  - destruct (IH k eq_refl) as (x & Hx & Hlast). simplify_eq.
    exists x. split; [done|].
    case_decide; [|done]. by rewrite last_cons, Hlast.
  - apply last_index_None in Hk. unfold last_named in Hk.
    case_decide as Hn; [|done]. simplify_eq. exists f. split; [done|].
    by rewrite last_cons, Hk.
Qed.

(** X13. [__init__] always returns, and the fingerprint its instance
    gives for a name is the one of the last entry of that name in the
    record it holds, or [""] when the record has no entry of that name: in
    the [dict] built from the entries, a later entry takes the key of an
    earlier one. *)
Theorem loaded_fingerprint_is_the_last_of_its_name
    (pn rn g us pw : str) E s :
  ∃ self s',
    __init__ pn rn g us pw E s = (Return self, s')
    ∧ ∀ n, get_file_hash self n
           = from_option File.file_hash []
               (last_named n (Hashes.files (hashes self))).
Proof.
  destruct (find (Mongo.is_for pn rn g) (collection s)) as [d|] eqn:Hd.
  - eexists _, _. split; [by apply init_found|].
    intros n. unfold get_file_hash, deref. simpl.
    rewrite dict_of_files_last, lookup_empty.
    destruct (last_index n (Hashes.files d)) as [j|] eqn:Hj.
    + destruct (last_index_Some _ _ _ Hj) as (f & Hf & Hlast).
      simpl. by rewrite Hf, Hlast.
    + by rewrite (last_index_None _ _ Hj).
  - eexists _, _. split; [by apply init_fresh|]. done.
Qed.

End Loading.

(* ===================================================================== *)
(** ** The order of the files *)
(* ===================================================================== *)

Section Order.

Implicit Types (a b p x : str) (l : list str) (E : env) (s : state).

Lemma str_leb_antisym a : ∀ b,
  str_leb a b = true → str_leb b a = true → a = b.
Proof.
  induction a as [|x a IH]; intros [|y b] Hab Hba; simpl in *; try done.
  apply orb_true_iff in Hab, Hba.
  destruct Hab as [Hab|Hab], Hba as [Hba|Hba];
    repeat match goal with
    | H : (_ <? _) = true |- _ => apply N.ltb_lt in H
    | H : (_ && _) = true |- _ => apply andb_true_iff in H as [? ?]
    | H : (_ =? _) = true |- _ => apply N.eqb_eq in H; subst
    end; try lia.
  f_equal. by apply IH.
Qed.

Lemma str_le_trans : Transitive str_le.
Proof. intros a b c. apply str_leb_trans. Qed.

Lemma str_le_antisym : AntiSymm eq str_le.
Proof. intros a b. apply str_leb_antisym. Qed.

Lemma sort_unique l1 l2 : l1 ≡ₚ l2 → sort l1 = sort l2.
Proof.
  intros Hl.
  apply (@Sorted_unique _ str_le str_le_trans str_le_antisym);
    [apply sort_Sorted..|].
  by rewrite !sort_perm.
Qed.

Lemma str_leb_prefix p a b : str_leb (p ++ a) (p ++ b) = str_leb a b.
Proof.
  induction p as [|x p IH]; [done|]. simpl.
  by rewrite N.ltb_irrefl, N.eqb_refl, IH.
Qed.

Lemma insert_sorted_prefix p x l :
  insert_sorted (p ++ x) ((λ a, p ++ a) <$> l)
  = (λ a, p ++ a) <$> insert_sorted x l.
Proof.
  induction l as [|y l IH]; [done|]. simpl.
  rewrite str_leb_prefix. destruct (str_leb x y); [done|].
  simpl. f_equal. apply IH.
Qed.

Lemma sort_prefix p l :
  sort ((λ a, p ++ a) <$> l) = (λ a, p ++ a) <$> sort l.
Proof.
  induction l as [|x l IH]; [done|].
  change (insert_sorted (p ++ x) (sort ((λ a, p ++ a) <$> l))
          = (λ a, p ++ a) <$> insert_sorted x (sort l)).
  by rewrite IH, insert_sorted_prefix.
Qed.

Lemma path_join_relative path a :
  startswith a (u "/") = false → path_join path a = join_prefix path ++ a.
Proof.
  intros Ha. unfold path_join, join_prefix. rewrite Ha.
  destruct (_ || _); [done|]. by rewrite app_assoc.
Qed.

(** X14. The order in which the system lists the folder does not
    matter: two listings with the same entries, in worlds with the same
    regular files, give the same list of files to deploy. *)
Theorem listing_order_does_not_matter path entries entries' E E' s s' :
  listdir E path = inr entries → listdir E' path = inr entries' →
  entries ≡ₚ entries' → (∀ p, isfile E' p = isfile E p) →
  fst (find_ddl_files path E' s') = fst (find_ddl_files path E s).
Proof.
  intros Hl Hl' Hperm Hfile.
  rewrite (find_ddl_files_listed _ _ _ _ Hl).
  rewrite (find_ddl_files_listed _ _ _ _ Hl'). simpl. f_equal.
  apply sort_unique.
  change (map (path_join path)) with (fmap (M:=list) (path_join path)).
  f_equiv. rewrite <- Hperm. erewrite list_filter_iff; [done|].
  intros entry. unfold is_ddl_file. by rewrite Hfile.
Qed.

Lemma listing_order_does_not_matter_witness :
  fst (find_ddl_files (u "ddl") Demo2.E_listed_otherwise Demo.s0)
  = fst (find_ddl_files (u "ddl") Demo2.E Demo.s0).
Proof.
  apply (listing_order_does_not_matter (u "ddl")
           [u "b.sql"; u "a.sql"; u "c.txt"]
           [u "c.txt"; u "a.sql"; u "b.sql"]).
  - reflexivity.
  - reflexivity.
  - etrans; [apply Permutation_swap|].
    etrans; [apply perm_skip, Permutation_swap|].
    apply Permutation_swap.
  - reflexivity.
Defined.

(** X15. When no entry of the listing starts with ["/"], as is the
    case of the names [os.listdir] gives, the files come in the order of
    their names in the folder: the result is [os.path.join(path, entry)]
    for [entry] running through the sorted names of the entries kept. *)
Theorem files_come_in_the_order_of_their_names path entries E s :
  listdir E path = inr entries →
  (∀ entry, entry ∈ entries → startswith entry (u "/") = false) →
  fst (find_ddl_files path E s)
  = Return (path_join path <$> sort (filter (is_ddl_file E path) entries)).
Proof.
  intros Hl Hrel. rewrite (find_ddl_files_listed _ _ _ _ Hl). simpl. f_equal.
  change (map (path_join path)) with (fmap (M:=list) (path_join path)).
  assert (Hjoin : ∀ l, (∀ a, a ∈ l → a ∈ entries) →
            path_join path <$> l = (λ a, join_prefix path ++ a) <$> l).
  { intros l Hin. apply list_fmap_ext. intros i a Ha.
    apply path_join_relative, Hrel, Hin. by eapply list_elem_of_lookup_2. }
  rewrite !Hjoin.
  - apply sort_prefix.
  - intros a Ha. rewrite sort_perm in Ha.
    by apply list_elem_of_filter in Ha as [_ Ha].
  - intros a Ha. by apply list_elem_of_filter in Ha as [_ Ha].
Qed.

Lemma files_come_in_the_order_of_their_names_witness :
  fst (find_ddl_files (u "ddl") Demo2.E Demo.s0)
  = Return (path_join (u "ddl")
              <$> sort (filter (is_ddl_file Demo2.E (u "ddl"))
                          [u "b.sql"; u "a.sql"; u "c.txt"])).
Proof.
  apply files_come_in_the_order_of_their_names; [reflexivity|].
  intros entry Hin.
  repeat (apply elem_of_cons in Hin as [->|Hin]; [vm_compute; reflexivity|]).
  by apply elem_of_nil in Hin.
Defined.

End Order.

(* ===================================================================== *)
(** ** What an update changes in the answers *)
(* ===================================================================== *)

Section Changes.

Implicit Types (self : t) (E : env) (s : state) (n m text : str) (b : bytes).

(** X16. After [update_saved_hash(n, C)], the answer of
    [matches_saved_hash(n, C')] is whether [C'] has the MD5 digest of [C],
    and the answer for every other name is what it was before the update. *)
Theorem update_changes_one_answer self n text b E s self' s1 m text' b' s2 :
  invariant self → utf8 text = Some b → utf8 text' = Some b' →
  update_saved_hash self n text E s = (Return self', s1) →
  fst (matches_saved_hash self' m text' E s2)
  = if decide (m = n)
    then Return (bool_decide (md5_hexdigest b' = md5_hexdigest b))
    else fst (matches_saved_hash self m text' E s2).
Proof.
  intros Hinv Hb Hb' Hup.
  rewrite !(matches_saved_hash_run _ _ _ _ _ _ Hb'). simpl.
  rewrite (get_file_hash_update _ _ _ _ _ _ _ _ m Hinv Hb Hup).
  by case_decide.
Qed.

Lemma update_changes_one_answer_witness :
  ∃ self' s1,
    update_saved_hash Demo.store_a (u "ddl/a.sql") Demo.b_sql
                      (Demo.E (u "ddl")) Demo.s0 = (Return self', s1)
    ∧ fst (matches_saved_hash self' (u "ddl/a.sql") Demo.a_sql
                              (Demo.E (u "ddl")) s1) = Return false
    ∧ fst (matches_saved_hash self' (u "ddl/b.sql") Demo.b_sql
                              (Demo.E (u "ddl")) s1) = Return false.
Proof.
  assert (Hi : invariant Demo.store_a)
    by (apply check_linked_sound; vm_compute; reflexivity).
  assert (Hb : utf8 Demo.b_sql = Some Demo.b_sql) by (vm_compute; reflexivity).
  assert (Ha : utf8 Demo.a_sql = Some Demo.a_sql) by (vm_compute; reflexivity).
  destruct (update_saved_hash_returns Demo.store_a (u "ddl/a.sql") Demo.b_sql
              Demo.b_sql (Demo.E (u "ddl")) Demo.s0 Hb)
    as (self' & s1 & Hup & _).
  exists self', s1. split; [exact Hup|]. split.
  - rewrite (update_changes_one_answer _ _ _ _ _ _ _ _ (u "ddl/a.sql") _ _ s1
               Hi Hb Ha Hup).
    vm_compute. reflexivity.
  - rewrite (update_changes_one_answer _ _ _ _ _ _ _ _ (u "ddl/b.sql") _ _ s1
               Hi Hb Hb Hup).
    rewrite decide_False by (vm_compute; discriminate).
    rewrite (matches_saved_hash_run _ _ _ _ _ _ Hb). vm_compute. reflexivity.
Defined.

End Changes.

(* ===================================================================== *)
(** ** One record per repository *)
(* ===================================================================== *)

Section Records.

Implicit Types (self : t) (E : env) (s : state) (n : str).
Implicit Types (c : list document) (d : document).

Lemma is_for_triple (pn rn g : str) d :
  Mongo.is_for pn rn g d = true ↔ triple d = (pn, rn, g).
Proof.
  unfold Mongo.is_for, triple.
  rewrite !andb_true_iff, !bool_decide_eq_true. split.
  - by intros [[-> ->] ->].
  - intros H. by simplify_eq.
Qed.

Lemma triple_replace_first (q : document → bool) new c d :
  find q c = Some d → triple d = triple new →
  triple <$> Mongo.replace_first q new c = triple <$> c.
Proof.
  intros Hd Ht. induction c as [|x c IH]; [done|]. simpl in *.
  destruct (q x).
  - injection Hd as ->. simpl. by rewrite Ht.
  - simpl. f_equal. by apply IH.
Qed.

Lemma find_none_triple (pn rn g : str) c :
  find (Mongo.is_for pn rn g) c = None → (pn, rn, g) ∉ triple <$> c.
Proof.
  intros Hnone Hin. apply list_elem_of_fmap in Hin as (x & Hx & Hin).
  apply list_elem_of_In in Hin.
  pose proof (find_none _ _ Hnone x Hin) as Hno.
  symmetry in Hx. apply is_for_triple in Hx. congruence.
Qed.

Lemma save_one_per_triple self E s self' s' :
  well_kept (collection s) → placed self s →
  one_per_triple (collection s) →
  save self E s = (Return self', s') → one_per_triple (collection s').
Proof.
  intros [Hnd _] Hpl Hone Hsave. unfold placed in Hpl.
  unfold one_per_triple in *.
  destruct (Hashes._id (hashes self)) as [i|] eqn:Hi.
  - rewrite (save_stored _ _ _ _ Hi) in Hsave. simplify_eq. simpl.
    destruct Hpl as (d & Hd & Hdi).
    apply find_some in Hd as Hin. destruct Hin as [Hin Hfor].
    apply list_elem_of_In in Hin. apply is_for_triple in Hfor.
    by rewrite (triple_replace_first _ _ _ d)
      by (by apply find_by_id || done).
  - rewrite (save_new _ _ _ Hi) in Hsave. simplify_eq. simpl.
    rewrite fmap_app. apply NoDup_app. split; [done|].
    split; [|apply NoDup_singleton].
    intros t Ht Ht'. apply list_elem_of_singleton in Ht'. subst t.
    by apply (find_none_triple _ _ _ _ Hpl).
Qed.

Lemma in_step_placed self s : in_step self s → placed self s.
Proof.
  unfold in_step, placed.
  destruct (Hashes._id (hashes self)); [|by intros [? _]].
  intros (d & ? & ? & _). by exists d.
Qed.

(** However the loop ends, no triple gets a second document. *)
Lemma deploy_files_one_per_triple gp E l : ∀ hs s r s',
  invariant hs → in_step hs s → well_kept (collection s) →
  one_per_triple (collection s) →
  deploy_files hs gp l E s = (r, s') → one_per_triple (collection s').
Proof.
  induction l as [|f l IH]; intros hs s r s' Hinv Hstep Hwk Hone Hrun.
  { simpl in Hrun. unfold ret in Hrun. by simplify_eq. }
  destruct (read E f) as [e|sql] eqn:Hread.
  { cbn [deploy_files] in Hrun. unfold bind, get_sql in Hrun.
    rewrite Hread in Hrun. by simplify_eq. }
  destruct (utf8 sql) as [b|] eqn:Hb; cycle 1.
  { cbn [deploy_files] in Hrun. unfold bind, get_sql in Hrun.
    rewrite Hread in Hrun.
    unfold matches_saved_hash, bind, logging, encode_utf8 in Hrun.
    rewrite Hb in Hrun. unfold raise in Hrun. by simplify_eq. }
  rewrite (deploy_files_cons _ _ _ _ _ _ _ _ Hread Hb) in Hrun.
  cbv zeta in Hrun. case_bool_decide as Hh.
  { refine (IH _ _ _ _ Hinv _ _ _ Hrun); [|done..].
    exact (in_step_ext _ _ _ _ eq_refl eq_refl Hstep). }
  destruct (spawn E _ _ _) as [e|p]; [by simplify_eq|].
  destruct (returncode p =? 0)%Z; [|by simplify_eq].
  match type of Hrun with
  | context [update_saved_hash hs f sql E ?s_u] =>
      destruct (update_saved_hash_linked hs f sql b E s_u)
        as (hu & su & Hup & Hl); [by apply linked_invariant|done|]
  end.
  rewrite Hup in Hrun. apply linked_invariant in Hl.
  destruct (update_saved_hash_state _ _ _ _ _ _ _ Hup) as (Hco & _ & Hid).
  pose proof (update_saved_hash_triple _ _ _ _ _ _ _ Hup) as Htr.
  simpl in Hco.
  assert (Hwku : well_kept (collection su)) by (by rewrite Hco).
  assert (Hplu : placed hu su).
  { apply in_step_placed in Hstep. unfold placed in *.
    injection Htr as -> -> ->. by rewrite Hco, Hid. }
  destruct (save_returns hu E su) as (hs' & s1 & Hsave & _).
  rewrite Hsave in Hrun.
  destruct (save_in_step hu E su hs' s1 Hwku Hplu Hsave)
    as (Hstep' & _ & Hd & Hf).
  refine (IH _ _ _ _ _ Hstep' _ _ Hrun).
  - by eapply invariant_ext.
  - by eapply save_well_kept.
  - eapply save_one_per_triple; [exact Hwku|exact Hplu| |exact Hsave].
    by rewrite Hco.
Qed.

(** X17. The script never gives a repository a second record: on a
    collection in order in which no two documents are for the same
    (project, repository, Google project), a run, however it ends, leaves
    no two documents for the same triple. *)
Theorem one_record_per_repository E s r s' :
  well_kept (collection s) → one_per_triple (collection s) →
  main E s = (r, s') → one_per_triple (collection s').
Proof.
  intros Hwk Hone Hmain.
  unfold main, deploy, bind, os_environ, getitem, ret, raise in Hmain.
  repeat match type of Hmain with
  | context [environ E !! ?k] =>
      destruct (environ E !! k); [|by simplify_eq]
  end.
  destruct (split1 47 _ !! 0%nat) as [pn|]; [|by simplify_eq].
  destruct (split1 47 _ !! 1%nat) as [rn|]; [|by simplify_eq].
  match type of Hmain with
  | context [__init__ ?a ?b ?c ?d ?e E s] =>
      destruct (init_in_step a b c d e E s Hwk)
        as (self & s1 & Hinit & Hinv & Hstep & Hco & _)
  end.
  rewrite Hinit in Hmain.
  match type of Hmain with
  | context [find_ddl_files ?path E s1] =>
      destruct (listdir E path) as [e|entries] eqn:Hl;
        [rewrite (find_ddl_files_unlisted _ _ _ _ Hl) in Hmain
        |rewrite (find_ddl_files_listed _ _ _ _ Hl) in Hmain]
  end.
  - simpl in Hmain. unfold ret in Hmain. simplify_eq. simpl. by rewrite Hco.
  - cbv zeta in Hmain.
    refine (deploy_files_one_per_triple _ _ _ _ _ _ _ Hinv _ _ _ Hmain).
    + exact (in_step_ext _ _ _ _ eq_refl eq_refl Hstep).
    + simpl. by rewrite Hco.
    + simpl. by rewrite Hco.
Qed.

Lemma one_record_per_repository_witness :
  ∃ r s' r2 s2,
    main Demo2.E Demo.s0 = (r, s')
    ∧ main Demo2.E_no_bq s' = (r2, s2)
    ∧ length (collection s') = 1%nat
    ∧ one_per_triple (collection s2).
Proof.
  assert (Hwk : well_kept (collection Demo.s0)).
  { split; [apply NoDup_nil_2|]. intros d Hd. by apply elem_of_nil in Hd. }
  assert (Hone : one_per_triple (collection Demo.s0)) by apply NoDup_nil_2.
  destruct (main Demo2.E Demo.s0) as [r s'] eqn:Hmain.
  destruct (main Demo2.E_no_bq s') as [r2 s2] eqn:Hmain2.
  exists r, s', r2, s2. split; [done|]. split; [done|].
  split.
  { change s' with (snd (r, s')). rewrite <- Hmain. vm_compute. reflexivity. }
  apply (one_record_per_repository Demo2.E_no_bq s' r2 s2); [| |exact Hmain2].
  - by apply (main_well_kept Demo2.E Demo.s0 r s').
  - by apply (one_record_per_repository Demo2.E Demo.s0 r s').
Defined.

End Records.

(* ===================================================================== *)
(** ** What is saved is what is loaded *)
(* ===================================================================== *)

Section RoundTrip.

Implicit Types (self : t) (E : env) (s : state) (n : str).
Implicit Types (c : list document) (d : document).




End RoundTrip.

(* ===================================================================== *)
(** ** Where the credentials go *)
(* ===================================================================== *)

Section Credentials.

Implicit Types (self hs : t) (E : env) (s : state) (n : str).









End Credentials.
